(** * Grounding and policing of oracle plans: a shallow embedding

    The development follows the Python sources of the agent:

    - [ObservationAnalyzer.analyze]  (ObservationAnalyzer.py), the row
      inclusion policy of the fusion pass and the spatial labels;
    - [ConcretePlanner.build_bid_index], [refine_bid_index_with_llm],
      [validate_plan] and [run_repair_loop] (ConcretePlanner.py);
    - [build_action_code] and [inject_final_hover]
      (Autonomus_agent_main.py).

    Python values that travel through JSON are embedded as [pyval];
    dictionaries are insertion-ordered association lists; the table of the
    observation (a pandas DataFrame) is a list of row records.  A text is
    the sequence of the bytes of its UTF-8 encoding; what Python computes
    from the Unicode tables, from floating-point rounding and from the
    hashing of a set is taken through the interface [PyStr.Python]. *)

From Stdlib Require Import List String Ascii ZArith QArith Qabs Lia Bool.
From Stdlib Require Import Permutation Sorted.
From Stdlib Require Import Numbers.DecimalString.
Import ListNotations.

#[local] Set Warnings "-register-all,-notation-for-abbreviation".

Local Open Scope list_scope.
Local Open Scope string_scope.
Local Open Scope Z_scope.

(* ================================================================== *)
(** ** Python strings *)
(* ================================================================== *)

(** A text is the sequence of the bytes of its UTF-8 encoding.  Equality,
    concatenation, search for a substring, replacement of a substring
    and splitting at an ASCII character are the same on the bytes as on
    the characters.  The operations that look into the Unicode tables
    ([strip], [lower], [upper], [len], slicing, [repr]) are methods of
    the interface [Python] below; the functions named [ascii_...] are
    what they do on texts made of ASCII characters. *)
Module PyStr.

Definition is_upper (c : ascii) : bool :=
  let n := nat_of_ascii c in (65 <=? n)%nat && (n <=? 90)%nat.

Definition is_lower (c : ascii) : bool :=
  let n := nat_of_ascii c in (97 <=? n)%nat && (n <=? 122)%nat.

Definition lower_char (c : ascii) : ascii :=
  if is_upper c then ascii_of_nat (nat_of_ascii c + 32) else c.

Definition upper_char (c : ascii) : ascii :=
  if is_lower c then ascii_of_nat (nat_of_ascii c - 32) else c.

Fixpoint map_chars (f : ascii -> ascii) (s : string) : string :=
  match s with
  | EmptyString => EmptyString
  | String c s' => String (f c) (map_chars f s')
  end.

(** [s.lower()] and [s.upper()] on an ASCII text *)
Definition ascii_lower : string -> string := map_chars lower_char.
Definition ascii_upper : string -> string := map_chars upper_char.

(** Python's whitespace below 128: TAB..CR, FS..US and the space. *)
Definition is_space (c : ascii) : bool :=
  let n := nat_of_ascii c in
  ((9 <=? n)%nat && (n <=? 13)%nat) || ((28 <=? n)%nat && (n <=? 32)%nat).

Fixpoint ascii_lstrip (s : string) : string :=
  match s with
  | EmptyString => EmptyString
  | String c s' => if is_space c then ascii_lstrip s' else s
  end.

Fixpoint ascii_rstrip (s : string) : string :=
  match s with
  | EmptyString => EmptyString
  | String c s' =>
      match ascii_rstrip s' with
      | EmptyString => if is_space c then EmptyString else String c EmptyString
      | t => String c t
      end
  end.

(** [s.strip()] on an ASCII text *)
Definition ascii_strip (s : string) : string := ascii_rstrip (ascii_lstrip s).

(** [p in s] *)
Fixpoint contains (p s : string) : bool :=
  prefix p s ||
  match s with
  | EmptyString => false
  | String _ s' => contains p s'
  end.

(** [s.replace(old, new)] for a non-empty [old] (the program only ever
    replaces the fixed tokens ["_"] and ["extractValue"]): occurrences
    are replaced from the left, without overlap.  [skip] counts the
    characters of a matched occurrence still to be dropped. *)
Fixpoint replace_from (old new : string) (skip : nat) (s : string) : string :=
  match s with
  | EmptyString => EmptyString
  | String c s' =>
      match skip with
      | S k => replace_from old new k s'
      | O =>
          if prefix old s
          then new ++ replace_from old new (String.length old - 1) s'
          else String c (replace_from old new 0 s')
      end
  end.

Definition replace (old new s : string) : string := replace_from old new 0 s.

(** [sep.join(l)] *)
Fixpoint join (sep : string) (l : list string) : string :=
  match l with
  | [] => EmptyString
  | [x] => x
  | x :: l' => x ++ sep ++ join sep l'
  end.

(** [x in l] for a list of strings *)
Definition mem (x : string) (l : list string) : bool :=
  existsb (String.eqb x) l.

(** [s.split('|')] *)
Fixpoint split_on (d : ascii) (s : string) : list string :=
  match s with
  | EmptyString => [EmptyString]
  | String c s' =>
      if Ascii.eqb c d then EmptyString :: split_on d s'
      else match split_on d s' with
           | [] => [String c EmptyString]
           | w :: ws => String c w :: ws
           end
  end.

Definition Z_to_string (z : Z) : string := NilZero.string_of_int (Z.to_int z).

(** The double quote and the text made of it. *)
Definition dquote : ascii := ascii_of_nat 34.
Definition dq : string := String dquote EmptyString.

Definition is_digit (c : ascii) : bool :=
  let n := nat_of_ascii c in (48 <=? n)%nat && (n <=? 57)%nat.

(** The characters of [s] that satisfy [f], in order: [re.sub] with a
    negated character class and an empty replacement. *)
Fixpoint keep_chars (f : ascii -> bool) (s : string) : string :=
  match s with
  | EmptyString => EmptyString
  | String c s' => if f c then String c (keep_chars f s') else keep_chars f s'
  end.

(** Every character of [s] satisfies [f]. *)
Fixpoint all_chars (f : ascii -> bool) (s : string) : bool :=
  match s with
  | EmptyString => true
  | String c s' => f c && all_chars f s'
  end.

Fixpoint lstrip_by (f : ascii -> bool) (s : string) : string :=
  match s with
  | EmptyString => EmptyString
  | String c s' => if f c then lstrip_by f s' else s
  end.

Fixpoint rstrip_by (f : ascii -> bool) (s : string) : string :=
  match s with
  | EmptyString => EmptyString
  | String c s' =>
      match rstrip_by f s' with
      | EmptyString => if f c then EmptyString else String c EmptyString
      | t => String c t
      end
  end.

(** [s.strip(chars)] for the set of characters that satisfy [f] *)
Definition strip_by (f : ascii -> bool) (s : string) : string :=
  rstrip_by f (lstrip_by f s).

Definition hex_digit (n : nat) : ascii :=
  if (n <? 10)%nat then ascii_of_nat (48 + n) else ascii_of_nat (87 + n).

Definition hex2 (n : nat) : string :=
  String (hex_digit (n / 16)) (String (hex_digit (n mod 16)) EmptyString).

(** One character of [repr(s)], [q] being the quote chosen for [s]. *)
Definition repr_char (q c : ascii) : string :=
  let n := nat_of_ascii c in
  if Ascii.eqb c "\" then "\\"
  else if Ascii.eqb c q then String "\" (String q EmptyString)
  else if (n =? 10)%nat then "\n"
  else if (n =? 13)%nat then "\r"
  else if (n =? 9)%nat then "\t"
  else if (n <? 32)%nat || (n =? 127)%nat then "\x" ++ hex2 n
  else String c EmptyString.

Fixpoint concat_map (f : ascii -> string) (s : string) : string :=
  match s with
  | EmptyString => EmptyString
  | String c s' => f c ++ concat_map f s'
  end.

(** [repr(s)] of an ASCII [str]: single quotes, unless the text has a
    single quote and no double quote. *)
Definition ascii_repr_str (s : string) : string :=
  let q : ascii :=
    if contains "'" s && negb (contains dq s) then dquote else "'"%char in
  String q (concat_map (repr_char q) s) ++ String q EmptyString.

(** Every character of the text is an ASCII character. *)
Definition is_ascii (s : string) : bool :=
  all_chars (fun c => (nat_of_ascii c <? 128)%nat) s.

(** The part of the Python runtime that this development does not look
    inside.

    - [strip], [lower], [upper], [len], [slice] and [repr_str] are
      [s.strip()], [s.lower()], [s.upper()], [len(s)], [s[:n]] and
      [repr(s)] of a [str]: they count and classify characters, not
      bytes, with the Unicode tables (the whitespace that [strip]
      removes includes U+00A0 and U+3000; [repr] escapes what is not
      printable).  On ASCII texts they are the functions above.
    - [fadd], [fsub] and [fdiv] are [+], [-] and [/] on the numbers of a
      bounding box, which are floats: the exact result, rounded.
    - [set_order l] is the order in which a [set] built from the
      elements of [l] is iterated: each element once, in an order left
      to the hash function. *)
Class Python : Type := {
  strip : string -> string;
  lower : string -> string;
  upper : string -> string;
  len : string -> nat;
  slice : nat -> string -> string;
  repr_str : string -> string;
  fadd : Q -> Q -> Q;
  fsub : Q -> Q -> Q;
  fdiv : Q -> Q -> Q;
  set_order : list string -> list string;
  strip_ascii : forall s, is_ascii s = true -> strip s = ascii_strip s;
  lower_ascii : forall s, is_ascii s = true -> lower s = ascii_lower s;
  upper_ascii : forall s, is_ascii s = true -> upper s = ascii_upper s;
  len_ascii : forall s, is_ascii s = true -> len s = String.length s;
  slice_ascii : forall n s, is_ascii s = true -> slice n s = substring 0 n s;
  repr_str_ascii : forall s, is_ascii s = true -> repr_str s = ascii_repr_str s;
  strip_cuts :
    forall s, exists a b, s = a ++ strip s ++ b /\ strip a = "" /\ strip b = "";
  set_order_In : forall l x, In x (set_order l) <-> In x l;
  set_order_NoDup : forall l, NoDup (set_order l)
}.

End PyStr.

(* ================================================================== *)
(** ** Python values and dictionaries *)
(* ================================================================== *)

(** The values that [json.loads] produces (numbers are the integers; the
    program never computes with a fractional payload). *)
Inductive pyval : Type :=
| PNone
| PBool (b : bool)
| PInt (z : Z)
| PStr (s : string)
| PList (l : list pyval)
| PDict (d : list (string * pyval)).

(** A [dict] with string keys, in insertion order. *)
Definition pydict : Type := list (string * pyval).

Module Py.
Import PyStr.

(** [bool(v)] *)
Definition truthy (v : pyval) : bool :=
  match v with
  | PNone => false
  | PBool b => b
  | PInt z => negb (z =? 0)
  | PStr s => negb (String.eqb s "")
  | PList l => match l with [] => false | _ => true end
  | PDict d => match d with [] => false | _ => true end
  end.

(** [hash(v)] succeeds: lists and dicts are unhashable. *)
Definition hashable (v : pyval) : bool :=
  match v with
  | PList _ | PDict _ => false
  | _ => true
  end.

(** [v == s] for a string literal [s] *)
Definition eq_str (v : pyval) (s : string) : bool :=
  match v with
  | PStr t => String.eqb t s
  | _ => false
  end.

(** [v in l] for a list (or set) of string literals; on a set the
    caller checks [hashable] first. *)
Definition in_strs (v : pyval) (l : list string) : bool :=
  match v with
  | PStr t => mem t l
  | _ => false
  end.

(** [v == 0]: Python's [False] equals [0]. *)
Definition eq_zero (v : pyval) : bool :=
  match v with
  | PInt z => z =? 0
  | PBool b => negb b
  | _ => false
  end.

(** [isinstance(v, dict)] *)
Definition is_dict (v : pyval) : bool :=
  match v with PDict _ => true | _ => false end.

(** [a or b] *)
Definition or_else (a b : pyval) : pyval := if truthy a then a else b.

(** *** Dictionaries *)

Fixpoint lookup (k : string) (d : pydict) : option pyval :=
  match d with
  | [] => None
  | (k', v) :: d' => if String.eqb k' k then Some v else lookup k d'
  end.

(** [d.get(k)] *)
Definition get (k : string) (d : pydict) : pyval :=
  match lookup k d with Some v => v | None => PNone end.

(** [d.get(k, dflt)] *)
Definition get_default (k : string) (dflt : pyval) (d : pydict) : pyval :=
  match lookup k d with Some v => v | None => dflt end.

(** [k in d] *)
Definition has_key (k : string) (d : pydict) : bool :=
  match lookup k d with Some _ => true | None => false end.

(** [d[k] = v]: an existing key keeps its position, a new one goes last. *)
Fixpoint set (k : string) (v : pyval) (d : pydict) : pydict :=
  match d with
  | [] => [(k, v)]
  | (k', v') :: d' =>
      if String.eqb k' k then (k, v) :: d' else (k', v') :: set k v d'
  end.

Definition keys (d : pydict) : list string := map fst d.

(** *** [repr] and [str] *)

Section Printing.
Context `{Python}.

Fixpoint repr (v : pyval) : string :=
  match v with
  | PNone => "None"
  | PBool true => "True"
  | PBool false => "False"
  | PInt z => Z_to_string z
  | PStr s => repr_str s
  | PList l => "[" ++ join ", " (map repr l) ++ "]"
  | PDict d =>
      "{" ++ join ", "
               (map (fun kv => match kv with
                               | (k, x) => repr_str k ++ ": " ++ repr x
                               end) d) ++ "}"
  end.

(** [str(v)] *)
Definition str (v : pyval) : string :=
  match v with
  | PStr s => s
  | _ => repr v
  end.

End Printing.

(** *** [json.dumps] with its default separators *)

(** One character inside a JSON string.  The bytes of a character that
    is not ASCII are passed through, as [ensure_ascii=False] has it;
    without that option Python writes the character as [\uXXXX], which
    holds no upper-case letter and so no part of ["NOT_FOUND"]. *)
Definition json_char (c : ascii) : string :=
  let n := nat_of_ascii c in
  if Ascii.eqb c dquote then String "\" dq
  else if Ascii.eqb c "\" then "\\"
  else if (n =? 10)%nat then "\n"
  else if (n =? 13)%nat then "\r"
  else if (n =? 9)%nat then "\t"
  else if (n =? 8)%nat then "\b"
  else if (n =? 12)%nat then "\f"
  else if (n <? 32)%nat then "\u00" ++ hex2 n
  else String c EmptyString.

Definition json_string (s : string) : string :=
  dq ++ concat_map json_char s ++ dq.

Fixpoint json_dumps (v : pyval) : string :=
  match v with
  | PNone => "null"
  | PBool true => "true"
  | PBool false => "false"
  | PInt z => Z_to_string z
  | PStr s => json_string s
  | PList l => "[" ++ join ", " (map json_dumps l) ++ "]"
  | PDict d =>
      "{" ++ join ", "
               (map (fun kv => match kv with
                               | (k, x) => json_string k ++ ": " ++ json_dumps x
                               end) d) ++ "}"
  end.

End Py.

(* ================================================================== *)
(** ** The observation table *)
(* ================================================================== *)

(** A bounding box [x, y, w, h].  Coordinates are the numbers of the
    side table of visual properties, taken as rationals. *)
Definition bbox : Type := (Q * Q * Q * Q)%type.

Definition Qltb (a b : Q) : bool := negb (Qle_bool b a).

(** One row of the DataFrame that [analyze] returns, with the columns
    that the filter, the indexer and the validator read.  [BBox] keeps the box
    itself where the DataFrame keeps its printed form. *)
Record row : Type := mkRow {
  BID : string;
  Role : string;
  Tag : string;
  Label_L : string;
  Label_A : string;
  Label_AX : string;
  Label_P : string;
  InnerT : string;
  Value : string;
  Focused : string;
  Status : string;
  HasPop : string;
  JS : string;
  Hover_Strat : string;
  Vis : Q;
  BBox : option bbox;
  Class : string
}.

(** The DataFrame: its rows, in order.  A table stands for a frame that
    has its columns, also when it has no row (as after a filter); the
    frame without columns that pandas builds from an empty list of
    records, on which a column look-up raises, is not one. *)
Definition table : Type := list row.

(* ================================================================== *)
(** ** ObservationAnalyzer: the fusion pass *)
(* ================================================================== *)

Module ObservationAnalyzer.
Import PyStr.

(** One entry of [unified_map], as [_fuse_all_data] builds it. *)
Record element : Type := mkElement {
  Internal_ID : Z;
  e_Tag : string;
  e_Role : string;
  AX_Name : string;
  e_InnerT : string;
  e_Value : string;
  e_BBox : option bbox;
  e_Vis : Q;
  Z_Index : Z;
  Clickable : bool;
  Attributes : list (string * string);
  AX_Props : pydict
}.

(** [unified_map]: element identifier to fused record, in document
    order.  Being a dictionary, it holds each identifier once. *)
Definition unified_map : Type := list (string * element).

(** [bbox and len(bbox) >= 4 and bbox[2] >= 1 and bbox[3] >= 1] *)
Definition has_physical_size (data : element) : bool :=
  match e_BBox data with
  | Some (_, _, w, h) => Qle_bool 1 w && Qle_bool 1 h
  | None => false
  end.

(** [data['Tag'] in ['INPUT', 'SELECT', 'TEXTAREA', 'BUTTON', 'A']] *)
Definition interactive_tag (data : element) : bool :=
  mem (e_Tag data) ["INPUT"; "SELECT"; "TEXTAREA"; "BUTTON"; "A"].

(** [is_interactive = data['Tag'] in [...] or data['Clickable']] *)
Definition is_interactive (data : element) : bool :=
  interactive_tag data || Clickable data.

(** [any(bbox)] *)
Definition any_coord (b : bbox) : bool :=
  match b with
  | (x, y, w, h) =>
      negb (Qeq_bool x 0) || negb (Qeq_bool y 0) ||
      negb (Qeq_bool w 0) || negb (Qeq_bool h 0)
  end.

Section Fusion.
Context `{Python}.

(** The body of the loop of [_get_spatial_labels] for one other record. *)
Definition spatial_step (bid : string) (t : bbox) (acc : string * string)
           (other : string * element) : string * string :=
  let '(s_bid, s_data) := other in
  let '(tx, ty, tw, th) := t in
  let '(l_label, a_label) := acc in
  match e_BBox s_data with
  | None => acc
  | Some (sx, sy, sw, sh) =>
      if String.eqb s_bid bid then acc
      else
        let txt := e_InnerT s_data in
        if String.eqb txt "" || (40 <? len txt)%nat then acc
        else
          let l_label' :=
            if Qltb (Qabs (fsub ty sy)) 15 &&
               Qltb 0 (fsub tx (fadd sx sw)) && Qltb (fsub tx (fadd sx sw)) 160
            then txt else l_label in
          let a_label' :=
            if Qltb (Qabs (fsub (fadd tx (fdiv tw 2)) (fadd sx (fdiv sw 2)))) 50 &&
               Qltb 0 (fsub ty (fadd sy sh)) && Qltb (fsub ty (fadd sy sh)) 60
            then txt else a_label in
          (l_label', a_label')
  end.

(** [_get_spatial_labels(bid, data)] *)
Definition get_spatial_labels (umap : unified_map) (bid : string)
           (data : element) : string * string :=
  match e_BBox data with
  | None => ("", "")
  | Some t =>
      if negb (any_coord t) then ("", "")
      else fold_left (spatial_step bid t) umap ("", "")
  end.

(** [str(data['Attributes']) + " " + str(data['AX_Props'])], lower-cased *)
Definition blob (data : element) : string :=
  lower (Py.repr (PDict (map (fun kv => (fst kv, PStr (snd kv))) (Attributes data)))
         ++ " " ++ Py.repr (PDict (AX_Props data))).

(** [checked_val is True or str(checked_val).lower() == 'true'] *)
Definition is_checked (data : element) : bool :=
  let checked_val := Py.get "checked" (AX_Props data) in
  match checked_val with
  | PBool true => true
  | _ => String.eqb (lower (Py.str checked_val)) "true"
  end.

Definition current_status (data : element) : string :=
  let status_parts :=
    ((if contains "required" (blob data) then ["Required"] else []) ++
     (if is_checked data then ["Checked"] else []))%list in
  match status_parts with
  | [] => "Active"
  | _ => join "|" status_parts
  end.

(** [d.get('class', '')] on the attribute map *)
Definition attr_get (k : string) (attrs : list (string * string)) : string :=
  match find (fun kv => String.eqb (fst kv) k) attrs with
  | Some kv => snd kv
  | None => ""
  end.

(** The two [continue] tests at the head of the loop of [analyze]:
    [true] when the record goes on to become a row. *)
Definition keeps (focused_bid bid : string) (data : element) : bool :=
  if negb (has_physical_size data) && negb (String.eqb bid focused_bid)
  then false
  else if Qeq_bool (e_Vis data) 0 && negb (String.eqb bid focused_bid)
          && negb (is_interactive data)
  then false
  else true.

(** The record appended for a kept element. *)
Definition record_of (umap : unified_map) (focused_bid bid : string)
           (data : element) : row :=
  let '(l_lab, a_lab) := get_spatial_labels umap bid data in
  {| BID := bid;
     Role := e_Role data;
     Tag := e_Tag data;
     Label_L := l_lab;
     Label_A := a_lab;
     Label_AX := AX_Name data;
     Label_P := Py.str (Py.get_default "placeholder" (PStr "") (AX_Props data));
     InnerT := slice 500 (e_InnerT data);
     Value := e_Value data;
     Focused := if String.eqb bid focused_bid then "YES" else "no";
     Status := current_status data;
     HasPop := if contains "haspopup" (blob data) then "YES" else "no";
     JS := if Clickable data then "YES" else "no";
     Hover_Strat := if contains "haspopup" (blob data) then "Investigate" else "None";
     Vis := e_Vis data;
     BBox := e_BBox data;
     Class := slice 100 (attr_get "class" (Attributes data)) |}.

(** The loop of [analyze] over [unified_map.items()]. *)
Fixpoint analyze_loop (umap : unified_map) (focused_bid : string)
         (items : list (string * element)) : table :=
  match items with
  | [] => []
  | (bid, data) :: rest =>
      if keeps focused_bid bid data
      then record_of umap focused_bid bid data
           :: analyze_loop umap focused_bid rest
      else analyze_loop umap focused_bid rest
  end.

Definition analyze (umap : unified_map) (focused_bid : string) : table :=
  analyze_loop umap focused_bid umap.

(** The box is absent, or it has no area. *)
Definition spatially_unverifiable (data : element) : Prop :=
  match e_BBox data with
  | None => True
  | Some (_, _, w, h) => (w * h == 0)%Q
  end.

(** The cell of the [Expanded] column for a kept element:
    ["Open" if 'expanded="true"' in blob else "no"]. *)
Definition Expanded (data : element) : string :=
  if contains ("expanded=" ++ dq ++ "true" ++ dq) (blob data) then "Open" else "no".

(** The [Expanded] column of the table of [analyze], row by row. *)
Fixpoint expanded_loop (focused_bid : string)
         (items : list (string * element)) : list string :=
  match items with
  | [] => []
  | (bid, data) :: rest =>
      if keeps focused_bid bid data
      then Expanded data :: expanded_loop focused_bid rest
      else expanded_loop focused_bid rest
  end.

Definition analyze_expanded (umap : unified_map) (focused_bid : string) : list string :=
  expanded_loop focused_bid umap.

End Fusion.

(** A record of [unified_map] with its [Parent_NodeID], the [parentId]
    of the accessibility node or [None]. *)
Definition linked : Type := (element * option string)%type.
Definition linked_map : Type := list (string * linked).

(** [self.unified_map.get(curr_bid)] *)
Definition umap_get (bid : string) (m : linked_map) : option linked :=
  option_map snd (find (fun e => String.eqb (fst e) bid) m).

(** [str(p_id)] *)
Definition str_opt (p_id : option string) : string :=
  match p_id with
  | Some s => s
  | None => "None"
  end.

(** [next((b for b, d in self.unified_map.items()
           if str(d.get('Internal_ID')) == str(p_id)), None)] *)
Definition parent_bid (m : linked_map) (p_id : option string) : option string :=
  option_map fst
    (find (fun e => String.eqb (Z_to_string (Internal_ID (fst (snd e)))) (str_opt p_id)) m).

(** [node['AX_Name'] or node['Attributes'].get('aria-label')] *)
Definition node_name (node : element) : option string :=
  if negb (String.eqb (AX_Name node) "") then Some (AX_Name node)
  else option_map snd
         (find (fun kv => String.eqb (fst kv) "aria-label") (Attributes node)).

Definition landmark_roles : list string :=
  ["form"; "region"; "navigation"; "main"; "banner"].

(** The two nested tests of the loop body on [path]. *)
Definition extend_path (path : list string) (node : element) : list string :=
  match node_name node with
  | Some name =>
      if mem (e_Role node) landmark_roles && negb (String.eqb name "")
      then if mem name path then path else (path ++ [name])%list
      else path
  | None => path
  end.

(** The [while] loop of [_get_hierarchical_area], one iteration for each
    unit of [fuel]; [None] when the fuel runs out before the loop ends. *)
Fixpoint area_loop (fuel : nat) (m : linked_map) (path : list string)
         (curr_bid : option string) (visited : list string) : option (list string) :=
  match fuel with
  | O => None
  | S fuel' =>
      match curr_bid with
      | None => Some path
      | Some b =>
          if String.eqb b "" || mem b visited then Some path
          else
            match umap_get b m with
            | None => Some path
            | Some (node, p_id) =>
                area_loop fuel' m (extend_path path node) (parent_bid m p_id)
                          (b :: visited)
            end
      end
  end.

(** [" > ".join(reversed(path)) if path else "Main Content"] *)
Definition area_text (path : list string) : string :=
  match path with
  | [] => "Main Content"
  | _ => join " > " (rev path)
  end.

(** [_get_hierarchical_area(bid)], with one unit of fuel for each record
    of the map and one for the last test of the loop. *)
Definition get_hierarchical_area (m : linked_map) (bid : string) : option string :=
  option_map area_text (area_loop (S (List.length m)) m [] (Some bid) []).

End ObservationAnalyzer.

(* ================================================================== *)
(** ** ObservationFilter: the two density policies *)
(* ================================================================== *)

Module ObservationFilter.
Import PyStr.

Inductive mode : Type := Light | Aggressive | OFF.

Definition interactive_roles : list string :=
  ["button"; "link"; "textbox"; "combobox"; "checkbox"; "radio"; "menuitem";
   "searchbox"; "listbox"; "tab"; "treeitem"; "option"; "LabelText"].

Definition input_tags : list string :=
  ["input"; "select"; "textarea"; "button"; "a"; "label"].

Section Policies.
Context `{Python}.

Definition critical (r : row) : bool :=
  String.eqb (Focused r) "YES" ||
  (0 <? len (Value r))%nat ||
  String.eqb (Hover_Strat r) "Investigate" ||
  String.eqb (HasPop r) "YES".

Definition is_interactive (r : row) : bool :=
  mem (Role r) interactive_roles ||
  String.eqb (JS r) "YES" ||
  mem (lower (Tag r)) input_tags.

Definition has_text (r : row) : bool :=
  (0 <? len (strip (InnerT r)))%nat.

Definition is_label (r : row) : bool :=
  (String.eqb (Role r) "StaticText" || String.eqb (Tag r) "SPAN") &&
  (1 <? len (strip (InnerT r)))%nat &&
  (len (strip (InnerT r)) <? 100)%nat.

(** [ObservationFilter.apply(df, mode)] *)
Definition apply (df : table) (m : mode) : table :=
  match m with
  | OFF => df
  | Light => filter (fun r => critical r || is_interactive r || has_text r) df
  | Aggressive => filter (fun r => critical r || is_interactive r || is_label r) df
  end.

End Policies.

End ObservationFilter.

(* ================================================================== *)
(** ** Plans, manifests and validation errors *)
(* ================================================================== *)

(** An action descriptor: the JSON object the oracle writes. *)
Definition action : Type := pydict.

(** A concrete step [{step_id, actions}]; a key that the object lacks is
    [None]. *)
Record step : Type := mkStep {
  step_id : option pyval;
  actions : option (list action)
}.

(** The manifest of the goal analysis, as far as the planner reads it:
    [manifest.get("mission_intent")], the [mission_intent] of
    [task_metadata], and [specification.FIELDS]. *)
Record manifest : Type := mkManifest {
  mission_intent : pyval;
  task_mission_intent : option pyval;
  FIELDS : pydict
}.

(** The diagnostics of [validate_plan].  Each constructor stands for one
    of its message templates and carries what the template interpolates. *)
Inductive verr : Type :=
| MissingFields (truly_missing : list string)
| UndefinedAction (sid a_type : pyval)
| ExtractWithoutInstruction (sid : pyval)
| ScrollWithoutArgs (sid : pyval)
| LabelTarget (sid : pyval) (bid : string) (correct_bid_suggestion : pyval)
| RedundantClick (sid logic_ref : pyval).

(** Python exceptions that the modelled code can raise. *)
Inductive pyexc : Type :=
| TypeError
| AttributeError
| UnboundLocalError.

Inductive result (A : Type) : Type :=
| Ok (a : A)
| Raise (e : pyexc).

Arguments Ok {A} a.
Arguments Raise {A} e.

Definition rbind {A B : Type} (m : result A) (k : A -> result B) : result B :=
  match m with
  | Ok a => k a
  | Raise e => Raise e
  end.

(** The part of pandas that the planner calls and this development does
    not look inside: the regular-expression search of
    [Series.str.contains(pat, case=False, na=False)] on one cell, and
    [DataFrame.sort_values(col, ascending=False)], which returns the rows
    by decreasing score and leaves the order of equal scores to the
    sorting routine. *)
Class Pandas : Type := {
  str_contains : string -> string -> bool;
  sort_values_desc : (row -> Z) -> table -> table;
  sort_values_perm :
    forall (f : row -> Z) (df : table), Permutation (sort_values_desc f df) df;
  sort_values_sorted :
    forall (f : row -> Z) (df : table),
      StronglySorted (fun a b => f b <= f a) (sort_values_desc f df)
}.

(* ================================================================== *)
(** ** ConcretePlanner: the field index *)
(* ================================================================== *)

Module ConcretePlanner.
Import PyStr.

Section Index.
Context `{Python} `{Pandas}.

Definition intent_mapping : list (string * string) :=
  [("FIND", "SEARCH_ANSWER"); ("QUERY", "SEARCH_ANSWER"); ("LOOK FOR", "SEARCH_ANSWER");
   ("SEARCH", "SEARCH_ANSWER"); ("GET", "SEARCH_ANSWER");
   ("MAKE", "CREATE"); ("NEW", "CREATE"); ("INSERT", "CREATE"); ("ADD", "CREATE");
   ("EDIT", "UPDATE"); ("MODIFY", "UPDATE"); ("CHANGE", "UPDATE"); ("FIX", "UPDATE");
   ("VIEW", "SHOW"); ("READ", "SHOW"); ("DISPLAY", "SHOW"); ("CHECK", "SHOW")].

(** [intent_mapping.get(raw_intent, raw_intent)] after
    [str(raw_intent).upper().strip()] *)
Definition normalized_intent (m : manifest) : string :=
  let raw_intent :=
    Py.or_else (mission_intent m)
               (match task_mission_intent m with
                | Some v => v
                | None => PStr ""
                end) in
  let raw_intent := strip (upper (Py.str raw_intent)) in
  match find (fun kv => String.eqb (fst kv) raw_intent) intent_mapping with
  | Some kv => snd kv
  | None => raw_intent
  end.

(** [get_bbox_coords]: the box of a row, or zeros when there is none. *)
Definition get_bbox_coords (bbox_val : option bbox) : bbox :=
  match bbox_val with
  | Some coords => coords
  | None => (0, 0, 0, 0)%Q
  end.

(** [field_key.lower().replace("_", " ")] *)
Definition norm_key_of (field_key : string) : string :=
  replace "_" " " (lower field_key).

(** The mask over [search_cols]. *)
Definition field_mask (norm_key : string) (r : row) : bool :=
  str_contains norm_key (Label_L r) ||
  str_contains norm_key (Label_A r) ||
  str_contains norm_key (Label_AX r) ||
  str_contains norm_key (InnerT r) ||
  str_contains norm_key (Label_P r).

Definition INPUT_ROLES : list string :=
  ["input"; "textarea"; "select"; "combobox"; "checkbox"; "radio"; "searchbox"; "textbox"].

Definition INPUT_TAGS : list string := ["input"; "select"; "textarea"; "button"].

(** [role in INPUT_ROLES or tag in INPUT_TAGS] *)
Definition interactive_row (r : row) : bool :=
  mem (strip (lower (Role r))) INPUT_ROLES || mem (strip (lower (Tag r))) INPUT_TAGS.

(** [role in ['none', 'label', 'text'] or tag == 'label'] *)
Definition passive_row (r : row) : bool :=
  mem (strip (lower (Role r))) ["none"; "label"; "text"] ||
  String.eqb (strip (lower (Tag r))) "label".

Definition score_row (norm_key : string) (r : row) : Z :=
  let score := 0 in
  let score := if interactive_row r then score + 150 else score in
  let score := if passive_row r then score - 20 else score in
  let score := if Qltb 0 (Vis r) then score + 50 else score in
  let score := if String.eqb norm_key (lower (Label_L r)) then score + 20 else score in
  score.

Definition NOT_FOUND : pyval := PStr "NOT_FOUND".

(** The binding written for the best row. *)
Definition binding_of (best : row) : pyval :=
  PDict [("bid", PStr (BID best));
         ("role", PStr (Role best));
         ("label", PStr (if negb (String.eqb (Label_L best) "")
                         then Label_L best else InnerT best));
         ("is_visible", PBool (Qltb 0 (Vis best)))].

(** The body of the loop over [fields.keys()]: the entry of one field. *)
Definition index_field (raw_df : table) (field_key : string) : pyval :=
  let norm_key := norm_key_of field_key in
  let matches := filter (field_mask norm_key) raw_df in
  match sort_values_desc (score_row norm_key) matches with
  | [] => NOT_FOUND
  | best :: _ =>
      if 50 <=? score_row norm_key best then binding_of best else NOT_FOUND
  end.

(** Part A of [build_bid_index]. *)
Definition index_fields (fields : pydict) (raw_df : table) : pydict :=
  fold_left (fun index_map field_key =>
               Py.set field_key (index_field raw_df field_key) index_map)
            (Py.keys fields) [].

Definition score_search_priority (r : row) : Z :=
  let s := 100 in
  let '(x, y, w, h) := get_bbox_coords (BBox r) in
  let s := if Qltb 150 y then s + 400 else s in
  let s := if Qltb 250 w then s + 150 else s in
  let s := if contains "minimum" (lower (Label_P r)) then s + 300 else s in
  s.

Definition exec_keywords : string := "Submit|Save|Create|Insert|Order|Send|Confirm|Update".

Definition info_keywords : string :=
  "View|Show|Detail|List|Linked|Account|Subscription|History|Log|Info|Help".

Definition score_button_priority (r : row) : Z :=
  let s := 100 in
  let '(x, y, w, h) := get_bbox_coords (BBox r) in
  let inner_t := lower (InnerT r) in
  let cls := lower (Class r) in
  let s := if existsb (fun word => contains (lower word) inner_t)
                      (split_on "|" info_keywords)
           then s - 1500 else s in
  let s := if Qltb y 150 && Qltb 800 x then s + 1000 else s in
  let s := if existsb (fun c => contains c cls)
                      ["primary"; "success"; "action"; "submit"; "main"]
           then s + 500 else s in
  let s := if existsb (fun word => String.eqb (lower word) (strip inner_t))
                      (split_on "|" exec_keywords)
           then s + 300 else s in
  s.

(** Part B.1: the search input of the search intents. *)
Definition add_primary_search (intent : string) (raw_df : table)
           (index_map : pydict) : pydict :=
  if mem intent ["SEARCH_ANSWER"; "SHOW"; "ANALYZE"] then
    let searches :=
      filter (fun r => (str_contains "Search|minimum" (Label_P r) ||
                        str_contains "Search" (InnerT r) ||
                        str_contains "search" (Role r)) && Qltb 0 (Vis r)) raw_df in
    match sort_values_desc score_search_priority searches with
    | [] => index_map
    | best_search :: _ =>
        Py.set "PRIMARY_SEARCH_INPUT"
               (PDict [("bid", PStr (BID best_search));
                       ("role", PStr "searchbox");
                       ("label", PStr "Main Search Bar");
                       ("is_visible", PBool true);
                       ("usage_hint",
                        PStr "Use this input for searching articles or records.")])
               index_map
    end
  else index_map.

(** Part B.2: the submission control of the acting intents. *)
Definition add_submit_button (intent : string) (raw_df : table)
           (index_map : pydict) : pydict :=
  if existsb (fun x => contains x intent)
             ["CREATE"; "UPDATE"; "ORDER"; "ADMIN"; "INSERT"] then
    let btns :=
      filter (fun r => (str_contains exec_keywords (InnerT r) ||
                        str_contains exec_keywords (Label_A r))
                       && Qltb 0 (Vis r) && mem (Tag r) ["BUTTON"; "A"]) raw_df in
    match sort_values_desc score_button_priority btns with
    | [] => index_map
    | best_btn :: _ =>
        if 0 <? score_button_priority best_btn then
          Py.set "SUBMIT_BUTTON"
                 (PDict [("bid", PStr (BID best_btn));
                         ("role", PStr "button");
                         ("label", PStr (if String.eqb (strip (InnerT best_btn)) ""
                                         then "Submit" else strip (InnerT best_btn)));
                         ("is_visible", PBool true);
                         ("usage_hint",
                          PStr "Finalize your action by clicking this button.")])
                 index_map
        else index_map
    end
  else index_map.

Definition build_bid_index (m : manifest) (raw_df : table) : pydict :=
  let index_map := index_fields (FIELDS m) raw_df in
  let intent := normalized_intent m in
  let index_map := add_primary_search intent raw_df index_map in
  add_submit_button intent raw_df index_map.

End Index.

(* ------------------------------------------------------------------ *)
(** *** validate_plan *)

Definition VALID_ACTIONS : list string :=
  ["fill"; "click"; "focus"; "select_option"; "scroll"; "hover";
   "extractLLM"; "send_msg_to_user"].

Definition POSITIVE_INDICATORS : list string :=
  ["YES"; "TRUE"; "ON"; "CHECKED"; "1"; "SELECTED";
   "ACTIVE"; "IS-CHECKED"; "CHECKBOX-ACTIVE";
   "RADIO-ACTIVE"; "CHECKED-TRUE"].

Section Validation.
Context `{Python}.

(** [raw_df[raw_df['BID'].astype(str) == bid]] and its [iloc[0]] *)
Definition row_of_bid (raw_df : table) (bid : string) : option row :=
  find (fun r => String.eqb (BID r) bid) raw_df.

(** The checked-state heuristic of the boolean branch. *)
Definition current_checked (cand : row) : bool :=
  let val_u := strip (upper (Value cand)) in
  let stat_u := strip (upper (Status cand)) in
  let cls_u := strip (upper (Class cand)) in
  existsb (fun ind => contains ind val_u) POSITIVE_INDICATORS ||
  existsb (fun ind => contains ind stat_u) POSITIVE_INDICATORS ||
  contains "CHECKED" cls_u.

(** The body of the first loop of [validate_plan]: [true] when the field
    is added to [completed_logic_refs]. *)
Definition field_completed (bid_index : pydict) (raw_df : table)
           (field_label : string) (target_val : pyval) : bool :=
  let target_val_orig := strip (Py.str target_val) in
  match Py.get field_label bid_index with
  | PDict field_info =>
      if negb (Py.truthy (PDict field_info)) then false
      else
        let target_bid := Py.str (Py.get "bid" field_info) in
        match row_of_bid raw_df target_bid with
        | None => false
        | Some cand =>
            let actual_val := strip (Value cand) in
            let actual_inner := strip (InnerT cand) in
            if String.eqb target_val_orig "" then
              String.eqb actual_val "" ||
              mem (lower actual_val) ["none"; "-- none --"; "null"]
            else if mem (lower target_val_orig) ["true"; "false"] then
              let expected_bool := String.eqb (lower target_val_orig) "true" in
              Bool.eqb (current_checked cand) expected_bool
            else
              String.eqb target_val_orig actual_val ||
              String.eqb target_val_orig actual_inner
        end
  | _ => false
  end.

(** [completed_logic_refs], a set of field names. *)
Definition completed_logic_refs (fields_spec bid_index : pydict)
           (raw_df : table) : list string :=
  map fst (filter (fun kv => field_completed bid_index raw_df (fst kv) (snd kv))
                  fields_spec).

(** [for s in concrete_steps for a in s.get("actions", [])] *)
Definition all_actions (concrete_steps : list step) : list action :=
  flat_map (fun s => match actions s with Some l => l | None => [] end)
           concrete_steps.

(** [planned_logic_refs]: building the set hashes every element. *)
Definition planned_logic_refs (concrete_steps : list step) : result (list pyval) :=
  let refs := filter Py.truthy (map (Py.get "logic_ref") (all_actions concrete_steps)) in
  if forallb Py.hashable refs then Ok refs else Raise TypeError.

(** [(required_fields - completed_logic_refs) - planned_logic_refs], a
    set, as the list of its elements in the order of its iteration. *)
Definition missing_fields (fields_spec : pydict) (completed : list string)
           (planned : list pyval) : list string :=
  set_order
    (filter (fun f => negb (mem f completed) &&
                      negb (existsb (fun v => Py.eq_str v f) planned))
            (Py.keys fields_spec)).

(** [bid_index.get(f) and bid_index.get(f) != "NOT_FOUND"] *)
Definition resolved_entry (bid_index : pydict) (f : string) : bool :=
  Py.truthy (Py.get f bid_index) && negb (Py.eq_str (Py.get f bid_index) "NOT_FOUND").

Definition truly_missing_of (bid_index : pydict) (missing : list string) : list string :=
  filter (resolved_entry bid_index) missing.

(** [any(a.get("action_type") in ["send_msg_to_user", "extractLLM"] ...)] *)
Definition reports_or_extracts (concrete_steps : list step) : bool :=
  existsb (fun a => Py.in_strs (Py.get "action_type" a) ["send_msg_to_user"; "extractLLM"])
          (all_actions concrete_steps).

(** Step 3 of [validate_plan]: the report of the fields left out. *)
Definition missing_report (bid_index : pydict) (concrete_steps : list step)
           (missing : list string) : list verr :=
  match missing with
  | [] => []
  | _ =>
      let truly_missing := truly_missing_of bid_index missing in
      match truly_missing with
      | [] => []
      | _ => if negb (reports_or_extracts concrete_steps)
             then [MissingFields truly_missing] else []
      end
  end.

(** [bid_index.get(logic_ref, {}).get('bid')] *)
Definition correct_bid_suggestion (bid_index : pydict) (logic_ref : pyval)
  : result pyval :=
  if negb (Py.hashable logic_ref) then Raise TypeError
  else match logic_ref with
       | PStr k =>
           match Py.lookup k bid_index with
           | Some (PDict d) => Ok (Py.get "bid" d)
           | Some _ => Raise AttributeError
           | None => Ok PNone
           end
       | _ => Ok PNone
       end.

(** The role audit of an action bound to an element of the table. *)
Definition role_audit (bid_index : pydict) (raw_df : table) (sid : pyval)
           (bid : string) (logic_ref : pyval) : result (list verr) :=
  match row_of_bid raw_df bid with
  | None => Ok []
  | Some target_row =>
      let role := lower (Role target_row) in
      let tag := upper (Tag target_row) in
      let is_interactive_tag := mem tag ["INPUT"; "TEXTAREA"; "SELECT"; "A"; "BUTTON"] in
      if (mem role ["none"; "label"] || String.eqb tag "LABEL")
         && negb is_interactive_tag
      then rbind (correct_bid_suggestion bid_index logic_ref)
                 (fun s => Ok [LabelTarget sid bid s])
      else Ok []
  end.

(** The audit of a click on a field that is already right. *)
Definition redundant_click_audit (fields_spec : pydict) (completed : list string)
           (sid a_type logic_ref : pyval) : result (list verr) :=
  if Py.eq_str a_type "click" then
    if negb (Py.hashable logic_ref) then Raise TypeError
    else if Py.in_strs logic_ref completed then
      if mem (lower (Py.str (Py.get_default (Py.str logic_ref) (PStr "") fields_spec)))
             ["true"; "false"]
      then Ok [RedundantClick sid logic_ref] else Ok []
    else Ok []
  else Ok [].

(** The body of the inner loop of step 4: the errors one action adds. *)
Definition check_action (fields_spec bid_index : pydict) (raw_df : table)
           (completed : list string) (sid : pyval) (a : action)
  : result (list verr) :=
  let a_type := Py.get "action_type" a in
  let bid := Py.str (Py.get_default "bid" (PStr "") a) in
  let logic_ref := Py.get "logic_ref" a in
  if negb (Py.hashable a_type) then Raise TypeError
  else if negb (Py.in_strs a_type VALID_ACTIONS) then
    Ok [UndefinedAction sid a_type]
  else if Py.eq_str a_type "extractLLM" then
    Ok (if negb (Py.truthy (Py.get "instruction" a))
        then [ExtractWithoutInstruction sid] else [])
  else if Py.eq_str a_type "send_msg_to_user" then Ok []
  else if Py.eq_str a_type "scroll" then
    Ok (if negb (Py.has_key "dx" a) && negb (Py.has_key "dy" a)
           && negb (Py.has_key "direction" a)
        then [ScrollWithoutArgs sid] else [])
  else
    rbind (role_audit bid_index raw_df sid bid logic_ref) (fun e1 =>
    rbind (redundant_click_audit fields_spec completed sid a_type logic_ref) (fun e2 =>
    Ok (e1 ++ e2)%list)).

Fixpoint check_actions (fields_spec bid_index : pydict) (raw_df : table)
         (completed : list string) (sid : pyval) (l : list action)
  : result (list verr) :=
  match l with
  | [] => Ok []
  | a :: l' =>
      rbind (check_action fields_spec bid_index raw_df completed sid a) (fun e =>
      rbind (check_actions fields_spec bid_index raw_df completed sid l') (fun e' =>
      Ok (e ++ e')%list))
  end.

(** The errors that one step adds in step 4. *)
Definition check_step (fields_spec bid_index : pydict) (raw_df : table)
           (completed : list string) (s : step) : result (list verr) :=
  let sid := match step_id s with Some v => v | None => PStr "Unknown" end in
  check_actions fields_spec bid_index raw_df completed sid
                (match actions s with Some l => l | None => [] end).

Fixpoint check_steps (fields_spec bid_index : pydict) (raw_df : table)
         (completed : list string) (l : list step) : result (list verr) :=
  match l with
  | [] => Ok []
  | s :: l' =>
      rbind (check_step fields_spec bid_index raw_df completed s) (fun e =>
      rbind (check_steps fields_spec bid_index raw_df completed l') (fun e' =>
      Ok (e ++ e')%list))
  end.

Definition validate_plan (concrete_steps : list step) (m : manifest)
           (bid_index : pydict) (raw_df : table) : result (list verr) :=
  let fields_spec := FIELDS m in
  let completed := completed_logic_refs fields_spec bid_index raw_df in
  rbind (planned_logic_refs concrete_steps) (fun planned =>
  let missing := missing_fields fields_spec completed planned in
  let errors := missing_report bid_index concrete_steps missing in
  rbind (check_steps fields_spec bid_index raw_df completed concrete_steps) (fun e =>
  Ok (errors ++ e)%list)).

End Validation.

(* ------------------------------------------------------------------ *)
(** *** The oracle and the repair loop *)

(** What a prompt is rendered from.  The text itself comes from the
    templates; the oracle is given the data that determine it. *)
Inductive request : Type :=
| refine_bid_index_prompt (incomplete_index : pydict) (filtered_df : table)
| concrete_planner_prompt
    (m : manifest) (page_title focused_bid : string) (filtered_df : table)
    (bid_index : pydict) (refine_instruction : option string)
    (errors : list verr) (original_plan : option (list step)).

(** The answer of [fetch_from_api]: [(data, reasoning, raw, None)], or
    [(None, None, raw, traceback)]; a traceback is never empty. *)
Inductive reply (A : Type) : Type :=
| api_data (data : A) (reasoning : option string)
| api_error (err : string).

Arguments api_data {A} data reasoning.
Arguments api_error {A} err.

(** The object of a plan answer: [concrete_steps] and [thought], each
    possibly missing. *)
Record plan_data : Type := mkPlanData {
  pd_concrete_steps : option (list step);
  pd_thought : option string
}.

(** What the planner reads in a parsed answer: an object, of which it
    takes [concrete_steps] and [thought], or any other JSON value (a
    list, a text, a number, a boolean, [null]), on which [data.get]
    raises [AttributeError]. *)
Inductive plan_answer : Type :=
| plan_object (data : plan_data)
| not_an_object.

(** The connector and the templates.  [fetch_from_api] is read at the
    two types its callers use: any JSON value for the index
    remediation, a plan answer for the planner; the answer may depend on
    the prompt and on how many requests came before.  [renders] tells
    whether the prompt of a plan request can be built (the template is
    found and its rendering raises nothing), and [format_exc] is the
    text of [traceback.format_exc()] in the [except] clause of the two
    generation calls, which is never empty. *)
Class Connector : Type := {
  fetch_json : nat -> request -> reply pyval;
  fetch_plan : nat -> request -> reply plan_answer;
  renders : request -> bool;
  format_exc : request -> string
}.

(** Computations that talk to the oracle thread the log of the requests
    made so far. *)
Definition M (A : Type) : Type := list request -> A * list request.

Definition ret {A : Type} (a : A) : M A := fun log => (a, log).

Definition bind {A B : Type} (c : M A) (k : A -> M B) : M B :=
  fun log => let '(a, log') := c log in k a log'.

Notation "x <- c ;; k" := (bind c (fun x => k))
  (at level 61, c at next level, right associativity).

Section Oracle.
Context `{Python} `{Pandas} `{Connector}.

Definition ask_json (prompt : request) : M (reply pyval) :=
  fun log => (fetch_json (List.length log) prompt, (log ++ [prompt])%list).

Definition ask_plan (prompt : request) : M (reply plan_answer) :=
  fun log => (fetch_plan (List.length log) prompt, (log ++ [prompt])%list).

(** [updated = incomplete_index.copy()] and the loop over [data.items()] *)
Definition merge_correction (incomplete_index data : pydict) : pydict :=
  fold_left (fun updated kv =>
               if Py.has_key (fst kv) updated
               then Py.set (fst kv) (snd kv) updated
               else updated)
            data incomplete_index.

Definition refine_bid_index_with_llm (m : manifest) (raw_df : table)
           (incomplete_index : pydict) : M pydict :=
  if negb (contains "NOT_FOUND" (Py.json_dumps (PDict incomplete_index)))
  then ret incomplete_index
  else
    let filtered_df := ObservationFilter.apply raw_df ObservationFilter.Light in
    r <- ask_json (refine_bid_index_prompt incomplete_index filtered_df) ;;
    match r with
    | api_data (PDict data) _ =>
        if Py.truthy (PDict data)
        then ret (merge_correction incomplete_index data)
        else ret incomplete_index
    | _ => ret incomplete_index
    end.

(** The triple [(steps, thought, error)] that the two generation calls
    return: either the plan, or [(None, None, err)]. *)
Inductive generation : Type :=
| generated (concrete_steps : list step) (thought : option string)
| generation_error (err : string).

Definition is_error {A : Type} (r : reply A) : bool :=
  match r with api_error _ => true | _ => false end.

(** The body of the [try] of the two generation calls, from the
    rendering of the prompt on: one request and its two repetitions on
    error, then the reading of the answer.  When the prompt cannot be
    built no request is made, and when the answer is not an object
    [data.get] raises; the [except] clause turns both into the error
    [format_exc].  The pauses between the requests leave no mark on the
    result, and the trace files are taken to be written without
    failure. *)
Definition fetch_with_retries (prompt : request) : M generation :=
  if negb (renders prompt) then ret (generation_error (format_exc prompt))
  else
    r <- ask_plan prompt ;;
    r <- (if is_error r then ask_plan prompt else ret r) ;;
    r <- (if is_error r then ask_plan prompt else ret r) ;;
    match r with
    | api_error err => ret (generation_error err)
    | api_data not_an_object _ => ret (generation_error (format_exc prompt))
    | api_data (plan_object data) reasoning =>
        ret (generated
               (match pd_concrete_steps data with Some l => l | None => [] end)
               (match pd_thought data with Some t => Some t | None => reasoning end))
    end.

Definition generate_concrete_plan (m : manifest) (raw_df : table)
           (page_title focused_bid : string) (bid_index : pydict)
           (refine_instruction : option string) : M generation :=
  let filtered_df := ObservationFilter.apply raw_df ObservationFilter.Aggressive in
  fetch_with_retries
    (concrete_planner_prompt m page_title focused_bid filtered_df bid_index
                             refine_instruction [] None).

Definition refine_concrete_plan (original_plan : list step) (errors : list verr)
           (m : manifest) (raw_df : table) (page_title focused_bid : string)
           (bid_index : pydict) (refine_instruction : option string) : M generation :=
  let filtered_df := ObservationFilter.apply raw_df ObservationFilter.Aggressive in
  fetch_with_retries
    (concrete_planner_prompt m page_title focused_bid filtered_df bid_index
                             refine_instruction errors (Some original_plan)).

(** The dictionary that [run_repair_loop] returns; a key that the
    dictionary lacks is [None]. *)
Record plan_result : Type := mkResult {
  r_concrete_steps : list step;
  r_thought : option (option string);
  r_bid_index : option pydict;
  r_attempts : option nat;
  r_validation_errors : option (list verr);
  r_error : option string
}.

Definition error_result (err : string) : plan_result :=
  mkResult [] None None None None (Some err).

Definition accepted_result (current_steps : list step) (current_thought : option string)
           (bid_index : pydict) (attempts : nat) : plan_result :=
  mkResult current_steps (Some current_thought) (Some bid_index) (Some attempts) None None.

Definition exhausted_result (current_steps : list step) (current_thought : option string)
           (bid_index : pydict) (validation_errors : list verr) : plan_result :=
  mkResult current_steps (Some current_thought) (Some bid_index) None
           (Some validation_errors) None.

(** The [for i in range(max_retries)] loop, [iters] being the values of
    [i] still to come; [validation_errors] is the variable of that name,
    unbound ([None]) until the first iteration assigns it.  Falling out
    of the list is the end of the [for]; the [break] of the last
    iteration goes to the same final [return]. *)
Fixpoint repair_iterations (m : manifest) (raw_df : table)
         (page_title focused_bid : string) (bid_index : pydict)
         (refine_instruction : option string) (max_retries : nat)
         (iters : list nat) (current_steps : list step)
         (current_thought : option string)
         (validation_errors : option (list verr)) : M (result plan_result) :=
  match iters with
  | [] =>
      match validation_errors with
      | None => ret (Raise UnboundLocalError)
      | Some errs =>
          ret (Ok (exhausted_result current_steps current_thought bid_index errs))
      end
  | i :: iters' =>
      match validate_plan current_steps m bid_index raw_df with
      | Raise e => ret (Raise e)
      | Ok [] =>
          ret (Ok (accepted_result current_steps current_thought bid_index (i + 1)))
      | Ok errs =>
          if (i =? max_retries - 1)%nat then
            ret (Ok (exhausted_result current_steps current_thought bid_index errs))
          else
            g <- refine_concrete_plan current_steps errs m raw_df page_title
                                      focused_bid bid_index refine_instruction ;;
            match g with
            | generation_error err => ret (Ok (error_result err))
            | generated steps thought =>
                repair_iterations m raw_df page_title focused_bid bid_index
                                  refine_instruction max_retries iters'
                                  steps thought (Some errs)
            end
      end
  end.

Definition run_repair_loop (m : manifest) (raw_df : table)
           (page_title focused_bid : string)
           (refine_instruction : option string) (max_retries : nat)
  : M (result plan_result) :=
  let bid_index := build_bid_index m raw_df in
  bid_index <- refine_bid_index_with_llm m raw_df bid_index ;;
  g <- generate_concrete_plan m raw_df page_title focused_bid bid_index
                              refine_instruction ;;
  match g with
  | generation_error err => ret (Ok (error_result err))
  | generated current_steps current_thought =>
      repair_iterations m raw_df page_title focused_bid bid_index
                        refine_instruction max_retries (seq 0 max_retries)
                        current_steps current_thought None
  end.

End Oracle.
End ConcretePlanner.

(* ================================================================== *)
(** ** Autonomus_agent_main: the compiler of action descriptors *)
(* ================================================================== *)

Module Autonomus_agent_main.
Import PyStr.

(** [bind_value]: the placeholder is replaced when a value has been
    extracted and the payload is a text that holds it. *)
Definition bind_value (last_extracted_value : option string) (v : pyval) : pyval :=
  match last_extracted_value, v with
  | Some lev, PStr s =>
      if negb (String.eqb lev "") && contains "extractValue" s
      then PStr (replace "extractValue" lev s)
      else v
  | _, _ => v
  end.

Section Compiler.
Context `{Python}.

Definition build_action_code (a : action) (last_extracted_value : option string)
  : string :=
  let a_type := Py.get "action_type" a in
  let bid := Py.get "bid" a in
  if Py.eq_str a_type "extractLLM" then ""
  else if Py.eq_str a_type "select_option" then
    let val := Py.or_else (Py.get "options" a)
                          (Py.or_else (Py.get "option" a) (Py.get "value" a)) in
    let val := bind_value last_extracted_value val in
    "select_option(bid='" ++ Py.str bid ++ "', options=" ++ Py.repr val ++ ")"
  else if Py.eq_str a_type "send_msg_to_user" then
    let msg := Py.or_else (Py.get "message" a)
                          (Py.or_else (Py.get "value" a) (PStr "Done.")) in
    let msg := bind_value last_extracted_value msg in
    "send_msg_to_user(" ++ Py.repr msg ++ ")"
  else if Py.eq_str a_type "fill" then
    let raw_val := Py.get_default "value" (PStr "") a in
    let raw_val := bind_value last_extracted_value raw_val in
    let val_str := strip (Py.str raw_val) in
    let val_lower := lower val_str in
    if mem val_lower ["true"; "false"]
    then "click(bid='" ++ Py.str bid ++ "')"
    else "fill(bid='" ++ Py.str bid ++ "', value=" ++ Py.repr raw_val ++ ")"
  else if Py.eq_str a_type "scroll" then
    let dx := Py.get_default "dx" (PInt 0) a in
    let dy := Py.get_default "dy" (PInt 0) a in
    let dy :=
      if Py.eq_zero dy then
        let direction := Py.get_default "direction" (PStr "down") a in
        if Py.eq_str direction "down" then PInt 500
        else if Py.eq_str direction "up" then PInt (-500)
        else dy
      else dy in
    "scroll(" ++ Py.str dx ++ ", " ++ Py.str dy ++ ")"
  else if Py.truthy bid then
    if Py.in_strs a_type ["click"; "hover"; "dblclick"; "focus"] then
      Py.str a_type ++ "(" ++ Py.repr bid ++ ")"
    else
      match Py.get "value" a with
      | PNone => Py.str a_type ++ "(" ++ Py.repr bid ++ ")"
      | val =>
          Py.str a_type ++ "(" ++ Py.repr bid ++ ", "
          ++ Py.repr (bind_value last_extracted_value val) ++ ")"
      end
  else Py.str a_type ++ "()".

End Compiler.

(** The synthetic action of [inject_final_hover]. *)
Definition safety_hover (target_bid : pyval) : action :=
  [("action_type", PStr "focus");
   ("bid", target_bid);
   ("logic_ref", PStr "Safety Focus-Out before Final Click")].

(** [inject_final_hover].  The list of actions of the last step is
    changed in place by [actions.insert(-1, safety_hover)]; the step of
    the result carries the new list.  Of the two assignments to
    [has_hover] the second, which overwrites the first, is the one
    modelled. *)
Definition inject_final_hover (concrete_steps : list step) : list step :=
  match rev concrete_steps with
  | [] => concrete_steps
  | last_step :: front =>
      match rev (match actions last_step with Some l => l | None => [] end) with
      | [] => concrete_steps
      | last_action :: before =>
          if Py.eq_str (Py.get "action_type" last_action) "click" then
            let target_bid := Py.get "bid" last_action in
            let has_hover :=
              match before with
              | prev :: _ => Py.eq_str (Py.get "action_type" prev) "click"
              | [] => false
              end in
            if negb has_hover then
              (rev front ++
               [ {| step_id := step_id last_step;
                    actions := Some (rev before ++
                                     [safety_hover target_bid; last_action]) |} ])%list
            else concrete_steps
          else concrete_steps
      end
  end.

(** [[a-zA-Z0-9_\-]]: the characters that [sanitize_filename] keeps. *)
Definition safe_char (c : ascii) : bool :=
  is_lower c || is_upper c || is_digit c || Ascii.eqb c "_" || Ascii.eqb c "-".

(** [sanitize_filename]: the prefix of the task family is dropped,
    slashes and dots become underscores, every other character outside
    the class is removed, and the name is cut at 50 characters. *)
Definition sanitize_filename (name : string) : string :=
  let name := replace "workarena.servicenow." "" name in
  let name := replace "/" "_" name in
  let name := replace "." "_" name in
  substring 0 50 (keep_chars safe_char name).

(** *** The audits at the head of the main loop *)

(** A Python set of texts, as a list without repetition. *)
Definition set_add (x : string) (s : list string) : list string :=
  if mem x s then s else (s ++ [x])%list.

Definition set_remove (x : string) (s : list string) : list string :=
  filter (fun y => negb (String.eqb y x)) s.

Section FieldAudit.
Context `{Python} `{Pandas}.

(** [str(target_val).strip() if target_val is not None else ""] *)
Definition target_val_str (target_val : pyval) : string :=
  match target_val with
  | PNone => ""
  | v => strip (Py.str v)
  end.

(** [str(x).strip() if x else ""] on a text cell *)
Definition cell_text (x : string) : string :=
  if String.eqb x "" then "" else strip x.

(** The mask of [label_matches] on one row. *)
Definition label_match (field_label : string) (r : row) : bool :=
  str_contains field_label (Label_L r) || str_contains field_label (InnerT r).

(** The body of the loop over [label_matches] for the row at [idx]:
    test A on the row itself, test B on the row that follows it. *)
Definition row_confirms (raw_df : table) (target : string) (idx : nat) (r : row) : bool :=
  contains target (cell_text (Value r)) || contains target (cell_text (InnerT r))
  || match nth_error raw_df (S idx) with
     | Some next_row =>
         negb (String.eqb target "") && contains target (cell_text (Value next_row))
     | None => false
     end.

Fixpoint audit_rows (raw_df : table) (field_label target : string) (idx : nat)
         (rows : table) : bool :=
  match rows with
  | [] => false
  | r :: rest =>
      (label_match field_label r && row_confirms raw_df target idx r)
      || audit_rows raw_df field_label target (S idx) rest
  end.

(** The flag [is_actually_filled] after the loop over [label_matches],
    on a table that has rows. *)
Definition is_actually_filled (raw_df : table) (field_label : string)
           (target_val : pyval) : bool :=
  audit_rows raw_df field_label (target_val_str target_val) 0 raw_df.

Definition audit_field (raw_df : table) (completed_logic_refs : list string)
           (entry : string * pyval) : list string :=
  let '(field_label, target_val) := entry in
  if is_actually_filled raw_df field_label target_val
  then set_add field_label completed_logic_refs
  else set_remove field_label completed_logic_refs.

(** The audit of the fields on the table that [analyze] has returned.
    The table of no record is the frame without columns, on which the
    first [raw_df['Label_L']] raises [KeyError]: [None]. *)
Definition audit_fields (raw_df : table) (fields_spec : pydict)
           (completed_logic_refs : list string) : option (list string) :=
  match fields_spec, raw_df with
  | _ :: _, [] => None
  | _, _ => Some (fold_left (audit_field raw_df) fields_spec completed_logic_refs)
  end.

(** [raw_df[raw_df['Expanded'].astype(str).str.upper() == 'YES']], the
    column given beside the rows. *)
Definition expanded_rows (expanded : list string) (raw_df : table) : table :=
  map snd (filter (fun p => String.eqb (upper (fst p)) "YES") (combine expanded raw_df)).

(** The loop over [expanded_rows]: [Label_L] is a text in every row, so
    [area] is [row['Label_L']], added when it is not empty.  On the
    table of no record [raw_df['Expanded']] raises [KeyError]: [None]. *)
Definition audit_expanded (expanded : list string) (raw_df : table)
           (completed_interactions : list string) : option (list string) :=
  match raw_df with
  | [] => None
  | _ =>
      Some (fold_left (fun acc r => if String.eqb (Label_L r) "" then acc
                                    else set_add (Label_L r) acc)
                      (expanded_rows expanded raw_df) completed_interactions)
  end.

End FieldAudit.

End Autonomus_agent_main.

(* ================================================================== *)
(** ** GeminiConnector: the text of an answer *)
(* ================================================================== *)

Module GeminiConnector.
Import PyStr.

(** The text from the first occurrence of [c] on. *)
Fixpoint from_first (c : ascii) (s : string) : option string :=
  match s with
  | EmptyString => None
  | String x s' => if Ascii.eqb x c then Some s else from_first c s'
  end.

(** The text up to the last occurrence of [c], that occurrence included. *)
Fixpoint upto_last (c : ascii) (s : string) : option string :=
  match s with
  | EmptyString => None
  | String x s' =>
      match upto_last c s' with
      | Some t => Some (String x t)
      | None => if Ascii.eqb x c then Some (String x EmptyString) else None
      end
  end.

(** [_extract_json]: the match of the pattern (\{.*\}), where the dot
    also matches a newline, is the text from the first opening brace
    that has a closing brace after it to the last closing brace; without
    a match the text is returned as it is. *)
Definition extract_json (text : string) : string :=
  match from_first "{" text with
  | Some (String b rest) =>
      match upto_last "}" rest with
      | Some body => String b body
      | None => text
      end
  | _ => text
  end.

End GeminiConnector.

(* ================================================================== *)
(** ** ObservationExtractor: the value read from the page *)
(* ================================================================== *)

Module ObservationExtractor.
Import PyStr.

Section Extraction.
Context `{Python}.

(** The normalisation at the end of [extract]: an object with one entry
    gives its value, any other object or a list its JSON text, anything
    else its printed form; then blanks, double quotes and single quotes
    are stripped from both ends, in that order. *)
Definition normalise (data : pyval) : string :=
  let raw_val :=
    match data with
    | PDict [(_, v)] => Py.str v
    | PDict _ => Py.json_dumps data
    | PList _ => Py.json_dumps data
    | _ => Py.str data
    end in
  strip_by (fun c => Ascii.eqb c "'")
           (strip_by (fun c => Ascii.eqb c dquote) (strip raw_val)).

(** What [extract] returns for an answer of the oracle: the error as a
    text, or the normalised value. *)
Definition extract_result (r : ConcretePlanner.reply pyval) : string :=
  match r with
  | ConcretePlanner.api_error err => "ERROR: " ++ err
  | ConcretePlanner.api_data data _ => normalise data
  end.

End Extraction.

End ObservationExtractor.

(* ================================================================== *)
(** ** The interface on ASCII texts *)
(* ================================================================== *)

Section StripFacts.
Import PyStr.

Lemma lstrip_by_split :
  forall f s, exists a, s = a ++ lstrip_by f s /\ all_chars f a = true.
Proof.
  induction s as [|c s IH]; simpl.
  - exists "". auto.
  - destruct (f c) eqn:Hc.
    + destruct IH as (a & Hs & Ha). exists (String c a). simpl.
      rewrite Hc, Ha. split; [now rewrite <- Hs | reflexivity].
    + exists "". auto.
Qed.

Lemma rstrip_by_split :
  forall f s, exists b, s = rstrip_by f s ++ b /\ all_chars f b = true.
Proof.
  induction s as [|c s IH]; simpl.
  - exists "". auto.
  - destruct IH as (b & Hs & Hb). destruct (rstrip_by f s) as [|d t] eqn:Hr.
    + simpl in Hs. subst b. destruct (f c) eqn:Hc.
      * exists (String c s). simpl. now rewrite Hc, Hb.
      * exists s. auto.
    + exists b. simpl. split; [now rewrite Hs at 1 | assumption].
Qed.

Lemma strip_by_split :
  forall f s,
    exists a b,
      s = a ++ strip_by f s ++ b /\ all_chars f a = true /\ all_chars f b = true.
Proof.
  intros f s. unfold strip_by.
  destruct (lstrip_by_split f s) as (a & Hs & Ha).
  destruct (rstrip_by_split f (lstrip_by f s)) as (b & Ht & Hb).
  exists a, b. repeat split; auto. now rewrite <- Ht.
Qed.

Lemma ascii_lstrip_is_lstrip_by : forall s, ascii_lstrip s = lstrip_by is_space s.
Proof. induction s as [|c s IH]; simpl; [reflexivity | now rewrite IH]. Qed.

Lemma ascii_rstrip_is_rstrip_by : forall s, ascii_rstrip s = rstrip_by is_space s.
Proof. induction s as [|c s IH]; simpl; [reflexivity | now rewrite IH]. Qed.

Lemma ascii_strip_is_strip_by : forall s, ascii_strip s = strip_by is_space s.
Proof.
  intros s. unfold ascii_strip, strip_by.
  now rewrite ascii_lstrip_is_lstrip_by, ascii_rstrip_is_rstrip_by.
Qed.

Lemma lstrip_by_all :
  forall f s, all_chars f s = true -> lstrip_by f s = "".
Proof.
  induction s as [|c s IH]; simpl; intros Hs; [reflexivity|].
  apply andb_true_iff in Hs. destruct Hs as [Hc Hs]. rewrite Hc. now apply IH.
Qed.

(** What [strip] cuts off an ASCII text is blank on both sides. *)
Lemma ascii_strip_cuts :
  forall s,
    exists a b, s = a ++ ascii_strip s ++ b /\ ascii_strip a = "" /\ ascii_strip b = "".
Proof.
  intros s. destruct (strip_by_split is_space s) as (a & b & Hs & Ha & Hb).
  exists a, b. rewrite !ascii_strip_is_strip_by. split; [exact Hs|].
  unfold strip_by. now rewrite !lstrip_by_all.
Qed.

(** The text is empty or starts with a character outside the class. *)
Definition starts_clean (f : ascii -> bool) (s : string) : bool :=
  match s with
  | EmptyString => true
  | String c _ => negb (f c)
  end.

Lemma lstrip_by_starts_clean : forall f s, starts_clean f (lstrip_by f s) = true.
Proof.
  induction s as [|c s IH]; simpl; [reflexivity|].
  destruct (f c) eqn:Hc; [assumption | simpl; now rewrite Hc].
Qed.

Lemma rstrip_by_starts_clean :
  forall f s, starts_clean f s = true -> starts_clean f (rstrip_by f s) = true.
Proof.
  destruct s as [|c s]; simpl; intros Hc; [reflexivity|].
  destruct (rstrip_by f s); [|exact Hc].
  destruct (f c) eqn:Hf; [discriminate | simpl; now rewrite Hf].
Qed.

Lemma strip_by_starts_clean : forall f s, starts_clean f (strip_by f s) = true.
Proof.
  intros. unfold strip_by. apply rstrip_by_starts_clean, lstrip_by_starts_clean.
Qed.

Lemma rstrip_by_last :
  forall f s r c, rstrip_by f s = r ++ String c "" -> f c = false.
Proof.
  induction s as [|x s IH]; simpl; intros r c Hr.
  - destruct r; discriminate.
  - destruct (rstrip_by f s) as [|d t] eqn:Hs.
    + destruct (f x) eqn:Hx.
      * destruct r; discriminate.
      * destruct r as [|y r]; simpl in Hr.
        -- now injection Hr as <-.
        -- injection Hr as _ Hr. destruct r; discriminate.
    + destruct r as [|y r]; simpl in Hr.
      * discriminate.
      * injection Hr as _ Hr. now apply (IH r c).
Qed.

End StripFacts.

(** The interface as Python has it on ASCII texts, on numbers whose sums
    and differences need no rounding, and with a set that is iterated
    in the order of insertion: the instance at which the scenarios are
    evaluated. *)
Definition reference_python : PyStr.Python :=
  {| PyStr.strip := PyStr.ascii_strip;
     PyStr.lower := PyStr.ascii_lower;
     PyStr.upper := PyStr.ascii_upper;
     PyStr.len := String.length;
     PyStr.slice := substring 0;
     PyStr.repr_str := PyStr.ascii_repr_str;
     PyStr.fadd := Qplus;
     PyStr.fsub := Qminus;
     PyStr.fdiv := Qdiv;
     PyStr.set_order := nodup string_dec;
     PyStr.strip_ascii := fun s _ => eq_refl;
     PyStr.lower_ascii := fun s _ => eq_refl;
     PyStr.upper_ascii := fun s _ => eq_refl;
     PyStr.len_ascii := fun s _ => eq_refl;
     PyStr.slice_ascii := fun n s _ => eq_refl;
     PyStr.repr_str_ascii := fun s _ => eq_refl;
     PyStr.strip_cuts := ascii_strip_cuts;
     PyStr.set_order_In := nodup_In string_dec;
     PyStr.set_order_NoDup := NoDup_nodup string_dec |}.

#[local] Existing Instance reference_python.

(** Evaluation of the methods of the interface on the ASCII literals of
    a goal. *)
Ltac py_ascii :=
  repeat match goal with
         | |- context [PyStr.strip ?s] => rewrite (PyStr.strip_ascii s) by reflexivity
         | |- context [PyStr.lower ?s] => rewrite (PyStr.lower_ascii s) by reflexivity
         | |- context [PyStr.upper ?s] => rewrite (PyStr.upper_ascii s) by reflexivity
         | |- context [PyStr.len ?s] => rewrite (PyStr.len_ascii s) by reflexivity
         | |- context [PyStr.repr_str ?s] =>
             rewrite (PyStr.repr_str_ascii s) by reflexivity
         end.

(* ================================================================== *)
(** ** Sanity checks of the Python primitives *)
(* ================================================================== *)

Example lower_example : PyStr.lower "-- None --" = "-- none --".
Proof. reflexivity. Qed.

Example strip_example : PyStr.strip "  a b  " = "a b".
Proof. reflexivity. Qed.

Example replace_example :
  PyStr.replace "extractValue" "42" "id=extractValue;extractValue" = "id=42;42".
Proof. reflexivity. Qed.

Example split_example : PyStr.split_on "|" "View|Show" = ["View"; "Show"].
Proof. reflexivity. Qed.

Example Z_to_string_example : PyStr.Z_to_string (-500) = "-500".
Proof. reflexivity. Qed.

Example repr_example :
  Py.repr (PList [PStr "a'b"; PInt 3; PBool true; PNone]) = "[" ++ PyStr.dq ++ "a'b" ++ PyStr.dq ++ ", 3, True, None]".
Proof. reflexivity. Qed.

Example json_dumps_example :
  Py.json_dumps (PDict [("Category", PStr "NOT_FOUND"); ("n", PList [PInt 1; PNone])])
  = "{" ++ PyStr.dq ++ "Category" ++ PyStr.dq ++ ": " ++ PyStr.dq ++ "NOT_FOUND" ++ PyStr.dq
    ++ ", " ++ PyStr.dq ++ "n" ++ PyStr.dq ++ ": [1, null]}".
Proof. reflexivity. Qed.

(* ================================================================== *)
(** ** The row inclusion policy of the fusion pass *)
(* ================================================================== *)

Section FusionFacts.
Import ObservationAnalyzer.
Context `{PyStr.Python}.

Lemma BID_record_of :
  forall umap focused_bid bid data,
    BID (record_of umap focused_bid bid data) = bid.
Proof.
  intros. unfold record_of.
  destruct (get_spatial_labels umap bid data); reflexivity.
Qed.

(** Every row of the table comes from a kept entry of the map. *)
Lemma analyze_loop_inv :
  forall umap focused_bid items r,
    In r (analyze_loop umap focused_bid items) ->
    exists bid data,
      In (bid, data) items /\ keeps focused_bid bid data = true /\
      r = record_of umap focused_bid bid data.
Proof.
  induction items as [|[b d] rest IH]; simpl; intros r Hin.
  - contradiction.
  - destruct (keeps focused_bid b d) eqn:Hk.
    + destruct Hin as [<- | Hin].
      * exists b, d; auto.
      * destruct (IH _ Hin) as (b' & d' & ? & ? & ?); exists b', d'; auto.
    + destruct (IH _ Hin) as (b' & d' & ? & ? & ?); exists b', d'; auto.
Qed.

(** Every kept entry of the map gives a row. *)
Lemma analyze_loop_complete :
  forall umap focused_bid items bid data,
    In (bid, data) items -> keeps focused_bid bid data = true ->
    In (record_of umap focused_bid bid data) (analyze_loop umap focused_bid items).
Proof.
  induction items as [|[b d] rest IH]; simpl; intros bid data Hin Hk.
  - contradiction.
  - destruct Hin as [Heq | Hin].
    + inversion Heq; subst. rewrite Hk. left; reflexivity.
    + destruct (keeps focused_bid b d); [right|]; eauto.
Qed.

Lemma unique_entry :
  forall (umap : unified_map) bid d1 d2,
    NoDup (map fst umap) -> In (bid, d1) umap -> In (bid, d2) umap -> d1 = d2.
Proof.
  induction umap as [|[b d] rest IH]; simpl; intros bid d1 d2 Hnd H1 H2.
  - contradiction.
  - inversion Hnd as [|? ? Hnotin Hnd']; subst.
    destruct H1 as [E1 | H1], H2 as [E2 | H2].
    + congruence.
    + inversion E1; subst. exfalso; apply Hnotin.
      change bid with (fst (bid, d2)). now apply in_map.
    + inversion E2; subst. exfalso; apply Hnotin.
      change bid with (fst (bid, d1)). now apply in_map.
    + eauto.
Qed.

Lemma no_area_no_size :
  forall w h : Q, (w * h == 0)%Q -> Qle_bool 1 w && Qle_bool 1 h = false.
Proof.
  intros w h Hz.
  destruct (Qle_bool 1 w) eqn:Hw; [|reflexivity].
  destruct (Qle_bool 1 h) eqn:Hh; [|reflexivity].
  apply Qle_bool_iff in Hw, Hh.
  apply Qmult_integral in Hz. exfalso.
  destruct Hz as [Hz | Hz]; [rewrite Hz in Hw | rewrite Hz in Hh];
    unfold Qle in *; simpl in *; lia.
Qed.

Lemma unverifiable_no_size :
  forall data, spatially_unverifiable data -> has_physical_size data = false.
Proof.
  unfold spatially_unverifiable, has_physical_size. intros data Hu.
  destruct (e_BBox data) as [[[[x y] w] h]|]; [now apply no_area_no_size | reflexivity].
Qed.

(** An element without a verifiable box is kept exactly when it is the
    focused one: its tag plays no part. *)
Lemma unverifiable_kept_iff_focused :
  forall focused_bid bid data,
    spatially_unverifiable data ->
    keeps focused_bid bid data = true <-> bid = focused_bid.
Proof.
  intros focused_bid bid data Hu. unfold keeps.
  rewrite (unverifiable_no_size _ Hu). simpl.
  destruct (String.eqb_spec bid focused_bid) as [-> | Hne]; simpl.
  - rewrite !andb_false_r. simpl. split; auto.
  - split; [discriminate | contradiction].
Qed.

(** C2. An element of the map whose bounding box is absent or has zero
    area, which is not the focused element and does not carry an
    interactive tag, has no row in the table that [analyze] returns. *)
Theorem unverifiable_element_absent :
  forall (umap : unified_map) (focused_bid bid : string) (data : element),
    NoDup (map fst umap) ->
    In (bid, data) umap ->
    spatially_unverifiable data ->
    bid <> focused_bid ->
    interactive_tag data = false ->
    ~ In bid (map BID (analyze umap focused_bid)).
Proof.
  intros umap focused_bid bid data Hnd Hin Hu Hnf _ Hrow.
  apply in_map_iff in Hrow. destruct Hrow as (r & Hbid & Hr).
  apply analyze_loop_inv in Hr. destruct Hr as (b & d & Hin' & Hk & ->).
  rewrite BID_record_of in Hbid. subst b.
  assert (d = data) by (eapply unique_entry; eauto). subst d.
  apply unverifiable_kept_iff_focused in Hk; auto.
Qed.

End FusionFacts.

(** A record with a zero-area box which is neither focused nor
    interactive, next to the focused element. *)
Definition unverifiable_span : ObservationAnalyzer.element :=
  ObservationAnalyzer.mkElement 7 "SPAN" "generic" "" "ghost" ""
    (Some (10%Q, 20%Q, 0%Q, 15%Q)) 1%Q 0 false [] [].

Definition focused_input : ObservationAnalyzer.element :=
  ObservationAnalyzer.mkElement 8 "INPUT" "textbox" "Name" "" "abc"
    None 0%Q 0 false [] [].

Lemma unverifiable_element_absent_witness :
  ~ In "a1" (map BID (ObservationAnalyzer.analyze
                        [("a1", unverifiable_span); ("b2", focused_input)] "b2")).
Proof.
  apply (unverifiable_element_absent
           [("a1", unverifiable_span); ("b2", focused_input)] "b2" "a1"
           unverifiable_span).
  - repeat constructor; simpl; intuition discriminate.
  - left; reflexivity.
  - reflexivity.
  - discriminate.
  - reflexivity.
Defined.

(** The focused element of the same map has a row although it has no box. *)
Example focused_element_kept :
  map BID (ObservationAnalyzer.analyze
             [("a1", unverifiable_span); ("b2", focused_input)] "b2") = ["b2"].
Proof. reflexivity. Qed.

(* ================================================================== *)
(** ** A reference instance of the pandas interface *)
(* ================================================================== *)

(** Search for a pattern that is an alternation of literal words, without
    regard to case: what the regular-expression search does on the
    patterns of the program and on field names free of
    metacharacters. *)
Definition literal_contains (pat s : string) : bool :=
  existsb (fun alt => PyStr.contains (PyStr.ascii_lower alt) (PyStr.ascii_lower s))
          (PyStr.split_on "|" pat).

(** Insertion into a list sorted by decreasing score, before the rows of
    equal score. *)
Fixpoint insert_desc (f : row -> Z) (x : row) (l : table) : table :=
  match l with
  | [] => [x]
  | y :: l' => if f x <? f y then y :: insert_desc f x l' else x :: l
  end.

(** A stable sort by decreasing score. *)
Definition stable_sort_desc (f : row -> Z) (df : table) : table :=
  fold_right (insert_desc f) [] df.

Lemma insert_desc_perm :
  forall f x l, Permutation (insert_desc f x l) (x :: l).
Proof.
  induction l as [|y l IH]; simpl.
  - apply Permutation_refl.
  - destruct (f x <? f y).
    + eapply perm_trans; [apply perm_skip, IH | apply perm_swap].
    + apply Permutation_refl.
Qed.

Lemma stable_sort_desc_perm :
  forall f df, Permutation (stable_sort_desc f df) df.
Proof.
  induction df as [|x df IH]; simpl.
  - constructor.
  - eapply perm_trans; [apply insert_desc_perm | now apply perm_skip].
Qed.

Lemma insert_desc_sorted :
  forall f x l,
    StronglySorted (fun a b => f b <= f a) l ->
    StronglySorted (fun a b => f b <= f a) (insert_desc f x l).
Proof.
  induction l as [|y l IH]; simpl; intros Hs.
  - constructor; constructor.
  - inversion Hs as [|? ? Hl Hall]; subst.
    destruct (f x <? f y) eqn:Hlt.
    + apply Z.ltb_lt in Hlt. constructor; [now apply IH|].
      apply (Permutation_Forall (Permutation_sym (insert_desc_perm f x l))).
      constructor; [lia | assumption].
    + apply Z.ltb_ge in Hlt. constructor; [assumption|].
      constructor; [assumption|].
      eapply Forall_impl; [|exact Hall]. simpl; intros; lia.
Qed.

Lemma stable_sort_desc_sorted :
  forall f df, StronglySorted (fun a b => f b <= f a) (stable_sort_desc f df).
Proof.
  induction df as [|x df IH]; simpl.
  - constructor.
  - now apply insert_desc_sorted.
Qed.

Definition reference_pandas : Pandas :=
  {| str_contains := literal_contains;
     sort_values_desc := stable_sort_desc;
     sort_values_perm := stable_sort_desc_perm;
     sort_values_sorted := stable_sort_desc_sorted |}.

(* ================================================================== *)
(** ** Dictionaries *)
(* ================================================================== *)

Section DictFacts.

Lemma lookup_set_same :
  forall k v d, Py.lookup k (Py.set k v d) = Some v.
Proof.
  induction d as [|[k' v'] d IH]; simpl.
  - now rewrite String.eqb_refl.
  - destruct (String.eqb_spec k' k) as [-> | Hne]; simpl.
    + now rewrite String.eqb_refl.
    + destruct (String.eqb_spec k' k); [contradiction | exact IH].
Qed.

Lemma lookup_set_other :
  forall k k' v d, k <> k' -> Py.lookup k' (Py.set k v d) = Py.lookup k' d.
Proof.
  induction d as [|[k0 v0] d IH]; simpl; intros Hne.
  - destruct (String.eqb_spec k k'); [contradiction | reflexivity].
  - destruct (String.eqb_spec k0 k) as [-> | Hk0]; simpl.
    + destruct (String.eqb_spec k k'); [contradiction | reflexivity].
    + destruct (String.eqb_spec k0 k'); [reflexivity | now apply IH].
Qed.

Lemma keys_set_present :
  forall k v d, Py.has_key k d = true -> Py.keys (Py.set k v d) = Py.keys d.
Proof.
  unfold Py.has_key, Py.keys.
  induction d as [|[k0 v0] d IH]; simpl; intros Hk.
  - discriminate.
  - destruct (String.eqb_spec k0 k) as [-> | Hne]; simpl.
    + reflexivity.
    + f_equal. now apply IH.
Qed.

Lemma lookup_absent :
  forall k d, ~ In k (Py.keys d) -> Py.lookup k d = None.
Proof.
  induction d as [|[k0 v0] d IH]; simpl; intros Hn; [reflexivity|].
  destruct (String.eqb_spec k0 k) as [-> | Hne].
  - exfalso; apply Hn; now left.
  - apply IH. intro; apply Hn; now right.
Qed.

End DictFacts.

(* ================================================================== *)
(** ** The field indexer *)
(* ================================================================== *)

Section IndexFacts.
Import ConcretePlanner.
Context `{PyStr.Python} `{Pandas}.

(** The first row of a table sorted by decreasing score has the highest
    score of the table. *)
Lemma sort_values_head :
  forall (f : row -> Z) (df : table) best rest,
    sort_values_desc f df = best :: rest ->
    In best df /\ forall r, In r df -> f r <= f best.
Proof.
  intros f df best rest Hs.
  pose proof (sort_values_perm f df) as Hp.
  pose proof (sort_values_sorted f df) as Hso.
  rewrite Hs in Hp, Hso. split.
  - eapply Permutation_in; [exact Hp | left; reflexivity].
  - intros r Hr.
    apply (Permutation_in _ (Permutation_sym Hp)) in Hr.
    inversion Hso as [|? ? _ Hall]; subst.
    destruct Hr as [<- | Hr]; [lia|].
    rewrite Forall_forall in Hall. now apply Hall.
Qed.

Lemma sort_values_nil :
  forall (f : row -> Z) (df : table), sort_values_desc f df = [] -> df = [].
Proof.
  intros f df Hs. pose proof (sort_values_perm f df) as Hp.
  rewrite Hs in Hp. now apply Permutation_nil.
Qed.

Lemma score_row_sum :
  forall norm_key r,
    score_row norm_key r =
      (if interactive_row r then 150 else 0)
      + (if passive_row r then -20 else 0)
      + (if Qltb 0 (Vis r) then 50 else 0)
      + (if String.eqb norm_key (PyStr.lower (Label_L r)) then 20 else 0).
Proof.
  intros. unfold score_row.
  destruct (interactive_row r), (passive_row r), (Qltb 0 (Vis r)),
    (String.eqb norm_key (PyStr.lower (Label_L r))); reflexivity.
Qed.

Lemma score_row_not_interactive :
  forall norm_key r, interactive_row r = false -> score_row norm_key r <= 70.
Proof.
  intros norm_key r Hi. rewrite score_row_sum, Hi.
  destruct (passive_row r), (Qltb 0 (Vis r)),
    (String.eqb norm_key (PyStr.lower (Label_L r))); lia.
Qed.

Lemma score_row_visible_interactive :
  forall norm_key r,
    interactive_row r = true -> Qltb 0 (Vis r) = true -> 180 <= score_row norm_key r.
Proof.
  intros norm_key r Hi Hv. rewrite score_row_sum, Hi, Hv.
  destruct (passive_row r), (String.eqb norm_key (PyStr.lower (Label_L r))); lia.
Qed.

(** The entry of a field is the binding of a candidate of highest score
    when that score reaches 50, and the sentinel otherwise. *)
Lemma index_field_cases :
  forall (raw_df : table) (field_key : string),
    let norm_key := norm_key_of field_key in
    let candidates := filter (field_mask norm_key) raw_df in
    (exists best,
        In best candidates /\
        (forall r, In r candidates -> score_row norm_key r <= score_row norm_key best) /\
        50 <= score_row norm_key best /\
        index_field raw_df field_key = binding_of best)
    \/ ((forall r, In r candidates -> score_row norm_key r < 50) /\
        index_field raw_df field_key = NOT_FOUND).
Proof.
  intros raw_df field_key norm_key candidates. unfold index_field.
  fold norm_key. fold candidates.
  destruct (sort_values_desc (score_row norm_key) candidates) as [|best rest] eqn:Hs.
  - right. apply sort_values_nil in Hs. rewrite Hs. split; [contradiction | reflexivity].
  - apply sort_values_head in Hs. destruct Hs as [Hin Hmax].
    destruct (50 <=? score_row norm_key best) eqn:Hge.
    + left. exists best. apply Z.leb_le in Hge. auto.
    + right. apply Z.leb_gt in Hge. split; [|reflexivity].
      intros r Hr. specialize (Hmax r Hr). lia.
Qed.

(** After the loop over the field names, each of them has the entry
    that the loop body computes for it. *)
Lemma index_fields_loop_lookup :
  forall (raw_df : table) (ks : list string) (init : pydict) (k : string),
    Py.lookup k (fold_left (fun index_map field_key =>
                              Py.set field_key (index_field raw_df field_key) index_map)
                           ks init) =
      if in_dec string_dec k ks then Some (index_field raw_df k)
      else Py.lookup k init.
Proof.
  induction ks as [|k0 ks IH]; intros init k; [reflexivity|].
  cbn [fold_left]. rewrite IH.
  destruct (in_dec string_dec k ks) as [Hin | Hnin];
    destruct (in_dec string_dec k (k0 :: ks)) as [Hin' | Hnin']; try reflexivity.
  - exfalso. apply Hnin'. now right.
  - destruct Hin' as [-> | Hin']; [apply lookup_set_same | contradiction].
  - apply lookup_set_other. intros ->. apply Hnin'. now left.
Qed.

Lemma index_fields_lookup :
  forall (fields : pydict) (raw_df : table) (k : string),
    In k (Py.keys fields) ->
    Py.lookup k (index_fields fields raw_df) = Some (index_field raw_df k).
Proof.
  intros fields raw_df k Hin. unfold index_fields.
  rewrite index_fields_loop_lookup.
  destruct (in_dec string_dec k (Py.keys fields)); [reflexivity | contradiction].
Qed.

(** The entries added for the intent leave the entries of the fields
    alone, the two synthetic keys apart. *)
Lemma build_bid_index_field :
  forall (m : manifest) (raw_df : table) (k : string),
    In k (Py.keys (FIELDS m)) ->
    k <> "PRIMARY_SEARCH_INPUT" -> k <> "SUBMIT_BUTTON" ->
    Py.lookup k (build_bid_index m raw_df) = Some (index_field raw_df k).
Proof.
  intros m raw_df k Hin Hs Hb. unfold build_bid_index.
  assert (Hsub : forall idx, Py.lookup k (add_submit_button (normalized_intent m) raw_df idx)
                             = Py.lookup k idx).
  { intros idx. unfold add_submit_button.
    destruct (existsb _ _); [|reflexivity].
    destruct (sort_values_desc _ _); [reflexivity|].
    destruct (0 <? _); [|reflexivity].
    apply lookup_set_other. congruence. }
  assert (Hsea : forall idx, Py.lookup k (add_primary_search (normalized_intent m) raw_df idx)
                             = Py.lookup k idx).
  { intros idx. unfold add_primary_search.
    destruct (PyStr.mem _ _); [|reflexivity].
    destruct (sort_values_desc _ _); [reflexivity|].
    apply lookup_set_other. congruence. }
  rewrite Hsub, Hsea. now apply index_fields_lookup.
Qed.

(** C8. The score of a candidate row is the sum of +150 (interactive
    role or tag), -20 (passive label role or tag), +50 (visibility above
    zero) and +20 (primary label equal to the normalised field name); the
    entry of the field is the binding of a candidate of highest score
    when that score is at least 50 and ["NOT_FOUND"] otherwise; when a
    visible interactive row is the only interactive candidate, the field
    binds to it whatever passive labels match as well; and this entry is
    what [build_bid_index] records for every specified field (a field
    that bears the name of one of the two synthetic keys apart). *)
Theorem field_index_scoring :
  forall (raw_df : table) (field_key : string),
    let norm_key := norm_key_of field_key in
    let candidates := filter (field_mask norm_key) raw_df in
    (forall r,
        score_row norm_key r =
          (if interactive_row r then 150 else 0)
          + (if passive_row r then -20 else 0)
          + (if Qltb 0 (Vis r) then 50 else 0)
          + (if String.eqb norm_key (PyStr.lower (Label_L r)) then 20 else 0))
    /\ ((exists best,
            In best candidates /\
            (forall r, In r candidates ->
                       score_row norm_key r <= score_row norm_key best) /\
            50 <= score_row norm_key best /\
            index_field raw_df field_key = binding_of best)
        \/ ((forall r, In r candidates -> score_row norm_key r < 50) /\
            index_field raw_df field_key = NOT_FOUND))
    /\ (forall select,
           In select candidates ->
           interactive_row select = true ->
           Qltb 0 (Vis select) = true ->
           (forall r, In r candidates -> interactive_row r = true -> r = select) ->
           index_field raw_df field_key = binding_of select)
    /\ (forall m : manifest,
           In field_key (Py.keys (FIELDS m)) ->
           field_key <> "PRIMARY_SEARCH_INPUT" -> field_key <> "SUBMIT_BUTTON" ->
           Py.lookup field_key (build_bid_index m raw_df)
           = Some (index_field raw_df field_key)).
Proof.
  intros raw_df field_key norm_key candidates.
  split; [apply score_row_sum|].
  split; [apply index_field_cases|].
  split; [|intros m; apply build_bid_index_field].
  intros select Hin Hi Hv Honly.
  pose proof (score_row_visible_interactive norm_key select Hi Hv) as Hsel.
  destruct (index_field_cases raw_df field_key)
    as [(best & Hb & Hmax & _ & Heq) | (Hlow & _)].
  - fold norm_key in Hb, Hmax, Heq. fold candidates in Hb, Hmax.
    rewrite Heq. f_equal. apply Honly; [assumption|].
    destruct (interactive_row best) eqn:Hbi; [reflexivity|].
    pose proof (score_row_not_interactive norm_key best Hbi).
    specialize (Hmax select Hin). lia.
  - fold norm_key in Hlow. fold candidates in Hlow.
    specialize (Hlow select Hin). lia.
Qed.

End IndexFacts.

(** Scenario A: a text label "Category" at (100, 200, 80, 20) and a
    select at (185, 198, 150, 24), fused and then indexed. *)
Definition scenario_label : ObservationAnalyzer.element :=
  ObservationAnalyzer.mkElement 11 "LABEL" "LabelText" "Category" "Category" ""
    (Some (100%Q, 200%Q, 80%Q, 20%Q)) 1%Q 0 false [] [].

Definition scenario_select : ObservationAnalyzer.element :=
  ObservationAnalyzer.mkElement 12 "SELECT" "combobox" "" "" ""
    (Some (185%Q, 198%Q, 150%Q, 24%Q)) 1%Q 0 false [] [].

Definition scenario_table : table :=
  ObservationAnalyzer.analyze [("l1", scenario_label); ("s2", scenario_select)] "".

Definition scenario_select_row : row :=
  ObservationAnalyzer.record_of
    [("l1", scenario_label); ("s2", scenario_select)] "" "s2" scenario_select.

(** The fusion pass gives the select the label on its left. *)
Example scenario_table_labels :
  map (fun r => (BID r, Label_L r, InnerT r)) scenario_table
  = [("l1", "", "Category"); ("s2", "Category", "")].
Proof. vm_compute. reflexivity. Qed.

Example scenario_scores :
  map (ConcretePlanner.score_row "category") scenario_table = [30; 220].
Proof. vm_compute. reflexivity. Qed.

Example scenario_A_index :
  @ConcretePlanner.build_bid_index
    reference_python reference_pandas
    (mkManifest PNone (Some (PStr "create")) [("Category", PStr "Hardware")])
    scenario_table
  = [("Category", PDict [("bid", PStr "s2"); ("role", PStr "combobox");
                         ("label", PStr "Category"); ("is_visible", PBool true)])].
Proof. vm_compute. reflexivity. Qed.

Lemma field_index_scoring_witness :
  @ConcretePlanner.index_field reference_python reference_pandas scenario_table "Category"
  = PDict [("bid", PStr "s2"); ("role", PStr "combobox");
           ("label", PStr "Category"); ("is_visible", PBool true)].
Proof.
  change (@ConcretePlanner.index_field reference_python reference_pandas scenario_table "Category"
          = ConcretePlanner.binding_of scenario_select_row).
  apply (proj1 (proj2 (proj2 (@field_index_scoring reference_python reference_pandas
                                                    scenario_table "Category")))).
  - right; left; reflexivity.
  - reflexivity.
  - reflexivity.
  - intros r [<- | [<- | []]].
    + discriminate.
    + reflexivity.
Defined.

(* ================================================================== *)
(** ** Substrings *)
(* ================================================================== *)

Section SubstringFacts.
Import PyStr.

Lemma append_assoc :
  forall a b c : string, (a ++ b) ++ c = a ++ (b ++ c).
Proof.
  induction a as [|x a IH]; simpl; intros; [reflexivity | now rewrite IH].
Qed.

Lemma prefix_append :
  forall p s : string, prefix p (p ++ s) = true.
Proof.
  induction p as [|x p IH]; simpl; intros; [destruct s; reflexivity|].
  destruct (ascii_dec x x); [apply IH | contradiction].
Qed.

Lemma prefix_split :
  forall p s : string, prefix p s = true -> exists b, s = p ++ b.
Proof.
  induction p as [|x p IH]; intros s Hp.
  - exists s; reflexivity.
  - destruct s as [|y s]; simpl in Hp; [discriminate|].
    destruct (ascii_dec x y) as [->|]; [|discriminate].
    destruct (IH _ Hp) as [b ->]. exists b; reflexivity.
Qed.

Lemma contains_unfold :
  forall p s : string,
    contains p s =
      prefix p s || match s with
                    | EmptyString => false
                    | String _ s' => contains p s'
                    end.
Proof. destruct s; reflexivity. Qed.

Lemma contains_here :
  forall p s : string, contains p (p ++ s) = true.
Proof.
  intros. rewrite contains_unfold, prefix_append. reflexivity.
Qed.

(** [p in s] holds exactly when [s] is some text, then [p], then some text. *)
Lemma contains_iff :
  forall p s : string,
    contains p s = true <-> exists a b, s = a ++ p ++ b.
Proof.
  intros p s; split.
  - induction s as [|x s IH]; rewrite contains_unfold; intros Hc.
    + rewrite orb_false_r in Hc. apply prefix_split in Hc.
      destruct Hc as [b Hb]. exists "", b. exact Hb.
    + apply orb_true_iff in Hc. destruct Hc as [Hp | Hc].
      * apply prefix_split in Hp. destruct Hp as [b Hb]. exists "", b. exact Hb.
      * destruct (IH Hc) as (a & b & ->). exists (String x a), b. reflexivity.
  - intros (a & b & ->). induction a as [|x a IH].
    + simpl. apply contains_here.
    + rewrite contains_unfold. simpl. rewrite IH. apply orb_true_r.
Qed.

Lemma contains_inside :
  forall p s a b : string,
    contains p s = true -> contains p (a ++ s ++ b) = true.
Proof.
  intros p s a b Hc. apply contains_iff in Hc. destruct Hc as (a' & b' & ->).
  apply contains_iff. exists (a ++ a'), (b' ++ b).
  now rewrite !append_assoc.
Qed.

Lemma join_member :
  forall (sep : string) (l : list string) (x : string),
    In x l -> exists a b, join sep l = a ++ x ++ b.
Proof.
  induction l as [|y l IH]; simpl; intros x Hin; [contradiction|].
  destruct Hin as [-> | Hin].
  - destruct l as [|z l].
    + exists "", "". simpl. clear. induction x; simpl; congruence.
    + exists "", (sep ++ join sep (z :: l)). reflexivity.
  - destruct l as [|z l]; [contradiction|].
    destruct (IH _ Hin) as (a & b & ->).
    exists (y ++ sep ++ a), b. now rewrite !append_assoc.
Qed.

Lemma json_dumps_dict :
  forall d : pydict,
    Py.json_dumps (PDict d) =
      "{" ++ join ", " (map (fun kv : string * pyval =>
                               let (k, x) := kv in
                               Py.json_string k ++ ": " ++ Py.json_dumps x) d) ++ "}".
Proof. reflexivity. Qed.

(** The serialisation of a dictionary holds that of each of its values. *)
Lemma json_dumps_holds_value :
  forall (d : pydict) (k : string) (v : pyval),
    In (k, v) d ->
    exists a b, Py.json_dumps (PDict d) = a ++ Py.json_dumps v ++ b.
Proof.
  intros d k v Hin. rewrite json_dumps_dict.
  assert (Hm : In (Py.json_string k ++ ": " ++ Py.json_dumps v)
                  (map (fun kv : string * pyval =>
                          let (k0, x) := kv in
                          Py.json_string k0 ++ ": " ++ Py.json_dumps x) d)).
  { apply in_map_iff. exists (k, v). split; [reflexivity | assumption]. }
  destruct (join_member ", " _ _ Hm) as (a & b & ->).
  exists ("{" ++ a ++ Py.json_string k ++ ": "), (b ++ "}").
  now rewrite !append_assoc.
Qed.

End SubstringFacts.

(* ================================================================== *)
(** ** Remediation of the index *)
(* ================================================================== *)


Section RemediationFacts.
Import ConcretePlanner.
Context `{PyStr.Python} `{Connector}.

Lemma merge_correction_keys :
  forall data incomplete_index,
    Py.keys (merge_correction incomplete_index data) = Py.keys incomplete_index.
Proof.
  unfold merge_correction.
  induction data as [|[k v] data IH]; simpl; intros idx; [reflexivity|].
  rewrite IH. destruct (Py.has_key k idx) eqn:Hk; [now apply keys_set_present | reflexivity].
Qed.

(** The merge overwrites the keys the index already has and adds none. *)
Lemma merge_correction_lookup :
  forall data incomplete_index k,
    NoDup (Py.keys data) ->
    Py.lookup k (merge_correction incomplete_index data) =
      match Py.lookup k incomplete_index with
      | None => None
      | Some old =>
          match Py.lookup k data with
          | Some v => Some v
          | None => Some old
          end
      end.
Proof.
  unfold merge_correction.
  induction data as [|[k0 v0] data IH]; simpl; intros idx k Hnd.
  - destruct (Py.lookup k idx); reflexivity.
  - inversion Hnd as [|? ? Hnotin Hnd']; subst.
    rewrite (IH _ _ Hnd'). unfold Py.has_key.
    destruct (String.eqb_spec k0 k) as [-> | Hne].
    + rewrite (lookup_absent _ _ Hnotin).
      destruct (Py.lookup k idx) eqn:Hl.
      * now rewrite lookup_set_same.
      * now rewrite Hl.
    + destruct (Py.lookup k0 idx); [now rewrite lookup_set_other | reflexivity].
Qed.

(** C7. When the remediation request is made and the oracle returns a
    correction map, the merged index has the keys of the original index
    and no other, takes on each of them the value of the correction map
    when the map mentions the key and keeps the original entry when it
    does not; when the oracle's answer is an error or not a dictionary,
    the index is returned unchanged. *)
Theorem remediation_is_partial_merge :
  forall (m : manifest) (raw_df : table) (incomplete_index : pydict)
         (log : list request),
    PyStr.contains "NOT_FOUND" (Py.json_dumps (PDict incomplete_index)) = true ->
    let answer :=
      fetch_json (List.length log)
                 (refine_bid_index_prompt
                    incomplete_index
                    (ObservationFilter.apply raw_df ObservationFilter.Light)) in
    let merged := fst (refine_bid_index_with_llm m raw_df incomplete_index log) in
    (forall data reasoning,
        answer = api_data (PDict data) reasoning ->
        NoDup (Py.keys data) ->
        Py.keys merged = Py.keys incomplete_index /\
        forall k,
          Py.lookup k merged =
            match Py.lookup k incomplete_index with
            | None => None
            | Some old =>
                match Py.lookup k data with
                | Some v => Some v
                | None => Some old
                end
            end)
    /\ ((forall data reasoning, answer <> api_data (PDict data) reasoning) ->
        merged = incomplete_index).
Proof.
  intros m raw_df idx log Hnf. cbv zeta.
  unfold refine_bid_index_with_llm. rewrite Hnf. simpl.
  unfold bind, ask_json.
  destruct (fetch_json _ _) as [[| | | | |d] r | err]; cbn [fst ret];
    (split; [intros data reasoning Ha Hnd; try discriminate | intros Hno; try reflexivity]).
  - inversion Ha; subst d r.
    destruct data as [|kv data].
    + simpl. split; [reflexivity|]. intros k. destruct (Py.lookup k idx); reflexivity.
    + unfold ret. cbn [Py.truthy fst].
      split; [apply merge_correction_keys | intros k; now apply merge_correction_lookup].
  - exfalso. now apply (Hno d r).
Qed.

(** C10. An index whose serialisation does not hold the text
    ["NOT_FOUND"] is returned as it is and the log of requests is left as
    it was; as soon as the serialisation of some entry holds the text,
    one request is made, with the index and the permissively filtered
    table. *)
Theorem remediation_trigger :
  forall (m : manifest) (raw_df : table) (incomplete_index : pydict)
         (log : list request),
    (PyStr.contains "NOT_FOUND" (Py.json_dumps (PDict incomplete_index)) = false ->
     refine_bid_index_with_llm m raw_df incomplete_index log = (incomplete_index, log))
    /\ (forall k v,
           In (k, v) incomplete_index ->
           PyStr.contains "NOT_FOUND" (Py.json_dumps v) = true ->
           snd (refine_bid_index_with_llm m raw_df incomplete_index log) =
             (log ++ [refine_bid_index_prompt
                        incomplete_index
                        (ObservationFilter.apply raw_df ObservationFilter.Light)])%list).
Proof.
  intros m raw_df idx log. split.
  - intros Hnf. unfold refine_bid_index_with_llm. rewrite Hnf. reflexivity.
  - intros k v Hin Hv.
    assert (Hc : PyStr.contains "NOT_FOUND" (Py.json_dumps (PDict idx)) = true).
    { destruct (json_dumps_holds_value idx k v Hin) as (a & b & ->).
      now apply contains_inside. }
    unfold refine_bid_index_with_llm. rewrite Hc. simpl.
    unfold bind, ask_json.
    destruct (fetch_json _ _) as [[| | | | |data] reasoning | err]; try reflexivity.
    destruct data; reflexivity.
Qed.

End RemediationFacts.

(** An oracle that answers every index request with a correction for
    "Category" and an entry of its own invention, and every plan request
    with an error. *)
Definition correction_map : pydict :=
  [("Category", PDict [("bid", PStr "s2"); ("role", PStr "combobox")]);
   ("Invented", PStr "z9")].

Definition correcting_connector : ConcretePlanner.Connector :=
  {| ConcretePlanner.fetch_json := fun _ _ => ConcretePlanner.api_data (PDict correction_map) None;
     ConcretePlanner.fetch_plan := fun _ _ => ConcretePlanner.api_error "Traceback";
     ConcretePlanner.renders := fun _ => true;
     ConcretePlanner.format_exc := fun _ => "Traceback" |}.

Definition empty_manifest : manifest := mkManifest PNone None [].

Definition unresolved_index : pydict :=
  [("Category", PStr "NOT_FOUND");
   ("State", PDict [("bid", PStr "a12"); ("role", PStr "textbox")])].

Lemma remediation_is_partial_merge_witness :
  let merged :=
    fst (@ConcretePlanner.refine_bid_index_with_llm
           reference_python correcting_connector empty_manifest [] unresolved_index []) in
  Py.keys merged = Py.keys unresolved_index /\
  forall k,
    Py.lookup k merged =
      match Py.lookup k unresolved_index with
      | None => None
      | Some old =>
          match Py.lookup k correction_map with
          | Some v => Some v
          | None => Some old
          end
      end.
Proof.
  apply (proj1 (@remediation_is_partial_merge
                  reference_python correcting_connector empty_manifest []
                  unresolved_index [] eq_refl) correction_map None).
  - reflexivity.
  - repeat constructor; simpl; intuition discriminate.
Defined.

(** The entry resolved by the oracle is taken, the resolved entry is
    kept, the invented key is dropped. *)
Example remediation_round_trip :
  fst (@ConcretePlanner.refine_bid_index_with_llm
         reference_python correcting_connector empty_manifest [] unresolved_index [])
  = [("Category", PDict [("bid", PStr "s2"); ("role", PStr "combobox")]);
     ("State", PDict [("bid", PStr "a12"); ("role", PStr "textbox")])].
Proof. reflexivity. Qed.

(** A resolved binding whose label holds the text NOT_FOUND. *)
Definition resolved_index_with_text : pydict :=
  [("Title", PDict [("bid", PStr "a7"); ("label", PStr "Page NOT_FOUND banner")])].

Lemma remediation_trigger_witness :
  snd (@ConcretePlanner.refine_bid_index_with_llm
         reference_python correcting_connector empty_manifest [] resolved_index_with_text [])
  = [ConcretePlanner.refine_bid_index_prompt resolved_index_with_text []].
Proof.
  apply (proj2 (@remediation_trigger
                  reference_python correcting_connector empty_manifest []
                  resolved_index_with_text [])
               "Title"
               (PDict [("bid", PStr "a7"); ("label", PStr "Page NOT_FOUND banner")])).
  - left; reflexivity.
  - reflexivity.
Defined.

Example no_remediation_without_sentinel :
  @ConcretePlanner.refine_bid_index_with_llm
    reference_python correcting_connector empty_manifest []
    [("State", PDict [("bid", PStr "a12")])] []
  = ([("State", PDict [("bid", PStr "a12")])], []).
Proof. reflexivity. Qed.

(* ================================================================== *)
(** ** Plan validation: well-formedness of actions *)
(* ================================================================== *)


Definition is_missing_fields (e : verr) : bool :=
  match e with MissingFields _ => true | _ => false end.

Section ActionFacts.
Import ConcretePlanner.
Context `{PyStr.Python}.

Variables (fields_spec bid_index : pydict) (raw_df : table) (completed : list string).

Lemma role_audit_errors :
  forall sid bid logic_ref errs e,
    role_audit bid_index raw_df sid bid logic_ref = Ok errs ->
    In e errs -> exists s, e = LabelTarget sid bid s.
Proof.
  unfold role_audit. intros sid bid logic_ref errs e Hr Hin.
  destruct (row_of_bid raw_df bid) as [target_row|].
  - destruct (_ && _).
    + destruct (correct_bid_suggestion bid_index logic_ref) as [s|x]; simpl in Hr;
        [|discriminate].
      inversion Hr; subst. destruct Hin as [<- | []]. now exists s.
    + inversion Hr; subst. contradiction.
  - inversion Hr; subst. contradiction.
Qed.

Lemma redundant_click_audit_errors :
  forall sid a_type logic_ref errs e,
    redundant_click_audit fields_spec completed sid a_type logic_ref = Ok errs ->
    In e errs -> e = RedundantClick sid logic_ref.
Proof.
  unfold redundant_click_audit. intros sid a_type logic_ref errs e Hr Hin.
  destruct (Py.eq_str a_type "click");
    [destruct (negb (Py.hashable logic_ref)); [discriminate|];
     destruct (Py.in_strs logic_ref completed);
     [destruct (PyStr.mem _ _)|] |];
    inversion Hr; subst; try contradiction.
  destruct Hin as [<- | []]. reflexivity.
Qed.




End ActionFacts.





(** An action whose type is a list. *)
Example unhashable_action_type_raises :
  ConcretePlanner.validate_plan
    [mkStep (Some (PStr "step_1"))
            (Some [[("action_type", PList [PStr "click"]); ("bid", PStr "a5")]])]
    empty_manifest [] []
  = Raise TypeError.
Proof. reflexivity. Qed.

(* ================================================================== *)
(** ** Plan validation: the field-completion audit *)
(* ================================================================== *)

Section CompletionFacts.
Import ConcretePlanner.
Context `{PyStr.Python}.

Lemma set_order_nil : PyStr.set_order [] = [].
Proof.
  destruct (PyStr.set_order []) as [|x l] eqn:Hs; [reflexivity|].
  exfalso. apply (PyStr.set_order_In [] x). rewrite Hs. now left.
Qed.

Lemma mem_In :
  forall x l, PyStr.mem x l = true <-> In x l.
Proof.
  unfold PyStr.mem. intros x l. rewrite existsb_exists. split.
  - intros (y & Hin & He). apply String.eqb_eq in He. now subst.
  - intros Hin. exists x. split; [assumption | apply String.eqb_refl].
Qed.

Lemma eq_str_iff :
  forall v s, Py.eq_str v s = true <-> v = PStr s.
Proof.
  intros v s. destruct v; simpl; split; try discriminate.
  - intros He. apply String.eqb_eq in He. now subst.
  - intros He. inversion He. apply String.eqb_refl.
Qed.

Lemma completed_logic_refs_In :
  forall fields_spec bid_index raw_df f,
    In f (completed_logic_refs fields_spec bid_index raw_df) <->
    exists target_val,
      In (f, target_val) fields_spec /\
      field_completed bid_index raw_df f target_val = true.
Proof.
  intros. unfold completed_logic_refs. rewrite in_map_iff. split.
  - intros ([k v] & <- & Hin). apply filter_In in Hin. simpl in *.
    exists v. exact Hin.
  - intros (v & Hin & Hc). exists (f, v). split; [reflexivity|].
    apply filter_In. simpl. auto.
Qed.

Lemma unique_target :
  forall (fields_spec : pydict) f v1 v2,
    NoDup (Py.keys fields_spec) ->
    In (f, v1) fields_spec -> In (f, v2) fields_spec -> v1 = v2.
Proof.
  unfold Py.keys.
  induction fields_spec as [|[k v] rest IH]; simpl; intros f v1 v2 Hnd H1 H2.
  - contradiction.
  - inversion Hnd as [|? ? Hnotin Hnd']; subst.
    destruct H1 as [E1 | H1], H2 as [E2 | H2].
    + congruence.
    + inversion E1; subst. exfalso; apply Hnotin.
      change f with (fst (f, v2)). now apply in_map.
    + inversion E2; subst. exfalso; apply Hnotin.
      change f with (fst (f, v1)). now apply in_map.
    + eauto.
Qed.

Lemma planned_logic_refs_In :
  forall concrete_steps planned f,
    planned_logic_refs concrete_steps = Ok planned ->
    (In (PStr f) planned <->
     exists a, In a (all_actions concrete_steps) /\
               Py.get "logic_ref" a = PStr f /\ f <> "").
Proof.
  unfold planned_logic_refs. intros steps planned f Hp.
  destruct (forallb _ _); [|discriminate]. inversion Hp; subst; clear Hp.
  rewrite filter_In, in_map_iff. split.
  - intros ((a & Ha & Hin) & Ht). exists a. repeat split; auto.
    simpl in Ht. intros ->. discriminate.
  - intros (a & Hin & Ha & Hne). split; [exists a; auto|].
    simpl. destruct (String.eqb_spec f ""); [contradiction | reflexivity].
Qed.

Lemma check_actions_no_missing :
  forall fields_spec bid_index raw_df completed sid l errs e,
    check_actions fields_spec bid_index raw_df completed sid l = Ok errs ->
    In e errs -> is_missing_fields e = false.
Proof.
  induction l as [|a l IH]; simpl; intros errs e Hc Hin.
  - inversion Hc; subst. contradiction.
  - destruct (check_action _ _ _ _ _ a) as [e1|] eqn:H1; simpl in Hc; [|discriminate].
    destruct (check_actions _ _ _ _ _ l) as [e2|] eqn:H2; simpl in Hc; [|discriminate].
    inversion Hc; subst. apply in_app_or in Hin. destruct Hin as [Hin | Hin];
      [|now apply (IH e2)].
    clear IH H2. unfold check_action in H1.
    destruct (negb (Py.hashable _)); [discriminate|].
    destruct (negb (Py.in_strs _ _)).
    { inversion H1; subst. destruct Hin as [<- | []]. reflexivity. }
    destruct (Py.eq_str _ "extractLLM").
    { inversion H1; subst. destruct (negb _);
        [destruct Hin as [<- | []]; reflexivity | contradiction]. }
    destruct (Py.eq_str _ "send_msg_to_user").
    { inversion H1; subst. contradiction. }
    destruct (Py.eq_str _ "scroll").
    { inversion H1; subst. destruct (_ && _);
        [destruct Hin as [<- | []]; reflexivity | contradiction]. }
    destruct (role_audit _ _ _ _ _) as [r1|] eqn:Hr1; simpl in H1; [|discriminate].
    destruct (redundant_click_audit _ _ _ _ _) as [r2|] eqn:Hr2; simpl in H1;
      [|discriminate].
    inversion H1; subst. apply in_app_or in Hin. destruct Hin as [Hin | Hin].
    + destruct (role_audit_errors _ _ _ _ _ _ _ Hr1 Hin) as [s ->]. reflexivity.
    + rewrite (redundant_click_audit_errors _ _ _ _ _ _ _ Hr2 Hin). reflexivity.
Qed.

Lemma check_steps_no_missing :
  forall fields_spec bid_index raw_df completed l errs e,
    check_steps fields_spec bid_index raw_df completed l = Ok errs ->
    In e errs -> is_missing_fields e = false.
Proof.
  induction l as [|s l IH]; simpl; intros errs e Hc Hin.
  - inversion Hc; subst. contradiction.
  - destruct (check_step _ _ _ _ s) as [e1|] eqn:H1; simpl in Hc; [|discriminate].
    destruct (check_steps _ _ _ _ l) as [e2|] eqn:H2; simpl in Hc; [|discriminate].
    inversion Hc; subst. apply in_app_or in Hin. destruct Hin as [Hin | Hin].
    + unfold check_step in H1. eapply check_actions_no_missing; eauto.
    + now apply (IH e2).
Qed.

(** C5, as the code has it. Whenever the validation of a plan returns
    (it raises on an action type or a logic reference that cannot be
    hashed and on a label target whose logic reference names an index
    entry that is not a binding), the fields taken as missing are
    exactly the specified fields that the live state does not satisfy,
    that no planned action names in a non-empty logic reference and
    whose index entry is resolved (present, not empty and not
    ["NOT_FOUND"]), each once, in the order in which the set is
    iterated. The validation reports them, in one error placed first,
    when there is at least one such field and the plan holds no
    send_msg_to_user and no extractLLM action; in every other case no
    missing-fields error is among the errors. *)
Theorem missing_fields_report :
  forall (concrete_steps : list step) (m : manifest) (bid_index : pydict)
         (raw_df : table) (errs : list verr),
    validate_plan concrete_steps m bid_index raw_df = Ok errs ->
    let fields_spec := FIELDS m in
    let completed := completed_logic_refs fields_spec bid_index raw_df in
    exists (truly_missing : list string) (rest : list verr),
      NoDup truly_missing
      /\ (forall f,
            In f truly_missing <->
            In f (Py.keys fields_spec) /\
            ~ In f completed /\
            ~ (exists a, In a (all_actions concrete_steps) /\
                         Py.get "logic_ref" a = PStr f /\ f <> "") /\
            resolved_entry bid_index f = true)
      /\ check_steps fields_spec bid_index raw_df completed concrete_steps = Ok rest
      /\ (forall e, In e rest -> is_missing_fields e = false)
      /\ errs = ((if match truly_missing with [] => false | _ => true end
                      && negb (reports_or_extracts concrete_steps)
                   then [MissingFields truly_missing] else []) ++ rest)%list.
Proof.
  intros steps m idx df errs Hv fields_spec completed.
  unfold validate_plan in Hv. fold fields_spec completed in Hv.
  destruct (planned_logic_refs steps) as [planned|] eqn:Hp; cbn [rbind] in Hv;
    [|discriminate].
  destruct (check_steps fields_spec idx df completed steps) as [rest|] eqn:Hc;
    cbn [rbind] in Hv; [|discriminate].
  injection Hv as <-.
  exists (truly_missing_of idx (missing_fields fields_spec completed planned)), rest.
  split; [|split; [|split; [|split]]].
  - unfold truly_missing_of, missing_fields.
    apply NoDup_filter, PyStr.set_order_NoDup.
  - intros f. unfold truly_missing_of, missing_fields.
    rewrite filter_In, PyStr.set_order_In, filter_In, andb_true_iff, !negb_true_iff.
    rewrite <- (planned_logic_refs_In steps planned f Hp).
    split.
    + intros ((Hk & Hcm & Hpl) & Hr). repeat split; auto.
      * intros Hin. apply mem_In in Hin. congruence.
      * intros Hin.
        assert (existsb (fun v => Py.eq_str v f) planned = true).
        { apply existsb_exists. exists (PStr f). split; [assumption|].
          now apply eq_str_iff. }
        congruence.
    + intros (Hk & Hcm & Hpl & Hr). repeat split; auto.
      * destruct (PyStr.mem f completed) eqn:Hm; [|reflexivity].
        apply mem_In in Hm. contradiction.
      * destruct (existsb _ planned) eqn:He; [|reflexivity].
        apply existsb_exists in He. destruct He as (v & Hin & Hv).
        apply eq_str_iff in Hv. subst v. contradiction.
  - reflexivity.
  - intros e. exact (check_steps_no_missing _ _ _ _ _ _ e Hc).
  - f_equal. unfold missing_report.
    destruct (missing_fields fields_spec completed planned) as [|f0 l0]; [reflexivity|].
    destruct (truly_missing_of idx (f0 :: l0)); [reflexivity|].
    destruct (negb (reports_or_extracts steps)); reflexivity.
Qed.

End CompletionFacts.

(** A visible row with a box, for the examples. *)
Definition plain_row (bid role tag inner value : string) : row :=
  mkRow bid role tag "" "" "" "" inner value "no" "Active" "no" "no" "None"
        1%Q (Some (10%Q, 10%Q, 100%Q, 20%Q)) "".

Definition two_fields : manifest :=
  mkManifest PNone None [("A", PStr "X"); ("B", PStr "Y")].

Definition two_fields_index : pydict :=
  [("A", PDict [("bid", PStr "a1")]); ("B", PDict [("bid", PStr "b1")])].

Definition two_empty_inputs : table :=
  [plain_row "a1" "textbox" "INPUT" "" ""; plain_row "b1" "textbox" "INPUT" "" ""].

(** A plan that fills B and says nothing of A. *)
Definition fill_B_plan : list step :=
  [mkStep (Some (PStr "step_1"))
          (Some [[("action_type", PStr "fill"); ("bid", PStr "b1");
                  ("value", PStr "Y"); ("logic_ref", PStr "B")]])].

Lemma missing_fields_report_witness :
  exists (truly_missing : list string) (rest : list verr),
    NoDup truly_missing
    /\ (forall f,
          In f truly_missing <->
          In f (Py.keys (FIELDS two_fields)) /\
          ~ In f (ConcretePlanner.completed_logic_refs
                    (FIELDS two_fields) two_fields_index two_empty_inputs) /\
          ~ (exists a, In a (ConcretePlanner.all_actions fill_B_plan) /\
                       Py.get "logic_ref" a = PStr f /\ f <> "") /\
          ConcretePlanner.resolved_entry two_fields_index f = true)
    /\ ConcretePlanner.check_steps
         (FIELDS two_fields) two_fields_index two_empty_inputs
         (ConcretePlanner.completed_logic_refs
            (FIELDS two_fields) two_fields_index two_empty_inputs)
         fill_B_plan = Ok rest
    /\ (forall e, In e rest -> is_missing_fields e = false)
    /\ [MissingFields ["A"]]
       = ((if match truly_missing with [] => false | _ => true end
              && negb (ConcretePlanner.reports_or_extracts fill_B_plan)
           then [MissingFields truly_missing] else []) ++ rest)%list.
Proof.
  apply (missing_fields_report
           fill_B_plan two_fields two_fields_index two_empty_inputs
           [MissingFields ["A"]]).
  reflexivity.
Defined.

Example missing_field_reported :
  ConcretePlanner.validate_plan fill_B_plan two_fields two_fields_index two_empty_inputs
  = Ok [MissingFields ["A"]].
Proof. reflexivity. Qed.

(** The same plan with a final message to the user. *)
Definition fill_B_and_report_plan : list step :=
  [mkStep (Some (PStr "step_1"))
          (Some [[("action_type", PStr "fill"); ("bid", PStr "b1");
                  ("value", PStr "Y"); ("logic_ref", PStr "B")];
                 [("action_type", PStr "send_msg_to_user");
                  ("message", PStr "Done.")]])].

(** Field A is specified, not satisfied, named by no action and resolved
    in the index; the plan ends with a message to the user and the
    validation emits no error. *)
Lemma missing_field_unreported :
  ConcretePlanner.planned_logic_refs fill_B_and_report_plan = Ok [PStr "B"] /\
  ConcretePlanner.truly_missing_of
    two_fields_index
    (ConcretePlanner.missing_fields
       (FIELDS two_fields)
       (ConcretePlanner.completed_logic_refs
          (FIELDS two_fields) two_fields_index two_empty_inputs)
       [PStr "B"]) = ["A"] /\
  ConcretePlanner.validate_plan
    fill_B_and_report_plan two_fields two_fields_index two_empty_inputs = Ok [].
Proof. repeat split. Qed.

Section EmptyTargetFacts.
Import ConcretePlanner.
Context `{PyStr.Python}.

(** Scenario C: fields A: "X" and B: "" against A = "X" and B = "". *)
Definition scenario_C_manifest : manifest :=
  mkManifest PNone None [("A", PStr "X"); ("B", PStr "")].

Definition scenario_C_table : table :=
  [plain_row "a1" "textbox" "INPUT" "" "X"; plain_row "b1" "combobox" "SELECT" "" ""].

(** C6. For a specified field whose target is the empty text (after
    trimming) and whose index entry is a binding to an element of the
    table, the field is among the completed ones exactly when the
    trimmed current value of the element is empty or is, without regard
    to case, one of none, -- none --, null. With fields A: "X" and
    B: "" against the live values A = "X" and B = "", both fields are
    completed, no field is missing and the validation of the empty plan
    returns no error. *)
Theorem empty_target_satisfied_iff :
  (forall (fields_spec bid_index : pydict) (raw_df : table)
          (field_label : string) (target_val : pyval)
          (field_info : pydict) (cand : row),
      NoDup (Py.keys fields_spec) ->
      In (field_label, target_val) fields_spec ->
      PyStr.strip (Py.str target_val) = "" ->
      Py.get field_label bid_index = PDict field_info ->
      field_info <> [] ->
      row_of_bid raw_df (Py.str (Py.get "bid" field_info)) = Some cand ->
      (In field_label (completed_logic_refs fields_spec bid_index raw_df) <->
       (PyStr.strip (Value cand) = "" \/
        In (PyStr.lower (PyStr.strip (Value cand))) ["none"; "-- none --"; "null"])))
  /\ (completed_logic_refs (FIELDS scenario_C_manifest) two_fields_index scenario_C_table
      = ["A"; "B"]
      /\ missing_fields (FIELDS scenario_C_manifest)
                        (completed_logic_refs (FIELDS scenario_C_manifest)
                                              two_fields_index scenario_C_table)
                        [] = []
      /\ validate_plan [] scenario_C_manifest two_fields_index scenario_C_table = Ok []).
Proof.
  assert (Hscenario :
            completed_logic_refs (FIELDS scenario_C_manifest) two_fields_index
                                 scenario_C_table = ["A"; "B"]).
  { unfold completed_logic_refs, field_completed. simpl. py_ascii. reflexivity. }
  split; [|split; [exact Hscenario | split]].
  2: { rewrite Hscenario. unfold missing_fields. simpl. apply set_order_nil. }
  2: { unfold validate_plan. rewrite Hscenario. unfold missing_fields. simpl.
       now rewrite set_order_nil. }
  intros fields_spec idx df f t info cand Hnd Hin Ht Hinfo Hne Hrow.
  rewrite completed_logic_refs_In.
  assert (Hfc : field_completed idx df f t =
                String.eqb (PyStr.strip (Value cand)) "" ||
                PyStr.mem (PyStr.lower (PyStr.strip (Value cand)))
                          ["none"; "-- none --"; "null"]).
  { unfold field_completed. rewrite Hinfo.
    destruct info as [|kv info]; [contradiction|].
    cbn [Py.truthy negb]. rewrite Hrow, Ht. reflexivity. }
  split.
  - intros (t' & Hin' & Hc).
    assert (t' = t) by (eapply unique_target; eauto). subst t'.
    rewrite Hfc in Hc. apply orb_true_iff in Hc. destruct Hc as [Hc | Hc].
    + left. now apply String.eqb_eq.
    + right. now apply mem_In.
  - intros Hv. exists t. split; [assumption|]. rewrite Hfc.
    apply orb_true_iff. destruct Hv as [Hv | Hv].
    + left. now apply String.eqb_eq.
    + right. now apply mem_In.
Qed.

End EmptyTargetFacts.

(** A select that shows "-- None --" satisfies an empty target. *)
Lemma empty_target_satisfied_iff_witness :
  In "B" (ConcretePlanner.completed_logic_refs
            [("B", PStr "")] two_fields_index
            [plain_row "b1" "combobox" "SELECT" "" "-- None --"]) <->
  (PyStr.strip "-- None --" = "" \/
   In (PyStr.lower (PyStr.strip "-- None --")) ["none"; "-- none --"; "null"]).
Proof.
  apply (proj1 empty_target_satisfied_iff
               [("B", PStr "")] two_fields_index
               [plain_row "b1" "combobox" "SELECT" "" "-- None --"]
               "B" (PStr "") [("bid", PStr "b1")]
               (plain_row "b1" "combobox" "SELECT" "" "-- None --")).
  - repeat constructor; simpl; intuition discriminate.
  - left; reflexivity.
  - reflexivity.
  - reflexivity.
  - discriminate.
  - reflexivity.
Defined.

Example filled_field_fails_empty_target :
  ConcretePlanner.completed_logic_refs
    [("B", PStr "")] two_fields_index
    [plain_row "b1" "textbox" "INPUT" "" "hardware"] = [].
Proof. reflexivity. Qed.

(* ================================================================== *)
(** ** The repair loop *)
(* ================================================================== *)

Section RepairLoopFacts.
Import ConcretePlanner.
Context `{PyStr.Python} `{Pandas} `{Connector}.

Variables (m : manifest) (raw_df : table) (page_title focused_bid : string)
          (refine_instruction : option string) (max_retries : nat)
          (log : list request).

(** The index that a run works with, after its remediation, and the log
    of requests at that point. *)
Definition run_index : pydict :=
  fst (refine_bid_index_with_llm m raw_df (build_bid_index m raw_df) log).

Definition run_index_log : list request :=
  snd (refine_bid_index_with_llm m raw_df (build_bid_index m raw_df) log).

(** [attempt k steps thought lg]: the run comes to its [k]-th attempt
    with the plan [steps], the log being [lg].  The plan of the first
    attempt is the one generated at the start; the plan of the next
    attempt is the refinement of a plan that the validation has flagged,
    asked for while the budget allows another attempt. *)
Inductive attempt : nat -> list step -> option string -> list request -> Prop :=
| attempt_first :
    forall steps thought lg,
      generate_concrete_plan m raw_df page_title focused_bid run_index
                             refine_instruction run_index_log
      = (generated steps thought, lg) ->
      attempt 1 steps thought lg
| attempt_next :
    forall k steps thought lg errs steps' thought' lg',
      attempt k steps thought lg ->
      validate_plan steps m run_index raw_df = Ok errs ->
      errs <> [] ->
      (k < max_retries)%nat ->
      refine_concrete_plan steps errs m raw_df page_title focused_bid run_index
                           refine_instruction lg
      = (generated steps' thought', lg') ->
      attempt (S k) steps' thought' lg'.

(** The oracle fails to give a plan, at the start or when it is asked to
    refine the flagged plan of an attempt that is not the last. *)
Definition generation_fails (err : string) (lg' : list request) : Prop :=
  generate_concrete_plan m raw_df page_title focused_bid run_index
                         refine_instruction run_index_log
  = (generation_error err, lg')
  \/ exists k steps thought lg errs,
       attempt k steps thought lg /\
       validate_plan steps m run_index raw_df = Ok errs /\
       errs <> [] /\
       (k < max_retries)%nat /\
       refine_concrete_plan steps errs m raw_df page_title focused_bid run_index
                            refine_instruction lg
       = (generation_error err, lg').

Local Notation run :=
  (run_repair_loop m raw_df page_title focused_bid refine_instruction max_retries log).

Local Notation loop_from iters steps thought prev lg :=
  (repair_iterations m raw_df page_title focused_bid run_index refine_instruction
                     max_retries iters steps thought prev lg).

Lemma attempt_positive :
  forall k steps thought lg, attempt k steps thought lg -> (1 <= k)%nat.
Proof. intros k steps thought lg Ha. destruct Ha; lia. Qed.

(** The first iteration of the loop does not read [validation_errors]. *)
Lemma repair_iterations_prev :
  forall i iters steps thought prev prev' lg,
    loop_from (i :: iters) steps thought prev lg
    = loop_from (i :: iters) steps thought prev' lg.
Proof. reflexivity. Qed.

Lemma run_after_generation :
  forall steps thought lg,
    generate_concrete_plan m raw_df page_title focused_bid run_index
                           refine_instruction run_index_log
    = (generated steps thought, lg) ->
    run = loop_from (seq 0 max_retries) steps thought None lg.
Proof.
  unfold run_repair_loop, run_index, run_index_log, bind.
  destruct (refine_bid_index_with_llm m raw_df (build_bid_index m raw_df) log)
    as [idx lg1]. cbn [fst snd]. intros steps thought lg ->. reflexivity.
Qed.

(** A run that comes to its [k]-th attempt is the loop from that
    attempt on. *)
Lemma attempt_state :
  forall k steps thought lg,
    attempt k steps thought lg -> (k <= max_retries)%nat ->
    exists prev,
      run = loop_from (seq (k - 1) (S (max_retries - k))) steps thought prev lg.
Proof.
  intros k steps thought lg Ha. induction Ha as
      [steps thought lg Hg
      | k steps thought lg errs steps' thought' lg' Ha IH Hv Hne Hk Hr];
    intros Hle.
  - exists None. rewrite (run_after_generation _ _ _ Hg).
    replace (S (max_retries - 1)) with max_retries by lia. reflexivity.
  - destruct IH as [prev IH]; [lia|]. exists (Some errs). rewrite IH.
    pose proof (attempt_positive _ _ _ _ Ha) as Hpos.
    cbn [seq repair_iterations]. rewrite Hv.
    destruct errs as [|e errs]; [contradiction|].
    replace (k - 1 =? max_retries - 1)%nat with false
      by (symmetry; apply Nat.eqb_neq; lia).
    unfold bind. rewrite Hr.
    replace (S (k - 1)) with (S k - 1)%nat by lia.
    replace (max_retries - k)%nat with (S (max_retries - S k)) by lia.
    reflexivity.
Qed.

(** What the loop ends in, from an attempt on. *)
Definition outcome (res : result plan_result * list request) : Prop :=
  match fst res with
  | Ok r =>
      (exists err, r = error_result err /\ generation_fails err (snd res))
      \/ (exists k steps thought,
             attempt k steps thought (snd res) /\ (k <= max_retries)%nat /\
             validate_plan steps m run_index raw_df = Ok [] /\
             r = accepted_result steps thought run_index k)
      \/ (exists steps thought errs,
             attempt max_retries steps thought (snd res) /\
             validate_plan steps m run_index raw_df = Ok errs /\ errs <> [] /\
             r = exhausted_result steps thought run_index errs)
  | Raise e =>
      (exists k steps thought,
          attempt k steps thought (snd res) /\ (k <= max_retries)%nat /\
          validate_plan steps m run_index raw_df = Raise e)
      \/ (max_retries = 0%nat /\ e = UnboundLocalError /\
          exists steps thought, attempt 1 steps thought (snd res))
  end.

Lemma repair_iterations_outcome :
  forall (n i : nat) (steps : list step) (thought : option string)
         (prev : option (list verr)) (lg : list request),
    attempt (S i) steps thought lg ->
    (S i + n = max_retries)%nat ->
    outcome (loop_from (seq i (S n)) steps thought prev lg).
Proof.
  induction n as [|n IH]; intros i steps thought prev lg Ha Hk;
    cbn [seq repair_iterations];
    destruct (validate_plan steps m run_index raw_df) as [[|e errs]|x] eqn:Hv.
  - right; left. exists (S i), steps, thought. cbn [fst snd ret].
    replace (i + 1)%nat with (S i) by lia. repeat split; auto; lia.
  - replace (i =? max_retries - 1)%nat with true
      by (symmetry; apply Nat.eqb_eq; lia).
    right; right. exists steps, thought, (e :: errs). cbn [fst snd ret].
    replace max_retries with (S i) by lia. repeat split; auto; discriminate.
  - left. exists (S i), steps, thought. cbn [fst snd ret]. repeat split; auto; lia.
  - right; left. exists (S i), steps, thought. cbn [fst snd ret].
    replace (i + 1)%nat with (S i) by lia. repeat split; auto; lia.
  - replace (i =? max_retries - 1)%nat with false
      by (symmetry; apply Nat.eqb_neq; lia).
    unfold bind.
    destruct (refine_concrete_plan steps (e :: errs) m raw_df page_title focused_bid
                                   run_index refine_instruction lg)
      as [[steps' thought' | err] lg'] eqn:Hr.
    + apply (IH (S i) steps' thought' (Some (e :: errs)) lg'); [|lia].
      apply (attempt_next (S i) steps thought lg (e :: errs)); auto;
        [discriminate | lia].
    + left. exists err. cbn [fst snd ret]. split; [reflexivity|].
      right. exists (S i), steps, thought, lg, (e :: errs).
      repeat split; auto; [discriminate | lia].
  - left. exists (S i), steps, thought. cbn [fst snd ret]. repeat split; auto; lia.
Qed.

(** C9. A run comes to its attempts one after the other: the first with
    the plan generated at the start, each next one with the refinement
    of the plan that the validation has just flagged. When the run comes
    to its last attempt (the retry budget is exhausted) without an error
    of the oracle and the validation flags the plan of that attempt, the
    result is made of that plan and of the errors the validation has
    just given on it, at least one, with no attempt count. When the
    validation gives no error at an attempt, the result is the plan of
    that attempt with the number of the attempt and no error list. Every
    run ends in one of these two results, in the error of the oracle
    with no steps (and then a generation did fail), or in an exception:
    one that the validation raised, or, for a budget of zero, the read
    of the error list that no attempt has assigned. *)
Theorem repair_loop_outcomes :
  (forall steps thought lg errs,
      attempt max_retries steps thought lg ->
      validate_plan steps m run_index raw_df = Ok errs ->
      errs <> [] ->
      run = (Ok (exhausted_result steps thought run_index errs), lg))
  /\ (forall k steps thought lg,
         attempt k steps thought lg ->
         (k <= max_retries)%nat ->
         validate_plan steps m run_index raw_df = Ok [] ->
         run = (Ok (accepted_result steps thought run_index k), lg))
  /\ (forall steps thought idx errs k,
         let flagged := exhausted_result steps thought idx errs in
         let accepted := accepted_result steps thought idx k in
         (r_concrete_steps flagged = steps /\
          r_validation_errors flagged = Some errs /\
          r_attempts flagged = None /\ r_error flagged = None)
         /\ (r_concrete_steps accepted = steps /\
             r_attempts accepted = Some k /\
             r_validation_errors accepted = None /\ r_error accepted = None))
  /\ match fst run with
     | Ok r =>
         (exists err, r = error_result err /\ generation_fails err (snd run))
         \/ (exists k steps thought,
                attempt k steps thought (snd run) /\ (k <= max_retries)%nat /\
                validate_plan steps m run_index raw_df = Ok [] /\
                r = accepted_result steps thought run_index k)
         \/ (exists steps thought errs,
                attempt max_retries steps thought (snd run) /\
                validate_plan steps m run_index raw_df = Ok errs /\ errs <> [] /\
                r = exhausted_result steps thought run_index errs)
     | Raise e =>
         (exists k steps thought,
             attempt k steps thought (snd run) /\ (k <= max_retries)%nat /\
             validate_plan steps m run_index raw_df = Raise e)
         \/ (max_retries = 0%nat /\ e = UnboundLocalError /\
             exists steps thought, attempt 1 steps thought (snd run))
     end.
Proof.
  split; [|split; [|split]].
  - intros steps thought lg errs Ha Hv Hne.
    pose proof (attempt_positive _ _ _ _ Ha) as Hpos.
    destruct (attempt_state _ _ _ _ Ha (le_n _)) as [prev ->].
    replace (max_retries - max_retries)%nat with 0%nat by lia.
    cbn [seq repair_iterations]. rewrite Hv.
    destruct errs as [|e errs]; [contradiction|].
    now rewrite Nat.eqb_refl.
  - intros k steps thought lg Ha Hle Hv.
    pose proof (attempt_positive _ _ _ _ Ha) as Hpos.
    destruct (attempt_state _ _ _ _ Ha Hle) as [prev ->].
    cbn [seq repair_iterations]. rewrite Hv.
    replace (k - 1 + 1)%nat with k by lia. reflexivity.
  - intros. repeat split.
  - change (outcome run).
    destruct (generate_concrete_plan m raw_df page_title focused_bid run_index
                                     refine_instruction run_index_log)
      as [[steps thought | err] lg] eqn:Hg.
    + assert (Ha : attempt 1 steps thought lg) by now apply attempt_first.
      rewrite (run_after_generation _ _ _ Hg).
      destruct (Nat.eq_dec max_retries 0) as [Hz | Hnz].
      * assert (Hseq : seq 0 max_retries = []) by (rewrite Hz; reflexivity).
        rewrite Hseq. unfold outcome. cbn [repair_iterations fst snd ret].
        right. repeat split; auto.
        exists steps, thought. exact Ha.
      * replace (seq 0 max_retries) with (seq 0 (S (max_retries - 1)))
          by (f_equal; lia).
        apply (repair_iterations_outcome (max_retries - 1) 0); [exact Ha | lia].
    + assert (Hrun : run = (Ok (error_result err), lg)).
      { revert Hg. unfold run_repair_loop, run_index, run_index_log, bind.
        destruct (refine_bid_index_with_llm m raw_df (build_bid_index m raw_df) log)
          as [idx lg1]. cbn [fst snd]. now intros ->. }
      rewrite Hrun. unfold outcome. cbn [fst snd].
      left. exists err. split; [reflexivity|]. now left.
Qed.

End RepairLoopFacts.

(** An oracle that always proposes the same plan, whose only action has
    an unrecognised type. *)
Definition teleport_plan : list step :=
  [mkStep (Some (PStr "step_1"))
          (Some [[("action_type", PStr "teleport"); ("bid", PStr "a5")]])].

Definition stubborn_connector : ConcretePlanner.Connector :=
  {| ConcretePlanner.fetch_json := fun _ _ => ConcretePlanner.api_error "Traceback";
     ConcretePlanner.fetch_plan :=
       fun _ _ => ConcretePlanner.api_data
                    (ConcretePlanner.plan_object
                       (ConcretePlanner.mkPlanData (Some teleport_plan) (Some "jump")))
                    None;
     ConcretePlanner.renders := fun _ => true;
     ConcretePlanner.format_exc := fun _ => "Traceback" |}.

(** After three flagged attempts the plan comes back with its error; the
    oracle was asked for a plan three times. *)
Lemma repair_loop_outcomes_witness :
  @ConcretePlanner.run_repair_loop
    reference_python reference_pandas stubborn_connector
    empty_manifest [] "Home" "" None 3 []
  = (Ok (ConcretePlanner.exhausted_result
           teleport_plan (Some "jump")
           (@run_index reference_python reference_pandas stubborn_connector
                       empty_manifest [] [])
           [UndefinedAction (PStr "step_1") (PStr "teleport")]),
     [ConcretePlanner.concrete_planner_prompt empty_manifest "Home" "" [] [] None [] None;
      ConcretePlanner.concrete_planner_prompt
        empty_manifest "Home" "" [] [] None
        [UndefinedAction (PStr "step_1") (PStr "teleport")] (Some teleport_plan);
      ConcretePlanner.concrete_planner_prompt
        empty_manifest "Home" "" [] [] None
        [UndefinedAction (PStr "step_1") (PStr "teleport")] (Some teleport_plan)]).
Proof.
  apply (proj1 (@repair_loop_outcomes
                  reference_python reference_pandas stubborn_connector
                  empty_manifest [] "Home" "" None 3 [])).
  - apply (attempt_next
             empty_manifest [] "Home" "" None 3 [] 2 teleport_plan (Some "jump")
             [ConcretePlanner.concrete_planner_prompt
                empty_manifest "Home" "" [] [] None [] None;
              ConcretePlanner.concrete_planner_prompt
                empty_manifest "Home" "" [] [] None
                [UndefinedAction (PStr "step_1") (PStr "teleport")] (Some teleport_plan)]
             [UndefinedAction (PStr "step_1") (PStr "teleport")]);
      [|reflexivity | discriminate | lia | reflexivity].
    apply (attempt_next
             empty_manifest [] "Home" "" None 3 [] 1 teleport_plan (Some "jump")
             [ConcretePlanner.concrete_planner_prompt
                empty_manifest "Home" "" [] [] None [] None]
             [UndefinedAction (PStr "step_1") (PStr "teleport")]);
      [|reflexivity | discriminate | lia | reflexivity].
    apply attempt_first. reflexivity.
  - reflexivity.
  - discriminate.
Defined.

Example budget_exhausted_returns_plan_and_errors :
  fst (@ConcretePlanner.run_repair_loop
         reference_python reference_pandas stubborn_connector
         empty_manifest [] "Home" "" None 3 [])
  = Ok (ConcretePlanner.mkResult
          teleport_plan (Some (Some "jump")) (Some []) None
          (Some [UndefinedAction (PStr "step_1") (PStr "teleport")]) None).
Proof. vm_compute. reflexivity. Qed.

(** An oracle whose plan is empty: accepted at the first attempt. *)
Definition compliant_connector : ConcretePlanner.Connector :=
  {| ConcretePlanner.fetch_json := fun _ _ => ConcretePlanner.api_error "Traceback";
     ConcretePlanner.fetch_plan :=
       fun _ _ => ConcretePlanner.api_data
                    (ConcretePlanner.plan_object
                       (ConcretePlanner.mkPlanData (Some []) None))
                    (Some "nothing to do");
     ConcretePlanner.renders := fun _ => true;
     ConcretePlanner.format_exc := fun _ => "Traceback" |}.

Example accepted_plan_carries_attempts :
  fst (@ConcretePlanner.run_repair_loop
         reference_python reference_pandas compliant_connector
         empty_manifest [] "Home" "" None 3 [])
  = Ok (ConcretePlanner.accepted_result [] (Some "nothing to do") [] 1).
Proof. vm_compute. reflexivity. Qed.

(** With a budget of zero the loop body never runs and the final
    [return] reads a variable that was never assigned. *)
Example zero_budget_raises :
  fst (@ConcretePlanner.run_repair_loop
         reference_python reference_pandas compliant_connector
         empty_manifest [] "Home" "" None 0 [])
  = Raise UnboundLocalError.
Proof. vm_compute. reflexivity. Qed.

(** An oracle that answers with a list, and templates that are missing. *)
Definition list_connector : ConcretePlanner.Connector :=
  {| ConcretePlanner.fetch_json := fun _ _ => ConcretePlanner.api_error "Traceback";
     ConcretePlanner.fetch_plan :=
       fun _ _ => ConcretePlanner.api_data ConcretePlanner.not_an_object None;
     ConcretePlanner.renders := fun _ => true;
     ConcretePlanner.format_exc := fun _ => "AttributeError" |}.

Definition no_template_connector : ConcretePlanner.Connector :=
  {| ConcretePlanner.fetch_json := fun _ _ => ConcretePlanner.api_error "Traceback";
     ConcretePlanner.fetch_plan :=
       fun _ _ => ConcretePlanner.api_data
                    (ConcretePlanner.plan_object
                       (ConcretePlanner.mkPlanData (Some []) None)) None;
     ConcretePlanner.renders := fun _ => false;
     ConcretePlanner.format_exc := fun _ => "TemplateNotFound" |}.

(** An answer that is not an object ends the run after one request, and
    a prompt that cannot be built ends it before any. *)
Example ill_formed_answer_is_an_error :
  @ConcretePlanner.run_repair_loop
    reference_python reference_pandas list_connector empty_manifest [] "Home" "" None 3 []
  = (Ok (ConcretePlanner.error_result "AttributeError"),
     [ConcretePlanner.concrete_planner_prompt empty_manifest "Home" "" [] [] None [] None])
  /\ @ConcretePlanner.run_repair_loop
       reference_python reference_pandas no_template_connector
       empty_manifest [] "Home" "" None 3 []
     = (Ok (ConcretePlanner.error_result "TemplateNotFound"), []).
Proof. split; vm_compute; reflexivity. Qed.

(* ================================================================== *)
(** ** The compiler of action descriptors *)
(* ================================================================== *)

Section CompilerFacts.
Import Autonomus_agent_main.
Context `{PyStr.Python}.

(** C4. For a fill action, when the value payload, after the
    substitution of the placeholder, printed and trimmed, is "true" or
    "false" without regard to case, the command is a click on the target
    identifier; for every other value it is a fill that carries the
    value after substitution, untrimmed. *)
Theorem boolean_fill_compiles_to_click :
  forall (a : action) (last_extracted_value : option string),
    Py.get "action_type" a = PStr "fill" ->
    let bid := Py.get "bid" a in
    let raw_val :=
      bind_value last_extracted_value (Py.get_default "value" (PStr "") a) in
    let val_lower := PyStr.lower (PyStr.strip (Py.str raw_val)) in
    (val_lower = "true" \/ val_lower = "false" ->
     build_action_code a last_extracted_value = "click(bid='" ++ Py.str bid ++ "')")
    /\ (val_lower <> "true" -> val_lower <> "false" ->
        build_action_code a last_extracted_value =
          "fill(bid='" ++ Py.str bid ++ "', value=" ++ Py.repr raw_val ++ ")").
Proof.
  intros a lev Hfill bid raw_val val_lower.
  assert (Hcode :
            build_action_code a lev =
              if PyStr.mem val_lower ["true"; "false"]
              then "click(bid='" ++ Py.str bid ++ "')"
              else "fill(bid='" ++ Py.str bid ++ "', value=" ++ Py.repr raw_val ++ ")").
  { unfold build_action_code. rewrite Hfill. reflexivity. }
  rewrite Hcode. split.
  - intros Hb.
    replace (PyStr.mem val_lower ["true"; "false"]) with true; [reflexivity|].
    symmetry. apply mem_In. simpl. destruct Hb as [-> | ->]; auto.
  - intros Ht Hf.
    replace (PyStr.mem val_lower ["true"; "false"]) with false; [reflexivity|].
    symmetry. destruct (PyStr.mem val_lower ["true"; "false"]) eqn:Hm; [|reflexivity].
    apply mem_In in Hm. simpl in Hm. destruct Hm as [Hm | [Hm | []]]; congruence.
Qed.

End CompilerFacts.

(** Scenario B: a fill whose value is the text "false". *)
Lemma boolean_fill_compiles_to_click_witness :
  Autonomus_agent_main.build_action_code
    [("action_type", PStr "fill"); ("bid", PStr "c3"); ("value", PStr "false")] None
  = "click(bid='c3')".
Proof.
  apply (proj1 (boolean_fill_compiles_to_click
                  [("action_type", PStr "fill"); ("bid", PStr "c3");
                   ("value", PStr "false")] None eq_refl)).
  right; reflexivity.
Defined.

Example fill_keeps_untrimmed_value :
  Autonomus_agent_main.build_action_code
    [("action_type", PStr "fill"); ("bid", PStr "c3"); ("value", PStr "  Hello ")] None
  = "fill(bid='c3', value='  Hello ')".
Proof. reflexivity. Qed.

Example fill_of_extracted_boolean :
  Autonomus_agent_main.build_action_code
    [("action_type", PStr "fill"); ("bid", PStr "c3"); ("value", PStr "extractValue")]
    (Some " TRUE ")
  = "click(bid='c3')".
Proof. reflexivity. Qed.

Example compiled_commands :
  map (fun a => Autonomus_agent_main.build_action_code a None)
      [[("action_type", PStr "click"); ("bid", PStr "42")];
       [("action_type", PStr "scroll"); ("direction", PStr "up")];
       [("action_type", PStr "select_option"); ("bid", PStr "s2");
        ("options", PList [PStr "Hardware"])];
       [("action_type", PStr "extractLLM"); ("instruction", PStr "read the id")]]
  = ["click('42')"; "scroll(0, -500)"; "select_option(bid='s2', options=['Hardware'])"; ""].
Proof. reflexivity. Qed.

(* ================================================================== *)
(** ** The focus before the final click *)
(* ================================================================== *)

Section HoverFacts.
Import Autonomus_agent_main.

Definition is_click (a : action) : bool :=
  Py.eq_str (Py.get "action_type" a) "click".

(** C1, as the code has it. For a plan whose last step ends with the
    action [last_action]: when that action is not a click the plan is
    returned unchanged; when it is a click and the action just before it
    in the same step is a click, on whatever target, the plan is returned
    unchanged; when it is a click and the step has no action before it,
    or one that is not a click, a focus action on the target of the
    click is inserted just before the click. *)
Theorem inject_final_hover_cases :
  forall (front : list step) (last_step : step)
         (before : list action) (last_action : action),
    actions last_step = Some (before ++ [last_action])%list ->
    let concrete_steps := (front ++ [last_step])%list in
    (is_click last_action = false ->
     inject_final_hover concrete_steps = concrete_steps)
    /\ (is_click last_action = true ->
        (exists earlier prev,
            before = (earlier ++ [prev])%list /\ is_click prev = true) ->
        inject_final_hover concrete_steps = concrete_steps)
    /\ (is_click last_action = true ->
        (forall earlier prev,
            before = (earlier ++ [prev])%list -> is_click prev = false) ->
        inject_final_hover concrete_steps =
          (front ++
           [mkStep (step_id last_step)
                   (Some (before ++
                          [safety_hover (Py.get "bid" last_action); last_action]))])%list).
Proof.
  intros front last_step before last_action Hacts concrete_steps.
  assert (Hunfold :
            inject_final_hover concrete_steps =
              if is_click last_action then
                if negb (match rev before with
                         | prev :: _ => is_click prev
                         | [] => false
                         end)
                then (front ++
                      [mkStep (step_id last_step)
                              (Some (before ++
                                     [safety_hover (Py.get "bid" last_action);
                                      last_action]))])%list
                else concrete_steps
              else concrete_steps).
  { unfold inject_final_hover, concrete_steps.
    rewrite rev_unit, Hacts, rev_unit. fold (is_click last_action).
    rewrite !rev_involutive. reflexivity. }
  rewrite Hunfold. repeat split.
  - intros ->. reflexivity.
  - intros -> (earlier & prev & -> & Hprev). rewrite rev_unit, Hprev. reflexivity.
  - intros -> Hnone. destruct (rev before) as [|prev rest] eqn:Hrev; [reflexivity|].
    rewrite (Hnone (rev rest) prev); [reflexivity|].
    rewrite <- (rev_involutive before), Hrev. reflexivity.
Qed.

End HoverFacts.

(** Scenario D: a click on 42 after a fill gets its focus. *)
Definition fill_then_click : list step :=
  [mkStep (Some (PStr "step_1"))
          (Some [[("action_type", PStr "fill"); ("bid", PStr "17"); ("value", PStr "x")];
                 [("action_type", PStr "click"); ("bid", PStr "42")]])].

Lemma inject_final_hover_cases_witness :
  Autonomus_agent_main.inject_final_hover fill_then_click
  = [mkStep (Some (PStr "step_1"))
            (Some [[("action_type", PStr "fill"); ("bid", PStr "17"); ("value", PStr "x")];
                   [("action_type", PStr "focus"); ("bid", PStr "42");
                    ("logic_ref", PStr "Safety Focus-Out before Final Click")];
                   [("action_type", PStr "click"); ("bid", PStr "42")]])].
Proof.
  apply (proj2 (proj2 (inject_final_hover_cases
                         [] (mkStep (Some (PStr "step_1"))
                                    (Some [[("action_type", PStr "fill"); ("bid", PStr "17");
                                            ("value", PStr "x")];
                                           [("action_type", PStr "click"); ("bid", PStr "42")]]))
                         [[("action_type", PStr "fill"); ("bid", PStr "17"); ("value", PStr "x")]]
                         [("action_type", PStr "click"); ("bid", PStr "42")]
                         eq_refl))).
  - reflexivity.
  - intros earlier prev Heq.
    destruct earlier as [|x [|y earlier]]; inversion Heq; subst; reflexivity.
Defined.

Example click_after_click_on_same_target :
  Autonomus_agent_main.inject_final_hover
    [mkStep (Some (PStr "step_1"))
            (Some [[("action_type", PStr "click"); ("bid", PStr "42")];
                   [("action_type", PStr "click"); ("bid", PStr "42")]])]
  = [mkStep (Some (PStr "step_1"))
            (Some [[("action_type", PStr "click"); ("bid", PStr "42")];
                   [("action_type", PStr "click"); ("bid", PStr "42")]])].
Proof. reflexivity. Qed.

(** A final click on 42 that follows a click on another element. *)
Definition click_7_then_click_42 : list step :=
  [mkStep (Some (PStr "step_1"))
          (Some [[("action_type", PStr "click"); ("bid", PStr "7")];
                 [("action_type", PStr "click"); ("bid", PStr "42")]])].

(** The final click is not preceded by a click on its own target, and
    still no focus action is inserted. *)
Lemma click_after_other_click_gets_no_focus :
  Py.get "bid" [("action_type", PStr "click"); ("bid", PStr "7")]
  <> Py.get "bid" [("action_type", PStr "click"); ("bid", PStr "42")]
  /\ Autonomus_agent_main.inject_final_hover click_7_then_click_42
     = click_7_then_click_42
  /\ Autonomus_agent_main.inject_final_hover click_7_then_click_42
     <> [mkStep (Some (PStr "step_1"))
                (Some [[("action_type", PStr "click"); ("bid", PStr "7")];
                       [("action_type", PStr "focus"); ("bid", PStr "42");
                        ("logic_ref", PStr "Safety Focus-Out before Final Click")];
                       [("action_type", PStr "click"); ("bid", PStr "42")]])].
Proof.
  repeat split; try discriminate.
Qed.

Example empty_plan_unchanged :
  Autonomus_agent_main.inject_final_hover [] = [].
Proof. reflexivity. Qed.

(** The click of an earlier step does not count as preceding. *)
Example click_in_previous_step :
  Autonomus_agent_main.inject_final_hover
    [mkStep (Some (PStr "s1")) (Some [[("action_type", PStr "click"); ("bid", PStr "42")]]);
     mkStep (Some (PStr "s2")) (Some [[("action_type", PStr "click"); ("bid", PStr "42")]])]
  = [mkStep (Some (PStr "s1")) (Some [[("action_type", PStr "click"); ("bid", PStr "42")]]);
     mkStep (Some (PStr "s2"))
            (Some [[("action_type", PStr "focus"); ("bid", PStr "42");
                    ("logic_ref", PStr "Safety Focus-Out before Final Click")];
                   [("action_type", PStr "click"); ("bid", PStr "42")]])].
Proof. reflexivity. Qed.

(* ================================================================== *)
(** ** Further facts on the fusion pass *)
(* ================================================================== *)

Section FusionInvariants.
Import ObservationAnalyzer.
Context `{PyStr.Python}.

(** X1. The focused element of the map always has a row in the table,
    whatever its box, its visibility and its tag. *)
Theorem focused_element_has_row :
  forall (umap : unified_map) (focused_bid : string) (data : element),
    In (focused_bid, data) umap ->
    In focused_bid (map BID (analyze umap focused_bid)).
Proof.
  intros umap focused_bid data Hin.
  apply in_map_iff. exists (record_of umap focused_bid focused_bid data).
  split; [apply BID_record_of|].
  apply analyze_loop_complete; [assumption|].
  unfold keeps. rewrite String.eqb_refl. simpl.
  rewrite !andb_false_r. reflexivity.
Qed.

Lemma analyze_loop_BIDs :
  forall umap focused_bid items,
    map BID (analyze_loop umap focused_bid items) =
      map fst (filter (fun kv => keeps focused_bid (fst kv) (snd kv)) items).
Proof.
  induction items as [|[b d] rest IH]; simpl; [reflexivity|].
  destruct (keeps focused_bid b d); simpl; [rewrite BID_record_of|]; now rewrite IH.
Qed.

Lemma NoDup_map_fst_filter :
  forall (A B : Type) (f : A * B -> bool) (l : list (A * B)),
    NoDup (map fst l) -> NoDup (map fst (filter f l)).
Proof.
  induction l as [|x l IH]; simpl; intros Hnd; [constructor|].
  inversion Hnd as [|? ? Hnotin Hnd']; subst.
  destruct (f x); simpl; [|now apply IH].
  constructor; [|now apply IH].
  intros Hin. apply Hnotin. apply in_map_iff in Hin.
  destruct Hin as (y & Hy & Hin). apply filter_In in Hin.
  apply in_map_iff. exists y. tauto.
Qed.

(** X2. The identifiers of the rows are pairwise distinct and are
    identifiers of the map: one fusion pass gives at most one row per
    element. *)
Theorem table_identifiers_unique :
  forall (umap : unified_map) (focused_bid : string),
    NoDup (map fst umap) ->
    NoDup (map BID (analyze umap focused_bid)) /\
    forall bid, In bid (map BID (analyze umap focused_bid)) -> In bid (map fst umap).
Proof.
  intros umap focused_bid Hnd. unfold analyze. rewrite analyze_loop_BIDs. split.
  - now apply NoDup_map_fst_filter.
  - intros bid Hin. apply in_map_iff in Hin. destruct Hin as (kv & <- & Hin).
    apply filter_In in Hin. apply in_map. tauto.
Qed.

(** X3. What every row of the table guarantees to its readers: the row
    is the focused one (column Focused is YES), or it has a box at least
    one unit wide and high and, when its visibility is zero, an
    interactive tag or the clickable flag (column JS is YES). *)
Theorem table_row_guarantees :
  forall (umap : unified_map) (focused_bid : string) (r : row),
    In r (analyze umap focused_bid) ->
    Focused r = "YES" \/
    ((exists x y w h, BBox r = Some (x, y, w, h) /\ (1 <= w)%Q /\ (1 <= h)%Q) /\
     (Qeq_bool (Vis r) 0 = true ->
      PyStr.mem (Tag r) ["INPUT"; "SELECT"; "TEXTAREA"; "BUTTON"; "A"] = true
      \/ JS r = "YES")).
Proof.
  intros umap focused_bid r Hin.
  apply analyze_loop_inv in Hin. destruct Hin as (bid & data & _ & Hk & ->).
  unfold record_of. destruct (get_spatial_labels umap bid data) as [l a]. simpl.
  unfold keeps in Hk.
  destruct (String.eqb bid focused_bid); [now left | right].
  rewrite !andb_true_r in Hk.
  destruct (has_physical_size data) eqn:Hsize; simpl in Hk; [|discriminate].
  split.
  - unfold has_physical_size in Hsize.
    destruct (e_BBox data) as [[[[x y] w] h]|]; [|discriminate].
    apply andb_true_iff in Hsize. destruct Hsize as [Hw Hh].
    exists x, y, w, h. repeat split; now apply Qle_bool_iff.
  - intros Hvis. rewrite Hvis in Hk. simpl in Hk.
    destruct (is_interactive data) eqn:Hi; [|discriminate].
    unfold is_interactive in Hi. apply orb_true_iff in Hi.
    destruct Hi as [Hi | Hi]; [left; exact Hi | right; now rewrite Hi].
Qed.

Lemma spatial_step_labels :
  forall (P : string -> Prop) bid t acc other,
    (fst acc = "" \/ P (fst acc)) -> (snd acc = "" \/ P (snd acc)) ->
    (fst other <> bid -> e_BBox (snd other) <> None ->
     e_InnerT (snd other) <> "" ->
     (PyStr.len (e_InnerT (snd other)) <= 40)%nat ->
     P (e_InnerT (snd other))) ->
    (fst (spatial_step bid t acc other) = "" \/ P (fst (spatial_step bid t acc other)))
    /\ (snd (spatial_step bid t acc other) = ""
        \/ P (snd (spatial_step bid t acc other))).
Proof.
  intros P bid [[[tx ty] tw] th] [l a] [s_bid s_data] Hl Ha HP. simpl in *.
  destruct (e_BBox s_data) as [[[[sx sy] sw] sh]|] eqn:Hb; [|now split].
  destruct (String.eqb_spec s_bid bid) as [|Hne]; [now split|].
  destruct (String.eqb_spec (e_InnerT s_data) "") as [|Htxt]; [now split|].
  simpl. destruct (40 <? PyStr.len (e_InnerT s_data))%nat eqn:Hlen; [now split|].
  apply Nat.ltb_ge in Hlen.
  assert (HPt : P (e_InnerT s_data)) by (apply HP; auto; discriminate).
  simpl. split.
  - destruct (_ && _ && _); [now right | exact Hl].
  - destruct (_ && _ && _); [now right | exact Ha].
Qed.

Lemma spatial_fold_labels :
  forall (P : string -> Prop) bid t (items : unified_map) acc,
    (fst acc = "" \/ P (fst acc)) -> (snd acc = "" \/ P (snd acc)) ->
    (forall other, In other items ->
       fst other <> bid -> e_BBox (snd other) <> None ->
       e_InnerT (snd other) <> "" ->
       (PyStr.len (e_InnerT (snd other)) <= 40)%nat ->
       P (e_InnerT (snd other))) ->
    let res := fold_left (spatial_step bid t) items acc in
    (fst res = "" \/ P (fst res)) /\ (snd res = "" \/ P (snd res)).
Proof.
  induction items as [|other items IH]; intros acc Hl Ha HP; simpl; [now split|].
  destruct (spatial_step_labels P bid t acc other Hl Ha) as [Hl' Ha'].
  { apply HP. now left. }
  apply IH; auto. intros o Ho. apply HP. now right.
Qed.

(** X4. The two spatial labels of an element are empty or are the inner
    text, of at most 40 characters, of another element of the map that
    has a box; an element without a box, or whose box is all zeros, gets
    two empty labels. *)
Theorem spatial_labels_come_from_neighbours :
  forall (umap : unified_map) (bid : string) (data : element),
    let labelled (txt : string) :=
      txt = "" \/
      exists s_bid s_data,
        In (s_bid, s_data) umap /\ s_bid <> bid /\ e_BBox s_data <> None /\
        txt = e_InnerT s_data /\ (PyStr.len txt <= 40)%nat in
    labelled (fst (get_spatial_labels umap bid data))
    /\ labelled (snd (get_spatial_labels umap bid data))
    /\ ((e_BBox data = None \/ e_BBox data = Some (0, 0, 0, 0)%Q) ->
        get_spatial_labels umap bid data = ("", "")).
Proof.
  intros umap bid data labelled.
  assert (Hfold : forall t,
            let res := fold_left (spatial_step bid t) umap ("", "") in
            labelled (fst res) /\ labelled (snd res)).
  { intros t.
    apply (spatial_fold_labels
             (fun txt => exists s_bid s_data,
                  In (s_bid, s_data) umap /\ s_bid <> bid /\ e_BBox s_data <> None /\
                  txt = e_InnerT s_data /\ (PyStr.len txt <= 40)%nat));
      [now left | now left |].
    intros [s_bid s_data] Hin Hne Hb Htxt Hlen. exists s_bid, s_data. auto. }
  unfold get_spatial_labels. repeat split.
  - destruct (e_BBox data) as [t|]; [|now left].
    destruct (negb (any_coord t)); [now left | apply Hfold].
  - destruct (e_BBox data) as [t|]; [|now left].
    destruct (negb (any_coord t)); [now left | apply Hfold].
  - intros [-> | ->]; reflexivity.
Qed.

End FusionInvariants.

Lemma focused_element_has_row_witness :
  In "b2" (map BID (ObservationAnalyzer.analyze
                      [("a1", unverifiable_span); ("b2", focused_input)] "b2")).
Proof.
  apply (focused_element_has_row
           [("a1", unverifiable_span); ("b2", focused_input)] "b2" focused_input).
  right; left; reflexivity.
Defined.

Lemma table_identifiers_unique_witness :
  NoDup (map BID scenario_table) /\
  forall bid, In bid (map BID scenario_table) ->
              In bid (map fst [("l1", scenario_label); ("s2", scenario_select)]).
Proof.
  apply (table_identifiers_unique [("l1", scenario_label); ("s2", scenario_select)] "").
  repeat constructor; simpl; intuition discriminate.
Defined.

Lemma table_row_guarantees_witness :
  Focused scenario_select_row = "YES" \/
  ((exists x y w h,
       BBox scenario_select_row = Some (x, y, w, h) /\ (1 <= w)%Q /\ (1 <= h)%Q) /\
   (Qeq_bool (Vis scenario_select_row) 0 = true ->
    PyStr.mem (Tag scenario_select_row) ["INPUT"; "SELECT"; "TEXTAREA"; "BUTTON"; "A"] = true
    \/ JS scenario_select_row = "YES")).
Proof.
  apply (table_row_guarantees [("l1", scenario_label); ("s2", scenario_select)] "").
  right; left; reflexivity.
Defined.

(* ================================================================== *)
(** ** The density policies *)
(* ================================================================== *)

Section FilterFacts.
Import ObservationFilter.
Context `{PyStr.Python}.



Lemma filter_idempotent :
  forall (A : Type) (f : A -> bool) (l : list A), filter f (filter f l) = filter f l.
Proof.
  induction l as [|x l IH]; simpl; [reflexivity|].
  destruct (f x) eqn:Hf; simpl; [rewrite Hf; now rewrite IH | exact IH].
Qed.

(** X6. Under every policy the critical rows (focused, with a current
    value, marked for investigation or exposing a popup) are all kept,
    and filtering a filtered table again changes nothing. *)
Theorem filter_keeps_critical_rows :
  forall (df : table) (m : mode),
    (forall r, In r df -> critical r = true -> In r (apply df m))
    /\ apply (apply df m) m = apply df m.
Proof.
  intros df m. split.
  - intros r Hin Hc. destruct m; simpl; try assumption;
      apply filter_In; (split; [assumption | now rewrite Hc]).
  - destruct m; simpl; try reflexivity; apply filter_idempotent.
Qed.

End FilterFacts.

(* ================================================================== *)
(** ** Further facts on the field index *)
(* ================================================================== *)

Section IndexInvariants.
Import ConcretePlanner.
Context `{PyStr.Python} `{Pandas}.

(** An entry that names no element, or names the identifier of a row. *)
Definition entry_from_table (raw_df : table) (v : pyval) : Prop :=
  v = NOT_FOUND \/
  exists r d, In r raw_df /\ v = PDict d /\ Py.get "bid" d = PStr (BID r).

Definition entries_from_table (raw_df : table) (index_map : pydict) : Prop :=
  forall k v, Py.lookup k index_map = Some v -> entry_from_table raw_df v.

Lemma entries_from_table_set :
  forall raw_df index_map k v,
    entries_from_table raw_df index_map -> entry_from_table raw_df v ->
    entries_from_table raw_df (Py.set k v index_map).
Proof.
  intros raw_df idx k v Hidx Hv k' v' Hl.
  destruct (string_dec k k') as [<- | Hne].
  - rewrite lookup_set_same in Hl. inversion Hl; subst. exact Hv.
  - rewrite lookup_set_other in Hl by assumption. eapply Hidx; eauto.
Qed.

Lemma sort_values_head_filter :
  forall (f : row -> Z) (g : row -> bool) (raw_df : table) best rest,
    sort_values_desc f (filter g raw_df) = best :: rest ->
    In best raw_df /\ g best = true /\
    forall r, In r raw_df -> g r = true -> f r <= f best.
Proof.
  intros f g raw_df best rest Hs. apply sort_values_head in Hs.
  destruct Hs as [Hin Hmax]. apply filter_In in Hin. destruct Hin as [Hin Hg].
  repeat split; auto. intros r Hr Hgr. apply Hmax. apply filter_In. auto.
Qed.

Lemma index_field_from_table :
  forall raw_df field_key, entry_from_table raw_df (index_field raw_df field_key).
Proof.
  intros raw_df k. unfold index_field.
  destruct (sort_values_desc _ _) as [|best rest] eqn:Hs; [now left|].
  apply sort_values_head_filter in Hs. destruct Hs as (Hin & _ & _).
  destruct (50 <=? _); [|now left].
  right. exists best. eexists. split; [exact Hin|]. split; reflexivity.
Qed.

Lemma index_fields_from_table :
  forall raw_df ks init,
    entries_from_table raw_df init ->
    entries_from_table raw_df
      (fold_left (fun index_map field_key =>
                    Py.set field_key (index_field raw_df field_key) index_map)
                 ks init).
Proof.
  induction ks as [|k ks IH]; intros init Hinit; [exact Hinit|].
  cbn [fold_left]. apply IH. apply entries_from_table_set; [assumption|].
  apply index_field_from_table.
Qed.

(** X7. The index never invents an identifier: every entry of
    [build_bid_index] is the sentinel or a binding whose bid is the
    identifier of a row of the table. *)
Theorem index_bindings_point_into_table :
  forall (m : manifest) (raw_df : table) (k : string) (v : pyval),
    Py.lookup k (build_bid_index m raw_df) = Some v ->
    v = NOT_FOUND \/
    exists r d, In r raw_df /\ v = PDict d /\ Py.get "bid" d = PStr (BID r).
Proof.
  intros m raw_df.
  change (entries_from_table raw_df (build_bid_index m raw_df)).
  unfold build_bid_index.
  assert (H1 : entries_from_table raw_df (index_fields (FIELDS m) raw_df)).
  { apply index_fields_from_table. intros k v Hl. discriminate. }
  assert (H2 : entries_from_table raw_df
                 (add_primary_search (normalized_intent m) raw_df
                                     (index_fields (FIELDS m) raw_df))).
  { unfold add_primary_search. destruct (PyStr.mem _ _); [|exact H1].
    destruct (sort_values_desc _ _) as [|best rest] eqn:Hs; [exact H1|].
    apply sort_values_head_filter in Hs. destruct Hs as (Hin & _ & _).
    apply entries_from_table_set; [exact H1|].
    right. exists best. eexists. split; [exact Hin|]. split; reflexivity. }
  unfold add_submit_button. destruct (existsb _ _); [|exact H2].
  destruct (sort_values_desc _ _) as [|best rest] eqn:Hs; [exact H2|].
  apply sort_values_head_filter in Hs. destruct Hs as (Hin & _ & _).
  destruct (0 <? _); [|exact H2].
  apply entries_from_table_set; [exact H2|].
  right. exists best. eexists. split; [exact Hin|]. split; reflexivity.
Qed.

Lemma score_row_interactive :
  forall norm_key r, interactive_row r = true -> 130 <= score_row norm_key r.
Proof.
  intros norm_key r Hi. rewrite score_row_sum, Hi.
  destruct (passive_row r), (Qltb 0 (Vis r)),
    (String.eqb norm_key (PyStr.lower (Label_L r))); lia.
Qed.

Lemma score_row_hidden_plain :
  forall norm_key r,
    interactive_row r = false -> Qltb 0 (Vis r) = false -> score_row norm_key r <= 20.
Proof.
  intros norm_key r Hi Hv. rewrite score_row_sum, Hi, Hv.
  destruct (passive_row r), (String.eqb norm_key (PyStr.lower (Label_L r))); lia.
Qed.

(** X8. A field with an interactive candidate is always resolved, and to
    an interactive row, be it visible or hidden; a field whose candidates
    are all hidden and not interactive is never resolved. *)
Theorem interactive_candidate_resolves_field :
  forall (raw_df : table) (field_key : string),
    let candidates := filter (field_mask (norm_key_of field_key)) raw_df in
    ((exists r, In r candidates /\ interactive_row r = true) ->
     exists best,
       In best candidates /\ interactive_row best = true /\
       index_field raw_df field_key = binding_of best)
    /\ ((forall r, In r candidates ->
                   interactive_row r = false /\ Qltb 0 (Vis r) = false) ->
        index_field raw_df field_key = NOT_FOUND).
Proof.
  intros raw_df field_key candidates. split.
  - intros (r & Hin & Hi).
    pose proof (score_row_interactive (norm_key_of field_key) r Hi) as Hr.
    destruct (index_field_cases raw_df field_key)
      as [(best & Hb & Hmax & _ & Heq) | (Hlow & _)].
    + exists best. repeat split; auto.
      destruct (interactive_row best) eqn:Hbi; [reflexivity|].
      pose proof (score_row_not_interactive (norm_key_of field_key) best Hbi).
      specialize (Hmax r Hin). lia.
    + specialize (Hlow r Hin). lia.
  - intros Hall.
    destruct (index_field_cases raw_df field_key)
      as [(best & Hb & _ & Hge & _) | (_ & Heq)]; [|exact Heq].
    destruct (Hall best Hb) as [Hi Hv].
    pose proof (score_row_hidden_plain (norm_key_of field_key) best Hi Hv). lia.
Qed.

Lemma fold_set_fresh :
  forall (g : string -> pyval) (ks : list string) (init : pydict),
    NoDup ks -> (forall k, In k ks -> ~ In k (Py.keys init)) ->
    fold_left (fun index_map k => Py.set k (g k) index_map) ks init
    = (init ++ map (fun k => (k, g k)) ks)%list.
Proof.
  induction ks as [|k ks IH]; intros init Hnd Hfresh; simpl.
  - now rewrite app_nil_r.
  - inversion Hnd as [|? ? Hnotin Hnd']; subst.
    assert (Hset : Py.set k (g k) init = (init ++ [(k, g k)])%list).
    { assert (Hk : ~ In k (Py.keys init)) by (apply Hfresh; now left).
      clear -Hk. induction init as [|[k0 v0] init IHi]; simpl; [reflexivity|].
      destruct (String.eqb_spec k0 k) as [-> | Hne].
      - exfalso. apply Hk. now left.
      - f_equal. apply IHi. intros Hin. apply Hk. now right. }
    rewrite Hset, IH; auto.
    + now rewrite <- app_assoc.
    + intros k' Hin' Hin''. unfold Py.keys in Hin''. rewrite map_app in Hin''.
      apply in_app_or in Hin''. destruct Hin'' as [Hin'' | [<- | []]].
      * apply (Hfresh k'); [now right | exact Hin''].
      * contradiction.
Qed.

(** X9. When the index holds a submission control that is not a
    specified field, it is the binding of a row of the table that is
    visible, has the tag BUTTON or A, has a positive priority score, the
    highest among the candidate buttons, and the normalised intent holds
    one of CREATE, UPDATE, ORDER, ADMIN, INSERT. *)
Theorem submit_button_is_a_visible_button :
  forall (m : manifest) (raw_df : table) (v : pyval),
    ~ In "SUBMIT_BUTTON" (Py.keys (FIELDS m)) ->
    Py.lookup "SUBMIT_BUTTON" (build_bid_index m raw_df) = Some v ->
    existsb (fun x => PyStr.contains x (normalized_intent m))
            ["CREATE"; "UPDATE"; "ORDER"; "ADMIN"; "INSERT"] = true
    /\ exists best,
         In best raw_df /\
         Py.get "bid" (match v with PDict d => d | _ => [] end) = PStr (BID best) /\
         PyStr.mem (Tag best) ["BUTTON"; "A"] = true /\
         Qltb 0 (Vis best) = true /\
         0 < score_button_priority best /\
         (forall r, In r raw_df ->
                    (str_contains exec_keywords (InnerT r)
                     || str_contains exec_keywords (Label_A r))
                    && Qltb 0 (Vis r) && PyStr.mem (Tag r) ["BUTTON"; "A"] = true ->
                    score_button_priority r <= score_button_priority best).
Proof.
  intros m raw_df v Hnf Hl. unfold build_bid_index in Hl.
  assert (Hbefore :
            Py.lookup "SUBMIT_BUTTON"
              (add_primary_search (normalized_intent m) raw_df
                                  (index_fields (FIELDS m) raw_df)) = None).
  { unfold add_primary_search.
    assert (Hf : Py.lookup "SUBMIT_BUTTON" (index_fields (FIELDS m) raw_df) = None).
    { unfold index_fields. rewrite index_fields_loop_lookup.
      destruct (in_dec string_dec _ _); [contradiction | reflexivity]. }
    destruct (PyStr.mem _ _); [|exact Hf].
    destruct (sort_values_desc _ _); [exact Hf|].
    rewrite lookup_set_other by discriminate. exact Hf. }
  unfold add_submit_button in Hl.
  destruct (existsb _ _); [|congruence]. split; [reflexivity|].
  destruct (sort_values_desc _ _) as [|best rest] eqn:Hs; [congruence|].
  apply sort_values_head_filter in Hs. destruct Hs as (Hin & Hg & Hmax).
  destruct (0 <? score_button_priority best) eqn:Hpos; [|congruence].
  rewrite lookup_set_same in Hl. inversion Hl; subst v.
  apply andb_true_iff in Hg. destruct Hg as [Hg Htag].
  apply andb_true_iff in Hg. destruct Hg as [_ Hvis].
  exists best. repeat split; auto. now apply Z.ltb_lt.
Qed.

(** X10. A button whose text holds one of the reference words (view,
    show, detail, list, ...) has a positive priority score only when it
    stands in the zone of the confirming buttons, above 150 and right of
    800. *)
Theorem reference_button_needs_action_zone :
  forall (r : row),
    existsb (fun word => PyStr.contains (PyStr.lower word) (PyStr.lower (InnerT r)))
            (PyStr.split_on "|" info_keywords) = true ->
    0 < score_button_priority r ->
    let '(x, y, w, h) := get_bbox_coords (BBox r) in
    Qltb y 150 = true /\ Qltb 800 x = true.
Proof.
  intros r Href Hpos. unfold score_button_priority in Hpos.
  destruct (get_bbox_coords (BBox r)) as [[[x y] w] h].
  rewrite Href in Hpos.
  destruct (Qltb y 150 && Qltb 800 x) eqn:Hzone.
  - now apply andb_true_iff in Hzone.
  - exfalso.
    destruct (existsb (fun c => PyStr.contains c (PyStr.lower (Class r))) _),
      (existsb (fun word => String.eqb (PyStr.lower word)
                                       (PyStr.strip (PyStr.lower (InnerT r)))) _);
      lia.
Qed.

End IndexInvariants.

(** A visible Save button and a field, for the examples of the index. *)
Definition save_button_row : row := plain_row "b9" "button" "BUTTON" "Save" "".

Definition create_manifest : manifest :=
  mkManifest PNone (Some (PStr "create")) [("Category", PStr "Hardware")].

Lemma index_bindings_point_into_table_witness :
  PDict [("bid", PStr "s2"); ("role", PStr "combobox");
         ("label", PStr "Category"); ("is_visible", PBool true)]
  = ConcretePlanner.NOT_FOUND \/
  exists r d,
    In r scenario_table /\
    PDict [("bid", PStr "s2"); ("role", PStr "combobox");
           ("label", PStr "Category"); ("is_visible", PBool true)] = PDict d /\
    Py.get "bid" d = PStr (BID r).
Proof.
  apply (@index_bindings_point_into_table
           reference_python reference_pandas create_manifest scenario_table "Category").
  vm_compute. reflexivity.
Defined.

Lemma submit_button_is_a_visible_button_witness :
  existsb (fun x => PyStr.contains x (ConcretePlanner.normalized_intent create_manifest))
          ["CREATE"; "UPDATE"; "ORDER"; "ADMIN"; "INSERT"] = true
  /\ exists best,
       In best [save_button_row] /\
       Py.get "bid" [("bid", PStr "b9"); ("role", PStr "button"); ("label", PStr "Save");
                     ("is_visible", PBool true);
                     ("usage_hint", PStr "Finalize your action by clicking this button.")]
       = PStr (BID best) /\
       PyStr.mem (Tag best) ["BUTTON"; "A"] = true /\
       Qltb 0 (Vis best) = true /\
       0 < ConcretePlanner.score_button_priority best /\
       (forall r, In r [save_button_row] ->
                  (@str_contains reference_pandas ConcretePlanner.exec_keywords (InnerT r)
                   || @str_contains reference_pandas ConcretePlanner.exec_keywords
                                    (Label_A r))
                  && Qltb 0 (Vis r) && PyStr.mem (Tag r) ["BUTTON"; "A"] = true ->
                  ConcretePlanner.score_button_priority r
                  <= ConcretePlanner.score_button_priority best).
Proof.
  assert (Hfield : ~ In "SUBMIT_BUTTON" (Py.keys (FIELDS create_manifest)))
    by (simpl; intuition discriminate).
  assert (Hentry :
            Py.lookup "SUBMIT_BUTTON"
                      (@ConcretePlanner.build_bid_index
                         reference_python reference_pandas create_manifest
                         [save_button_row])
            = Some (PDict [("bid", PStr "b9"); ("role", PStr "button");
                           ("label", PStr "Save"); ("is_visible", PBool true);
                           ("usage_hint",
                            PStr "Finalize your action by clicking this button.")]))
    by (vm_compute; reflexivity).
  exact (@submit_button_is_a_visible_button
           reference_python reference_pandas create_manifest [save_button_row] _
           Hfield Hentry).
Defined.

(** A "View details" link styled as a primary button, in the top right
    corner. *)
Definition view_details_row : row :=
  mkRow "v4" "link" "A" "" "" "" "" "View details" "" "no" "Active" "no" "YES" "None"
        1%Q (Some (900%Q, 50%Q, 80%Q, 30%Q)) "btn btn-primary".

Lemma reference_button_needs_action_zone_witness :
  Qltb 50 150 = true /\ Qltb 800 900 = true.
Proof.
  apply (reference_button_needs_action_zone view_details_row); reflexivity.
Defined.

(* ================================================================== *)
(** ** Further facts on plan validation *)
(* ================================================================== *)

Section ValidationInvariants.
Import ConcretePlanner.
Context `{PyStr.Python}.

(** X11. A field whose index entry is absent or is ["NOT_FOUND"] is
    tolerated: it never counts as completed and it is never among the
    fields reported as missing. *)
Theorem unresolved_field_is_tolerated :
  forall (m : manifest) (bid_index : pydict) (raw_df : table)
         (planned : list pyval) (f : string),
    Py.lookup f bid_index = None \/ Py.lookup f bid_index = Some (PStr "NOT_FOUND") ->
    ~ In f (completed_logic_refs (FIELDS m) bid_index raw_df)
    /\ ~ In f (truly_missing_of
                 bid_index
                 (missing_fields (FIELDS m)
                                 (completed_logic_refs (FIELDS m) bid_index raw_df)
                                 planned)).
Proof.
  intros m idx df planned f Hl. split.
  - intros Hin. apply completed_logic_refs_In in Hin.
    destruct Hin as (t & _ & Hc). unfold field_completed, Py.get in Hc.
    destruct Hl as [-> | ->] in Hc; discriminate.
  - intros Hin. unfold truly_missing_of in Hin. apply filter_In in Hin.
    destruct Hin as [_ Hr]. unfold resolved_entry, Py.get in Hr.
    destruct Hl as [-> | ->] in Hr; discriminate.
Qed.

Lemma field_completed_of_member :
  forall fields_spec bid_index raw_df f t,
    NoDup (Py.keys fields_spec) -> In (f, t) fields_spec ->
    (In f (completed_logic_refs fields_spec bid_index raw_df) <->
     field_completed bid_index raw_df f t = true).
Proof.
  intros fields idx df f t Hnd Hin. rewrite completed_logic_refs_In. split.
  - intros (t' & Hin' & Hc).
    assert (t' = t) by (eapply unique_target; eauto). now subst.
  - intros Hc. now exists t.
Qed.

(** X12. For a specified field whose target reads true or false (in any
    case, trimmed) and whose index entry is bound to a row, the field is
    completed exactly when the checked-state heuristic on the row agrees
    with the target: checked for true, unchecked for false. *)
Theorem boolean_target_satisfied_iff :
  forall (fields_spec bid_index : pydict) (raw_df : table)
         (field_label : string) (target_val : pyval)
         (field_info : pydict) (cand : row),
    NoDup (Py.keys fields_spec) ->
    In (field_label, target_val) fields_spec ->
    In (PyStr.lower (PyStr.strip (Py.str target_val))) ["true"; "false"] ->
    Py.get field_label bid_index = PDict field_info ->
    field_info <> [] ->
    row_of_bid raw_df (Py.str (Py.get "bid" field_info)) = Some cand ->
    (In field_label (completed_logic_refs fields_spec bid_index raw_df) <->
     current_checked cand
     = String.eqb (PyStr.lower (PyStr.strip (Py.str target_val))) "true").
Proof.
  intros fields idx df f t info cand Hnd Hin Hbool Hinfo Hne Hrow.
  rewrite (field_completed_of_member _ _ _ _ _ Hnd Hin).
  unfold field_completed. rewrite Hinfo.
  destruct info as [|kv info]; [contradiction|]. cbn [Py.truthy negb]. rewrite Hrow.
  assert (Hnonempty : String.eqb (PyStr.strip (Py.str t)) "" = false).
  { destruct (String.eqb_spec (PyStr.strip (Py.str t)) "") as [E|]; [|reflexivity].
    rewrite E, (PyStr.lower_ascii "") in Hbool by reflexivity.
    simpl in Hbool. intuition discriminate. }
  rewrite Hnonempty. apply mem_In in Hbool. rewrite Hbool.
  destruct (current_checked cand), (String.eqb _ "true"); simpl;
    split; intros; congruence.
Qed.

(** X13. For a specified field whose trimmed target is neither empty nor
    a boolean word and whose index entry is bound to a row, the field is
    completed exactly when the target equals the trimmed current value
    or the trimmed inner text of the row, letter for letter. *)
Theorem text_target_satisfied_iff :
  forall (fields_spec bid_index : pydict) (raw_df : table)
         (field_label : string) (target_val : pyval)
         (field_info : pydict) (cand : row),
    NoDup (Py.keys fields_spec) ->
    In (field_label, target_val) fields_spec ->
    PyStr.strip (Py.str target_val) <> "" ->
    ~ In (PyStr.lower (PyStr.strip (Py.str target_val))) ["true"; "false"] ->
    Py.get field_label bid_index = PDict field_info ->
    field_info <> [] ->
    row_of_bid raw_df (Py.str (Py.get "bid" field_info)) = Some cand ->
    (In field_label (completed_logic_refs fields_spec bid_index raw_df) <->
     PyStr.strip (Py.str target_val) = PyStr.strip (Value cand) \/
     PyStr.strip (Py.str target_val) = PyStr.strip (InnerT cand)).
Proof.
  intros fields idx df f t info cand Hnd Hin Hne Hnb Hinfo Hinfo' Hrow.
  rewrite (field_completed_of_member _ _ _ _ _ Hnd Hin).
  unfold field_completed. rewrite Hinfo.
  destruct info as [|kv info]; [contradiction|]. cbn [Py.truthy negb]. rewrite Hrow.
  destruct (String.eqb_spec (PyStr.strip (Py.str t)) "") as [|_]; [contradiction|].
  destruct (PyStr.mem _ ["true"; "false"]) eqn:Hm;
    [apply mem_In in Hm; contradiction|].
  rewrite orb_true_iff, !String.eqb_eq. reflexivity.
Qed.

Lemma check_actions_member :
  forall fields_spec bid_index raw_df completed sid l errs a,
    check_actions fields_spec bid_index raw_df completed sid l = Ok errs ->
    In a l ->
    exists e, check_action fields_spec bid_index raw_df completed sid a = Ok e /\
              incl e errs.
Proof.
  induction l as [|a0 l IH]; simpl; intros errs a Hc Hin; [contradiction|].
  destruct (check_action _ _ _ _ _ a0) as [e1|] eqn:H1; simpl in Hc; [|discriminate].
  destruct (check_actions _ _ _ _ _ l) as [e2|] eqn:H2; simpl in Hc; [|discriminate].
  inversion Hc; subst. destruct Hin as [<- | Hin].
  - exists e1. split; [assumption | apply incl_appl, incl_refl].
  - destruct (IH e2 a eq_refl Hin) as (e & He & Hincl).
    exists e. split; [assumption | now apply incl_appr].
Qed.

Lemma check_steps_member :
  forall fields_spec bid_index raw_df completed l errs a,
    check_steps fields_spec bid_index raw_df completed l = Ok errs ->
    In a (all_actions l) ->
    exists sid e, check_action fields_spec bid_index raw_df completed sid a = Ok e /\
                  incl e errs.
Proof.
  induction l as [|s l IH]; simpl; intros errs a Hc Hin; [contradiction|].
  destruct (check_step _ _ _ _ s) as [e1|] eqn:H1; simpl in Hc; [|discriminate].
  destruct (check_steps _ _ _ _ l) as [e2|] eqn:H2; simpl in Hc; [|discriminate].
  inversion Hc; subst. apply in_app_or in Hin. destruct Hin as [Hin | Hin].
  - unfold check_step in H1.
    destruct (check_actions_member _ _ _ _ _ _ _ _ H1 Hin) as (e & He & Hincl).
    eexists. exists e. split; [exact He | now apply incl_appl].
  - destruct (IH e2 a eq_refl Hin) as (sid & e & He & Hincl).
    exists sid, e. split; [assumption | now apply incl_appr].
Qed.

(** X14. A plan that the validation accepts (no error) is well formed:
    every action has a recognised type, every extractLLM action has a
    non-empty instruction, every scroll action has a dx, a dy or a
    direction, and either no resolved field is missing or the plan holds
    a send_msg_to_user or extractLLM action. *)
Theorem accepted_plan_is_well_formed :
  forall (concrete_steps : list step) (m : manifest) (bid_index : pydict)
         (raw_df : table),
    validate_plan concrete_steps m bid_index raw_df = Ok [] ->
    (forall a, In a (all_actions concrete_steps) ->
               let a_type := Py.get "action_type" a in
               Py.in_strs a_type VALID_ACTIONS = true
               /\ (Py.eq_str a_type "extractLLM" = true ->
                   Py.truthy (Py.get "instruction" a) = true)
               /\ (Py.eq_str a_type "scroll" = true ->
                   Py.has_key "dx" a || Py.has_key "dy" a
                   || Py.has_key "direction" a = true))
    /\ (forall planned,
           planned_logic_refs concrete_steps = Ok planned ->
           truly_missing_of
             bid_index
             (missing_fields (FIELDS m)
                             (completed_logic_refs (FIELDS m) bid_index raw_df)
                             planned) = []
           \/ reports_or_extracts concrete_steps = true).
Proof.
  intros steps m idx df Hv. unfold validate_plan in Hv.
  destruct (planned_logic_refs steps) as [planned|] eqn:Hp; simpl in Hv; [|discriminate].
  destruct (check_steps _ _ _ _ steps) as [errs|] eqn:Hc; simpl in Hv; [|discriminate].
  inversion Hv as [Happ]. apply app_eq_nil in Happ. destruct Happ as [Hrep Herrs].
  subst errs. split.
  - intros a Hin a_type.
    destruct (check_steps_member _ _ _ _ _ _ _ Hc Hin) as (sid & e & He & Hincl).
    assert (e = []) by (destruct e as [|x e]; [reflexivity | destruct (Hincl x); now left]).
    subst e. unfold check_action in He. fold a_type in He.
    destruct (negb (Py.hashable a_type)); [discriminate|].
    destruct (Py.in_strs a_type VALID_ACTIONS); simpl in He; [|discriminate].
    split; [reflexivity|].
    destruct (Py.eq_str a_type "extractLLM") eqn:Hex.
    + split; [|intros Hs; destruct a_type; try discriminate;
                simpl in Hex, Hs; apply String.eqb_eq in Hex, Hs; congruence].
      intros _. destruct (Py.truthy (Py.get "instruction" a)); [reflexivity | discriminate].
    + split; [discriminate|]. intros Hs.
      destruct (Py.eq_str a_type "send_msg_to_user") eqn:Hsend.
      { destruct a_type; try discriminate. simpl in Hsend, Hs.
        apply String.eqb_eq in Hsend, Hs. congruence. }
      rewrite Hs in He.
      destruct (Py.has_key "dx" a), (Py.has_key "dy" a), (Py.has_key "direction" a);
        simpl in *; try reflexivity; discriminate.
  - intros planned' Hp'. inversion Hp'; subst planned'.
    unfold missing_report in Hrep.
    destruct (missing_fields _ _ planned) as [|f0 l0]; [now left|].
    destruct (truly_missing_of idx (f0 :: l0)); [now left|].
    destruct (reports_or_extracts steps); [now right | discriminate].
Qed.

(** X15. The validation itself fails, with an AttributeError, on a step
    whose single action targets a label-like row (role none or label, or
    tag LABEL, and no interactive tag) and names in its logic reference
    an index entry that is not a binding, such as ["NOT_FOUND"]. *)
Theorem label_target_with_unresolved_reference_raises :
  forall (m : manifest) (bid_index : pydict) (raw_df : table)
         (sid : pyval) (a : action) (target_row : row) (k : string) (v : pyval),
    Py.in_strs (Py.get "action_type" a)
               ["fill"; "click"; "focus"; "select_option"; "hover"] = true ->
    row_of_bid raw_df (Py.str (Py.get_default "bid" (PStr "") a)) = Some target_row ->
    (PyStr.mem (PyStr.lower (Role target_row)) ["none"; "label"]
     || String.eqb (PyStr.upper (Tag target_row)) "LABEL")
    && negb (PyStr.mem (PyStr.upper (Tag target_row))
                       ["INPUT"; "TEXTAREA"; "SELECT"; "A"; "BUTTON"]) = true ->
    Py.get "logic_ref" a = PStr k ->
    Py.lookup k bid_index = Some v ->
    Py.is_dict v = false ->
    validate_plan [mkStep (Some sid) (Some [a])] m bid_index raw_df
    = Raise AttributeError.
Proof.
  intros m idx df sid a target_row k v Htype Hrow Hlabel Href Hl Hnd.
  assert (Hcheck : check_action (FIELDS m) idx df
                                (completed_logic_refs (FIELDS m) idx df) sid a
                   = Raise AttributeError).
  { unfold check_action.
    destruct (Py.get "action_type" a) as [| | |s| |]; try discriminate.
    simpl in Htype. unfold PyStr.mem in Htype. simpl in Htype.
    rewrite !orb_false_r in Htype.
    assert (Hs : s = "fill" \/ s = "click" \/ s = "focus" \/ s = "select_option"
                 \/ s = "hover").
    { repeat (apply orb_true_iff in Htype; destruct Htype as [Htype | Htype];
              [apply String.eqb_eq in Htype; tauto|]).
      apply String.eqb_eq in Htype. tauto. }
    assert (Hrole : role_audit idx df sid (Py.str (Py.get_default "bid" (PStr "") a))
                               (Py.get "logic_ref" a) = Raise AttributeError).
    { unfold role_audit. rewrite Hrow, Hlabel, Href.
      unfold correct_bid_suggestion. simpl. rewrite Hl.
      destruct v; try reflexivity. discriminate. }
    destruct Hs as [-> | [-> | [-> | [-> | ->]]]]; simpl; now rewrite Hrole. }
  unfold validate_plan, planned_logic_refs. simpl. rewrite Href. simpl.
  destruct (negb (String.eqb k "")); simpl; unfold check_step; simpl;
    now rewrite Hcheck.
Qed.

(** X16. The validation does not ask that the target exists: an action
    of type fill, focus, select_option or hover whose identifier has no
    row in the table draws no error. *)
Theorem unknown_identifier_passes_validation :
  forall (fields_spec bid_index : pydict) (raw_df : table)
         (completed : list string) (sid : pyval) (a : action),
    Py.in_strs (Py.get "action_type" a) ["fill"; "focus"; "select_option"; "hover"]
    = true ->
    row_of_bid raw_df (Py.str (Py.get_default "bid" (PStr "") a)) = None ->
    check_action fields_spec bid_index raw_df completed sid a = Ok [].
Proof.
  intros fields idx df completed sid a Htype Hrow. unfold check_action.
  destruct (Py.get "action_type" a) as [| | |s| |]; try discriminate.
  simpl in Htype. unfold PyStr.mem in Htype. simpl in Htype.
  rewrite !orb_false_r in Htype.
  assert (Hs : s = "fill" \/ s = "focus" \/ s = "select_option" \/ s = "hover").
  { repeat (apply orb_true_iff in Htype; destruct Htype as [Htype | Htype];
            [apply String.eqb_eq in Htype; tauto|]).
    apply String.eqb_eq in Htype. tauto. }
  unfold role_audit. rewrite Hrow.
  destruct Hs as [-> | [-> | [-> | ->]]]; reflexivity.
Qed.

(** X17. A click whose logic reference names a completed field with a
    boolean target is flagged for removal, after whatever the role audit
    says; a click that names a completed field with any other target
    adds nothing. *)
Theorem click_on_completed_boolean_is_flagged :
  forall (fields_spec bid_index : pydict) (raw_df : table)
         (completed : list string) (sid : pyval) (a : action) (f : string)
         (e1 : list verr),
    Py.get "action_type" a = PStr "click" ->
    Py.get "logic_ref" a = PStr f ->
    In f completed ->
    role_audit bid_index raw_df sid (Py.str (Py.get_default "bid" (PStr "") a))
               (PStr f) = Ok e1 ->
    check_action fields_spec bid_index raw_df completed sid a =
      Ok (e1 ++ (if PyStr.mem (PyStr.lower
                                 (Py.str (Py.get_default f (PStr "") fields_spec)))
                              ["true"; "false"]
                 then [RedundantClick sid (PStr f)] else []))%list.
Proof.
  intros fields idx df completed sid a f e1 Htype Href Hin Hrole.
  unfold check_action. rewrite Htype, Href. simpl. rewrite Hrole. simpl.
  unfold redundant_click_audit. simpl.
  replace (PyStr.mem f completed) with true by (symmetry; now apply mem_In).
  destruct (_ || _); reflexivity.
Qed.

End ValidationInvariants.

Lemma unresolved_field_is_tolerated_witness :
  ~ In "A" (ConcretePlanner.completed_logic_refs
              (FIELDS two_fields) [("A", PStr "NOT_FOUND")] two_empty_inputs)
  /\ ~ In "A" (ConcretePlanner.truly_missing_of
                 [("A", PStr "NOT_FOUND")]
                 (ConcretePlanner.missing_fields
                    (FIELDS two_fields)
                    (ConcretePlanner.completed_logic_refs
                       (FIELDS two_fields) [("A", PStr "NOT_FOUND")] two_empty_inputs)
                    [])).
Proof.
  apply (unresolved_field_is_tolerated
           two_fields [("A", PStr "NOT_FOUND")] two_empty_inputs [] "A").
  right; reflexivity.
Defined.

(** A required checkbox that is not checked. *)
Definition required_checkbox_row : row :=
  mkRow "c1" "checkbox" "INPUT" "Active" "" "Active" "" "" "" "no" "Required" "no"
        "no" "None" 1%Q (Some (10%Q, 10%Q, 20%Q, 20%Q)) "".

Lemma boolean_target_satisfied_iff_witness :
  In "Active" (ConcretePlanner.completed_logic_refs
                 [("Active", PStr "false")]
                 [("Active", PDict [("bid", PStr "c1")])]
                 [required_checkbox_row]) <->
  ConcretePlanner.current_checked required_checkbox_row
  = String.eqb (PyStr.lower (PyStr.strip (Py.str (PStr "false")))) "true".
Proof.
  apply (boolean_target_satisfied_iff
           [("Active", PStr "false")] [("Active", PDict [("bid", PStr "c1")])]
           [required_checkbox_row] "Active" (PStr "false") [("bid", PStr "c1")]
           required_checkbox_row).
  - repeat constructor; simpl; intuition discriminate.
  - left; reflexivity.
  - right; left; reflexivity.
  - reflexivity.
  - discriminate.
  - reflexivity.
Defined.

Lemma text_target_satisfied_iff_witness :
  In "A" (ConcretePlanner.completed_logic_refs
            (FIELDS scenario_C_manifest) two_fields_index scenario_C_table) <->
  (PyStr.strip (Py.str (PStr "X")) = PyStr.strip (Value (plain_row "a1" "textbox" "INPUT" "" "X"))
   \/ PyStr.strip (Py.str (PStr "X"))
      = PyStr.strip (InnerT (plain_row "a1" "textbox" "INPUT" "" "X"))).
Proof.
  apply (text_target_satisfied_iff
           (FIELDS scenario_C_manifest) two_fields_index scenario_C_table
           "A" (PStr "X") [("bid", PStr "a1")] (plain_row "a1" "textbox" "INPUT" "" "X")).
  - repeat constructor; simpl; intuition discriminate.
  - left; reflexivity.
  - discriminate.
  - simpl. intuition discriminate.
  - reflexivity.
  - discriminate.
  - reflexivity.
Defined.

(** A plan that fills both fields of [two_fields]. *)
Definition fill_A_and_B_plan : list step :=
  [mkStep (Some (PStr "step_1"))
          (Some [[("action_type", PStr "fill"); ("bid", PStr "a1");
                  ("value", PStr "X"); ("logic_ref", PStr "A")];
                 [("action_type", PStr "fill"); ("bid", PStr "b1");
                  ("value", PStr "Y"); ("logic_ref", PStr "B")]])].

Lemma accepted_plan_is_well_formed_witness :
  (forall a, In a (ConcretePlanner.all_actions fill_A_and_B_plan) ->
             let a_type := Py.get "action_type" a in
             Py.in_strs a_type ConcretePlanner.VALID_ACTIONS = true
             /\ (Py.eq_str a_type "extractLLM" = true ->
                 Py.truthy (Py.get "instruction" a) = true)
             /\ (Py.eq_str a_type "scroll" = true ->
                 Py.has_key "dx" a || Py.has_key "dy" a
                 || Py.has_key "direction" a = true))
  /\ (forall planned,
         ConcretePlanner.planned_logic_refs fill_A_and_B_plan = Ok planned ->
         ConcretePlanner.truly_missing_of
           two_fields_index
           (ConcretePlanner.missing_fields
              (FIELDS two_fields)
              (ConcretePlanner.completed_logic_refs
                 (FIELDS two_fields) two_fields_index two_empty_inputs)
              planned) = []
         \/ ConcretePlanner.reports_or_extracts fill_A_and_B_plan = true).
Proof.
  apply (accepted_plan_is_well_formed
           fill_A_and_B_plan two_fields two_fields_index two_empty_inputs).
  reflexivity.
Defined.

(** A label row, and an action on it that refers to an unresolved field. *)
Definition category_label_row : row := plain_row "l1" "LabelText" "LABEL" "Category" "".

Lemma label_target_with_unresolved_reference_raises_witness :
  ConcretePlanner.validate_plan
    [mkStep (Some (PStr "step_1"))
            (Some [[("action_type", PStr "click"); ("bid", PStr "l1");
                    ("logic_ref", PStr "Category")]])]
    (mkManifest PNone None [("Category", PStr "Hardware")])
    [("Category", PStr "NOT_FOUND")]
    [category_label_row]
  = Raise AttributeError.
Proof.
  apply (label_target_with_unresolved_reference_raises
           (mkManifest PNone None [("Category", PStr "Hardware")])
           [("Category", PStr "NOT_FOUND")] [category_label_row] (PStr "step_1")
           [("action_type", PStr "click"); ("bid", PStr "l1");
            ("logic_ref", PStr "Category")]
           category_label_row "Category" (PStr "NOT_FOUND"));
    reflexivity.
Defined.

Lemma unknown_identifier_passes_validation_witness :
  ConcretePlanner.check_action [] [] two_empty_inputs [] (PStr "step_1")
    [("action_type", PStr "fill"); ("bid", PStr "zz99"); ("value", PStr "X")]
  = Ok [].
Proof.
  apply (unknown_identifier_passes_validation
           [] [] two_empty_inputs [] (PStr "step_1")
           [("action_type", PStr "fill"); ("bid", PStr "zz99"); ("value", PStr "X")]);
    reflexivity.
Defined.

Lemma click_on_completed_boolean_is_flagged_witness :
  ConcretePlanner.check_action
    [("Active", PStr "false")] [("Active", PDict [("bid", PStr "c1")])]
    [required_checkbox_row] ["Active"] (PStr "step_1")
    [("action_type", PStr "click"); ("bid", PStr "c1"); ("logic_ref", PStr "Active")]
  = Ok [RedundantClick (PStr "step_1") (PStr "Active")].
Proof.
  exact (click_on_completed_boolean_is_flagged
           [("Active", PStr "false")] [("Active", PDict [("bid", PStr "c1")])]
           [required_checkbox_row] ["Active"] (PStr "step_1")
           [("action_type", PStr "click"); ("bid", PStr "c1");
            ("logic_ref", PStr "Active")]
           "Active" [] eq_refl eq_refl (or_introl eq_refl) eq_refl).
Defined.

Section StatusFacts.
Import ObservationAnalyzer.
Context `{PyStr.Python}.

(** X18. An element whose attributes and accessibility properties do not
    mention "required" and which is not checked gets the status Active,
    and the checked-state heuristic of the validation, which reads
    ACTIVE in the status as a positive indicator, takes its row for
    checked. *)
Theorem active_status_counts_as_checked :
  forall (umap : unified_map) (focused_bid bid : string) (data : element),
    PyStr.contains "required" (blob data) = false ->
    is_checked data = false ->
    Status (record_of umap focused_bid bid data) = "Active"
    /\ ConcretePlanner.current_checked (record_of umap focused_bid bid data) = true.
Proof.
  intros umap focused_bid bid data Hreq Hchk.
  unfold record_of. destruct (get_spatial_labels umap bid data) as [l a].
  unfold ConcretePlanner.current_checked. cbn [Status Value Class].
  unfold current_status. rewrite Hreq, Hchk. cbn [app].
  split; [reflexivity|].
  replace (existsb (fun ind => PyStr.contains ind (PyStr.strip (PyStr.upper "Active")))
                   ConcretePlanner.POSITIVE_INDICATORS) with true
    by (py_ascii; reflexivity).
  apply orb_true_iff. left. apply orb_true_r.
Qed.

End StatusFacts.

(** An unchecked checkbox that is not required. *)
Definition plain_checkbox : ObservationAnalyzer.element :=
  ObservationAnalyzer.mkElement 21 "INPUT" "checkbox" "Active" "" ""
    (Some (10%Q, 10%Q, 20%Q, 20%Q)) 1%Q 0 false [("type", "checkbox")]
    [("checked", PStr "false")].

Lemma active_status_counts_as_checked_witness :
  Status (ObservationAnalyzer.record_of [("c1", plain_checkbox)] "" "c1" plain_checkbox)
  = "Active"
  /\ ConcretePlanner.current_checked
       (ObservationAnalyzer.record_of [("c1", plain_checkbox)] "" "c1" plain_checkbox)
     = true.
Proof.
  apply (active_status_counts_as_checked [("c1", plain_checkbox)] "" "c1" plain_checkbox);
    reflexivity.
Defined.

(* ================================================================== *)
(** ** Further facts on the talk with the oracle *)
(* ================================================================== *)

Section OracleFacts.
Import ConcretePlanner.
Context `{PyStr.Python} `{Pandas} `{Connector}.

(** X19. A generation whose prompt cannot be built makes no request and
    returns the error of the exception. Otherwise it makes one, two or
    three requests, all with the same prompt, and stops at the first
    answer that is not an error: it returns the error of the third
    answer when the three answers are errors, the error of the exception
    when the answer it stops at is not an object, and the plan of that
    answer (its steps, none when the key is absent, and its thought or
    else the reasoning) when it is one. *)
Theorem generation_retries :
  forall (prompt : request) (log : list request),
    let n := List.length log in
    let r := fetch_with_retries prompt log in
    (renders prompt = false ->
     r = (generation_error (format_exc prompt), log))
    /\ (renders prompt = true ->
        exists k,
          (1 <= k <= 3)%nat /\
          snd r = (log ++ repeat prompt k)%list /\
          (forall j, (j + 1 < k)%nat -> is_error (fetch_plan (n + j) prompt) = true) /\
          match fetch_plan (n + k - 1) prompt with
          | api_error err => k = 3%nat /\ fst r = generation_error err
          | api_data not_an_object _ =>
              fst r = generation_error (format_exc prompt)
          | api_data (plan_object data) reasoning =>
              fst r = generated
                        (match pd_concrete_steps data with Some l => l | None => [] end)
                        (match pd_thought data with
                         | Some t => Some t
                         | None => reasoning
                         end)
          end).
Proof.
  intros prompt log. cbv zeta. unfold fetch_with_retries.
  split; intros Hr; rewrite Hr.
  { reflexivity. }
  cbn [negb]. unfold bind, ask_plan, ret.
  set (n := List.length log).
  assert (Hlen1 : List.length (log ++ [prompt]) = (n + 1)%nat)
    by (rewrite length_app; reflexivity).
  assert (Hlen2 : List.length ((log ++ [prompt]) ++ [prompt]) = (n + 2)%nat)
    by (rewrite length_app, Hlen1; simpl; lia).
  destruct (fetch_plan n prompt) as [[d0|] r0 | e0] eqn:H0'; cbn [is_error].
  1, 2: exists 1%nat; cbn [fst snd repeat]; repeat split; try lia;
        replace (n + 1 - 1)%nat with n by lia; now rewrite H0'.
  rewrite Hlen1.
  assert (Hfirst : forall j, (j + 1 < 2)%nat ->
                             is_error (fetch_plan (n + j) prompt) = true).
  { intros j Hj. replace j with 0%nat by lia. rewrite Nat.add_0_r. now rewrite H0'. }
  destruct (fetch_plan (n + 1) prompt) as [[d1|] r1 | e1] eqn:H1'; cbn [is_error].
  1, 2: exists 2%nat; cbn [fst snd repeat]; rewrite <- app_assoc;
        repeat split; auto; try lia;
        replace (n + 2 - 1)%nat with (n + 1)%nat by lia; now rewrite H1'.
  rewrite Hlen2.
  assert (Hlog : (((log ++ [prompt]) ++ [prompt]) ++ [prompt])%list
                 = (log ++ repeat prompt 3)%list)
    by (rewrite <- !app_assoc; reflexivity).
  assert (Hearlier : forall j, (j + 1 < 3)%nat ->
                               is_error (fetch_plan (n + j) prompt) = true).
  { intros j Hj. assert (j = 0 \/ j = 1)%nat as [-> | ->] by lia.
    - apply Hfirst. lia.
    - now rewrite H1'. }
  exists 3%nat. replace (n + 3 - 1)%nat with (n + 2)%nat by lia.
  destruct (fetch_plan (n + 2) prompt) as [[d2|] r2 | e2] eqn:H2';
    cbn [fst snd]; repeat split; auto; lia.
Qed.

(** The log after a computation extends the log before it by at most
    [b] requests. *)
Definition extends_by {A : Type} (c : M A) (b : nat) : Prop :=
  forall log, exists new,
    snd (c log) = (log ++ new)%list /\ (List.length new <= b)%nat.

Lemma extends_by_ret :
  forall (A : Type) (a : A), extends_by (ret a) 0.
Proof.
  intros A a log. exists []. split; [now rewrite app_nil_r | reflexivity].
Qed.

Lemma extends_by_bind :
  forall (A B : Type) (c : M A) (k : A -> M B) (b1 b2 : nat),
    extends_by c b1 -> (forall a, extends_by (k a) b2) ->
    extends_by (bind c k) (b1 + b2).
Proof.
  intros A B c k b1 b2 Hc Hk log. unfold bind.
  destruct (Hc log) as (n1 & E1 & L1). destruct (c log) as [a log1]. simpl in E1.
  destruct (Hk a log1) as (n2 & E2 & L2). subst log1.
  exists (n1 ++ n2)%list. split.
  - now rewrite E2, app_assoc.
  - rewrite length_app. lia.
Qed.

Lemma extends_by_weaken :
  forall (A : Type) (c : M A) (b b' : nat),
    extends_by c b -> (b <= b')%nat -> extends_by c b'.
Proof.
  intros A c b b' Hc Hle log. destruct (Hc log) as (new & E & L).
  exists new. split; [assumption | lia].
Qed.

Lemma ask_plan_extends :
  forall prompt, extends_by (ask_plan prompt) 1.
Proof. intros prompt log. exists [prompt]. split; reflexivity. Qed.

Lemma fetch_with_retries_extends :
  forall prompt, extends_by (fetch_with_retries prompt) 3.
Proof.
  intros prompt. unfold fetch_with_retries.
  destruct (negb (renders prompt)).
  { eapply extends_by_weaken; [apply extends_by_ret | lia]. }
  change 3%nat with (1 + (1 + (1 + 0)))%nat.
  apply extends_by_bind; [apply ask_plan_extends|]. intros r1.
  apply extends_by_bind.
  { destruct (is_error r1);
      [apply ask_plan_extends
      | eapply extends_by_weaken; [apply extends_by_ret | lia]]. }
  intros r2. apply extends_by_bind.
  { destruct (is_error r2);
      [apply ask_plan_extends
      | eapply extends_by_weaken; [apply extends_by_ret | lia]]. }
  intros [[d|] rs | e]; apply extends_by_ret.
Qed.

Lemma refine_bid_index_extends :
  forall m raw_df idx, extends_by (refine_bid_index_with_llm m raw_df idx) 1.
Proof.
  intros m raw_df idx log. unfold refine_bid_index_with_llm.
  destruct (negb _).
  - exists []. split; [now rewrite app_nil_r | simpl; lia].
  - unfold bind, ask_json.
    eexists [_]. split; [|reflexivity].
    destruct (fetch_json _ _) as [[| | | | |d] r | e]; try reflexivity.
    destruct (Py.truthy (PDict d)); reflexivity.
Qed.

Lemma repair_iterations_extends :
  forall m raw_df page_title focused_bid bid_index refine_instruction max_retries
         (n i : nat) steps thought prev,
    (i + S n = max_retries)%nat ->
    extends_by (repair_iterations m raw_df page_title focused_bid bid_index
                                  refine_instruction max_retries (seq i (S n))
                                  steps thought prev)
               (3 * n).
Proof.
  induction n as [|n IH]; intros i steps thought prev Hi log;
    cbn [seq repair_iterations];
    destruct (validate_plan steps m bid_index raw_df) as [[|e errs]|x];
    try (exists []; split; [now rewrite app_nil_r | simpl; lia]).
  - replace (i =? max_retries - 1)%nat with true
      by (symmetry; apply Nat.eqb_eq; lia).
    exists []. split; [now rewrite app_nil_r | simpl; lia].
  - replace (i =? max_retries - 1)%nat with false
      by (symmetry; apply Nat.eqb_neq; lia).
    assert (Hb : extends_by
                   (bind (refine_concrete_plan steps (e :: errs) m raw_df page_title
                                               focused_bid bid_index refine_instruction)
                         (fun g =>
                            match g with
                            | generated steps' thought' =>
                                repair_iterations m raw_df page_title focused_bid
                                                  bid_index refine_instruction
                                                  max_retries (seq (S i) (S n))
                                                  steps' thought' (Some (e :: errs))
                            | generation_error err => ret (Ok (error_result err))
                            end))
                   (3 + 3 * n)).
    { apply extends_by_bind; [apply fetch_with_retries_extends|].
      intros [steps' thought' | err].
      - apply IH. lia.
      - eapply extends_by_weaken; [apply extends_by_ret | lia]. }
    destruct (Hb log) as (new & E & L). exists new. split; [exact E | lia].
Qed.

(** X20. A run of the repair loop with a budget of at least one only
    adds requests to the log, and at most one for the index and three
    per attempt: 1 + 3 * max_retries in all. *)
Theorem repair_loop_request_bound :
  forall (m : manifest) (raw_df : table) (page_title focused_bid : string)
         (refine_instruction : option string) (max_retries : nat)
         (log : list request),
    (0 < max_retries)%nat ->
    exists new,
      snd (run_repair_loop m raw_df page_title focused_bid refine_instruction
                           max_retries log) = (log ++ new)%list
      /\ (List.length new <= 1 + 3 * max_retries)%nat.
Proof.
  intros m raw_df page_title focused_bid refine_instruction max_retries log Hpos.
  destruct max_retries as [|n]; [lia|].
  assert (Hb : extends_by (run_repair_loop m raw_df page_title focused_bid
                                           refine_instruction (S n))
                          (1 + (3 + 3 * n))).
  { unfold run_repair_loop.
    apply extends_by_bind; [apply refine_bid_index_extends|]. intros idx.
    apply extends_by_bind.
    - unfold generate_concrete_plan. apply fetch_with_retries_extends.
    - intros [steps thought | err].
      + apply repair_iterations_extends. reflexivity.
      + eapply extends_by_weaken; [apply extends_by_ret | lia]. }
  destruct (Hb log) as (new & E & L). exists new. split; [exact E | lia].
Qed.

End OracleFacts.

Lemma repair_loop_request_bound_witness :
  exists new,
    snd (@ConcretePlanner.run_repair_loop
           reference_python reference_pandas stubborn_connector
           empty_manifest [] "Home" "" None 3 [])
    = ([] ++ new)%list
    /\ (List.length new <= 1 + 3 * 3)%nat.
Proof.
  apply (@repair_loop_request_bound reference_python reference_pandas stubborn_connector
           empty_manifest [] "Home" "" None 3 []).
  apply Nat.lt_0_succ.
Defined.

(* ================================================================== *)
(** ** Further facts on the compiler and on the final focus *)
(* ================================================================== *)

Section CompilerInvariants.
Import Autonomus_agent_main.
Context `{PyStr.Python}.

Lemma append_cons_nonempty :
  forall (s t : string) (c : ascii), s ++ String c t <> "".
Proof. destruct s; discriminate. Qed.

(** X21. The compiled command is empty for the extractLLM action and for
    no other: every other descriptor, whatever its type, its target and
    its payload, compiles to some call, and the compiler rejects
    nothing. *)
Theorem only_extract_compiles_to_nothing :
  forall (a : action) (last_extracted_value : option string),
    build_action_code a last_extracted_value = "" <->
    Py.eq_str (Py.get "action_type" a) "extractLLM" = true.
Proof.
  intros a lev. unfold build_action_code. split.
  - destruct (Py.eq_str (Py.get "action_type" a) "extractLLM"); [reflexivity|].
    destruct (Py.eq_str (Py.get "action_type" a) "select_option"); [discriminate|].
    destruct (Py.eq_str (Py.get "action_type" a) "send_msg_to_user"); [discriminate|].
    destruct (Py.eq_str (Py.get "action_type" a) "fill").
    { destruct (PyStr.mem _ _); discriminate. }
    destruct (Py.eq_str (Py.get "action_type" a) "scroll"); [discriminate|].
    intros Hempty. exfalso.
    destruct (Py.truthy (Py.get "bid" a)).
    + destruct (Py.in_strs _ _); [now apply append_cons_nonempty in Hempty|].
      destruct (Py.get "value" a); now apply append_cons_nonempty in Hempty.
    + now apply append_cons_nonempty in Hempty.
  - intros ->. reflexivity.
Qed.

Definition last_actions (s : step) : list action :=
  match actions s with Some l => l | None => [] end.

Lemma inject_final_hover_unfold :
  forall (front : list step) (last_step : step)
         (before : list action) (last_action : action),
    actions last_step = Some (before ++ [last_action])%list ->
    inject_final_hover (front ++ [last_step]) =
      if is_click last_action then
        if negb (match rev before with
                 | prev :: _ => is_click prev
                 | [] => false
                 end)
        then (front ++
              [mkStep (step_id last_step)
                      (Some (before ++
                             [safety_hover (Py.get "bid" last_action); last_action]))])%list
        else (front ++ [last_step])%list
      else (front ++ [last_step])%list.
Proof.
  intros front last_step before last_action Hacts.
  unfold inject_final_hover.
  rewrite rev_unit, Hacts, rev_unit. fold (is_click last_action).
  rewrite !rev_involutive. reflexivity.
Qed.

Lemma inject_final_hover_no_actions :
  forall (front : list step) (last_step : step),
    last_actions last_step = [] ->
    inject_final_hover (front ++ [last_step]) = (front ++ [last_step])%list.
Proof.
  intros front last_step Hnone. unfold inject_final_hover.
  rewrite rev_unit. unfold last_actions in Hnone. now rewrite Hnone.
Qed.

(** Either the plan comes back as it is, or it is [front ++ [last_step]],
    its last step ends with a click, and the result is the plan with the
    focus action put before that click. *)
Lemma inject_final_hover_shape :
  forall concrete_steps,
    inject_final_hover concrete_steps = concrete_steps \/
    exists front last_step before last_action,
      concrete_steps = (front ++ [last_step])%list /\
      actions last_step = Some (before ++ [last_action])%list /\
      is_click last_action = true /\
      inject_final_hover concrete_steps =
        (front ++
         [mkStep (step_id last_step)
                 (Some (before ++
                        [safety_hover (Py.get "bid" last_action); last_action]))])%list.
Proof.
  intros steps. destruct steps as [|s0 rest]; [now left|].
  assert (Hne0 : s0 :: rest <> []) by discriminate.
  destruct (exists_last Hne0) as (front & ls & ->).
  destruct (last_actions ls) as [|a0 l0] eqn:Hl.
  - left. now apply inject_final_hover_no_actions.
  - assert (Hne : a0 :: l0 <> []) by discriminate.
    destruct (exists_last Hne) as (before & a & Hsplit).
    assert (Hacts : actions ls = Some (before ++ [a])%list).
    { unfold last_actions in Hl. destruct (actions ls); [congruence | discriminate]. }
    rewrite (inject_final_hover_unfold front ls before a Hacts).
    destruct (is_click a) eqn:Hc; [|now left].
    destruct (negb _); [|now left].
    right. exists front, ls, before, a. auto.
Qed.

End CompilerInvariants.

Section HoverInvariants.
Import Autonomus_agent_main.

(** X22. The transformation keeps the steps and their identifiers, leaves
    every step but the last untouched, and adds at most one action: the
    actions of the result are those of the plan or, when the plan ends
    with a click, those of the plan with the focus action on the
    target of that click put just before it. *)
Theorem inject_final_hover_adds_at_most_one_action :
  forall (concrete_steps : list step),
    map step_id (inject_final_hover concrete_steps) = map step_id concrete_steps
    /\ removelast (inject_final_hover concrete_steps) = removelast concrete_steps
    /\ (ConcretePlanner.all_actions (inject_final_hover concrete_steps)
        = ConcretePlanner.all_actions concrete_steps
        \/ exists pre last_action,
             ConcretePlanner.all_actions concrete_steps = (pre ++ [last_action])%list /\
             is_click last_action = true /\
             ConcretePlanner.all_actions (inject_final_hover concrete_steps)
             = (pre ++ [safety_hover (Py.get "bid" last_action); last_action])%list).
Proof.
  intros steps.
  destruct (inject_final_hover_shape steps)
    as [-> | (front & ls & before & a & -> & Hacts & Hc & ->)].
  - repeat split. now left.
  - repeat split.
    + rewrite !map_app. reflexivity.
    + now rewrite !removelast_last.
    + right. exists (ConcretePlanner.all_actions front ++ before)%list, a.
      unfold ConcretePlanner.all_actions. rewrite !flat_map_app. simpl.
      rewrite Hacts, !app_nil_r, !app_assoc. auto.
Qed.

(** X23. The transformation does not recognise its own insertion:
    whenever it changes a plan, applying it to the result changes the
    result again, with a second focus action before the click. *)
Theorem inject_final_hover_inserts_again :
  forall (concrete_steps : list step),
    inject_final_hover concrete_steps <> concrete_steps ->
    inject_final_hover (inject_final_hover concrete_steps)
    <> inject_final_hover concrete_steps.
Proof.
  intros steps Hchanged.
  destruct (inject_final_hover_shape steps)
    as [Hsame | (front & ls & before & a & -> & Hacts & Hc & Heq)];
    [contradiction|].
  rewrite Heq.
  set (hover := safety_hover (Py.get "bid" a)).
  set (ls' := mkStep (step_id ls) (Some (before ++ [hover; a])%list)).
  assert (Hacts' : actions ls' = Some ((before ++ [hover]) ++ [a])%list)
    by (simpl; now rewrite <- app_assoc).
  rewrite (inject_final_hover_unfold front ls' (before ++ [hover]) a Hacts').
  rewrite Hc, rev_unit. simpl negb. cbv iota.
  intros Habs. apply app_inv_head in Habs. inversion Habs as [Hlist].
  apply (f_equal (@List.length action)) in Hlist.
  rewrite !length_app in Hlist. simpl in Hlist. lia.
Qed.

End HoverInvariants.

Lemma inject_final_hover_inserts_again_witness :
  Autonomus_agent_main.inject_final_hover
    (Autonomus_agent_main.inject_final_hover fill_then_click)
  <> Autonomus_agent_main.inject_final_hover fill_then_click.
Proof.
  apply (inject_final_hover_inserts_again fill_then_click).
  discriminate.
Defined.

Example second_application_adds_second_focus :
  map (fun a => Py.str (Py.get "action_type" a))
      (ConcretePlanner.all_actions
         (Autonomus_agent_main.inject_final_hover
            (Autonomus_agent_main.inject_final_hover fill_then_click)))
  = ["fill"; "focus"; "focus"; "click"].
Proof. reflexivity. Qed.

(* ================================================================== *)
(** ** File names of the run logs *)
(* ================================================================== *)

Section CharFacts.
Import PyStr.

Lemma all_chars_app :
  forall f a b, all_chars f (a ++ b) = all_chars f a && all_chars f b.
Proof.
  induction a as [|c a IH]; simpl; intros; [reflexivity|].
  now rewrite IH, andb_assoc.
Qed.

Lemma all_chars_impl :
  forall (f g : ascii -> bool) s,
    (forall c, f c = true -> g c = true) ->
    all_chars f s = true -> all_chars g s = true.
Proof.
  induction s as [|c s IH]; simpl; intros Hfg Hs; [reflexivity|].
  apply andb_true_iff in Hs. destruct Hs as [Hc Hs].
  now rewrite (Hfg _ Hc), IH.
Qed.

Lemma all_chars_keep_chars :
  forall f s, all_chars f (keep_chars f s) = true.
Proof.
  induction s as [|c s IH]; simpl; [reflexivity|].
  destruct (f c) eqn:Hc; simpl; [now rewrite Hc|assumption].
Qed.

Lemma keep_chars_all :
  forall f s, all_chars f s = true -> keep_chars f s = s.
Proof.
  induction s as [|c s IH]; simpl; intros Hs; [reflexivity|].
  apply andb_true_iff in Hs. destruct Hs as [Hc Hs]. now rewrite Hc, IH.
Qed.

Lemma substring_prefix_length :
  forall n s, (String.length (substring 0 n s) <= n)%nat.
Proof.
  induction n as [|n IH]; destruct s as [|c s]; simpl; try lia.
  specialize (IH s). lia.
Qed.

Lemma all_chars_substring_prefix :
  forall f n s, all_chars f s = true -> all_chars f (substring 0 n s) = true.
Proof.
  induction n as [|n IH]; destruct s as [|c s]; simpl; intros Hs; try reflexivity.
  apply andb_true_iff in Hs. destruct Hs as [Hc Hs]. now rewrite Hc, IH.
Qed.

Lemma substring_prefix_all :
  forall n s, (String.length s <= n)%nat -> substring 0 n s = s.
Proof.
  induction n as [|n IH]; destruct s as [|c s]; simpl; intros Hl; try reflexivity.
  - lia.
  - rewrite IH; [reflexivity | lia].
Qed.

Lemma prefix_all_chars :
  forall f p s, prefix p s = true -> all_chars f s = true -> all_chars f p = true.
Proof.
  intros f p s Hp Hs. apply prefix_split in Hp. destruct Hp as [b ->].
  rewrite all_chars_app in Hs. now apply andb_true_iff in Hs.
Qed.

(** A text made of characters of a class is left alone by the
    replacement of a token that has a character outside the class. *)
Lemma replace_no_match :
  forall f old new s,
    all_chars f old = false -> all_chars f s = true -> replace old new s = s.
Proof.
  unfold replace. induction s as [|c s IH]; intros Hold Hs; [reflexivity|].
  cbn [replace_from].
  destruct (prefix old (String c s)) eqn:Hp.
  - rewrite (prefix_all_chars f _ _ Hp Hs) in Hold. discriminate.
  - simpl in Hs. apply andb_true_iff in Hs. destruct Hs as [_ Hs].
    now rewrite IH.
Qed.

End CharFacts.

Section SanitizeFacts.
Import Autonomus_agent_main.

(** X24. The directory name of a task has at most 50 characters, all of
    them letters, digits, underscores or hyphens (so no dot and no path
    separator), and sanitising a sanitised name changes nothing. *)
Theorem sanitize_filename_is_safe :
  forall (name : string),
    (String.length (sanitize_filename name) <= 50)%nat
    /\ PyStr.all_chars safe_char (sanitize_filename name) = true
    /\ sanitize_filename (sanitize_filename name) = sanitize_filename name.
Proof.
  intros name.
  assert (Hlen : (String.length (sanitize_filename name) <= 50)%nat)
    by apply substring_prefix_length.
  assert (Hsafe : PyStr.all_chars safe_char (sanitize_filename name) = true)
    by (apply all_chars_substring_prefix, all_chars_keep_chars).
  repeat split; auto.
  set (t := sanitize_filename name) in *.
  unfold sanitize_filename at 1.
  rewrite (replace_no_match safe_char "workarena.servicenow." "" t eq_refl Hsafe).
  rewrite (replace_no_match safe_char "/" "_" t eq_refl Hsafe).
  rewrite (replace_no_match safe_char "." "_" t eq_refl Hsafe).
  rewrite (keep_chars_all _ _ Hsafe). now apply substring_prefix_all.
Qed.

End SanitizeFacts.

Example sanitize_filename_example :
  Autonomus_agent_main.sanitize_filename "workarena.servicenow.create-change-request"
  = "create-change-request"
  /\ Autonomus_agent_main.sanitize_filename "../etc/pass wd" = "___etc_passwd".
Proof. split; reflexivity. Qed.

(* ================================================================== *)
(** ** The JSON part of an answer *)
(* ================================================================== *)

Section ExtractJsonFacts.
Import PyStr GeminiConnector.

(** No character of the text is [c]. *)
Definition lacks (c : ascii) (s : string) : bool :=
  all_chars (fun x => negb (Ascii.eqb x c)) s.

Lemma lacks_app_cons :
  forall c a b, lacks c (a ++ String c b) = false.
Proof.
  unfold lacks. intros c a b. rewrite all_chars_app. simpl.
  rewrite Ascii.eqb_refl. simpl. apply andb_false_r.
Qed.

Lemma from_first_some :
  forall c s t,
    from_first c s = Some t ->
    exists pre t', s = pre ++ String c t' /\ t = String c t' /\ lacks c pre = true.
Proof.
  induction s as [|x s IH]; simpl; intros t Hf; [discriminate|].
  destruct (Ascii.eqb_spec x c) as [-> | Hne].
  - inversion Hf; subst. exists "", s. auto.
  - destruct (IH _ Hf) as (pre & t' & -> & -> & Hl).
    exists (String x pre), t'. repeat split. unfold lacks in *. simpl.
    rewrite Hl. destruct (Ascii.eqb_spec x c); [contradiction | reflexivity].
Qed.

Lemma from_first_none :
  forall c s, from_first c s = None -> lacks c s = true.
Proof.
  unfold lacks. induction s as [|x s IH]; simpl; intros Hf; [reflexivity|].
  destruct (Ascii.eqb x c); [discriminate|]. simpl. now apply IH.
Qed.

Lemma upto_last_none :
  forall c s, upto_last c s = None -> lacks c s = true.
Proof.
  unfold lacks. induction s as [|x s IH]; simpl; intros Hu; [reflexivity|].
  destruct (upto_last c s); [discriminate|].
  destruct (Ascii.eqb x c); [discriminate|]. simpl. now apply IH.
Qed.

Lemma upto_last_some :
  forall c s t,
    upto_last c s = Some t ->
    exists mid post,
      s = mid ++ String c post /\ t = mid ++ String c "" /\ lacks c post = true.
Proof.
  induction s as [|x s IH]; simpl; intros t Hu; [discriminate|].
  destruct (upto_last c s) as [t0|] eqn:Hs.
  - inversion Hu; subst. destruct (IH _ eq_refl) as (mid & post & -> & -> & Hl).
    exists (String x mid), post. auto.
  - destruct (Ascii.eqb_spec x c) as [-> | Hne]; [|discriminate].
    inversion Hu; subst. exists "", s. repeat split. now apply upto_last_none.
Qed.

Lemma upto_last_at_end :
  forall c mid, upto_last c (mid ++ String c "") = Some (mid ++ String c "").
Proof.
  induction mid as [|x mid IH]; simpl.
  - now rewrite Ascii.eqb_refl.
  - now rewrite IH.
Qed.

(** Of two ways to cut a text at a [c], the one whose left part has no
    [c] cuts first. *)
Lemma first_cut_is_leftmost :
  forall c pre0 r0 pre r,
    pre0 ++ String c r0 = pre ++ String c r -> lacks c pre0 = true ->
    exists d, r0 = d ++ r.
Proof.
  induction pre0 as [|x pre0 IH]; intros r0 pre r Heq Hl.
  - destruct pre as [|y pre]; simpl in Heq.
    + injection Heq as Hr. exists "". now rewrite Hr.
    + injection Heq as Hc Hr. exists (pre ++ String c "").
      rewrite Hr. now rewrite append_assoc.
  - unfold lacks in Hl. simpl in Hl. apply andb_true_iff in Hl.
    destruct Hl as [Hx Hl].
    destruct pre as [|y pre]; simpl in Heq; injection Heq as Hc Hr.
    + rewrite Hc, Ascii.eqb_refl in Hx. discriminate.
    + eapply IH; eauto.
Qed.

(** X25. When the text holds an opening brace with a closing brace
    somewhere after it, the extracted text runs from the first opening
    brace to the last closing brace of the text; otherwise the text is
    returned as it is. In both cases extracting again changes nothing. *)
Theorem extract_json_spans_outer_braces :
  forall (text : string),
    ((exists pre mid post,
         text = pre ++ "{" ++ mid ++ "}" ++ post /\
         lacks "{" pre = true /\ lacks "}" post = true /\
         extract_json text = "{" ++ mid ++ "}")
     \/ (extract_json text = text /\
         forall pre mid post, text <> pre ++ "{" ++ mid ++ "}" ++ post))
    /\ extract_json (extract_json text) = extract_json text.
Proof.
  intros text.
  assert (Hcases :
            (exists pre mid post,
                text = pre ++ "{" ++ mid ++ "}" ++ post /\
                lacks "{" pre = true /\ lacks "}" post = true /\
                extract_json text = "{" ++ mid ++ "}")
            \/ (extract_json text = text /\
                forall pre mid post, text <> pre ++ "{" ++ mid ++ "}" ++ post)).
  { unfold extract_json.
    destruct (from_first "{" text) as [t|] eqn:Hf.
    - apply from_first_some in Hf. destruct Hf as (pre & rest & Htext & -> & Hpre).
      destruct (upto_last "}" rest) as [body|] eqn:Hu.
      + left. apply upto_last_some in Hu. destruct Hu as (mid & post & -> & -> & Hpost).
        exists pre, mid, post. auto.
      + right. split; [reflexivity|]. intros pre' mid post Heq.
        apply upto_last_none in Hu. rewrite Htext in Heq.
        destruct (first_cut_is_leftmost _ _ _ _ _ Heq Hpre) as [d Hd].
        rewrite Hd in Hu.
        change (d ++ mid ++ "}" ++ post) with (d ++ (mid ++ String "}" post)) in Hu.
        rewrite <- append_assoc in Hu. now rewrite lacks_app_cons in Hu.
    - right. split; [reflexivity|]. intros pre mid post Heq.
      apply from_first_none in Hf. rewrite Heq in Hf.
      change (pre ++ "{" ++ mid ++ "}" ++ post)
        with (pre ++ String "{" (mid ++ "}" ++ post)) in Hf.
      now rewrite lacks_app_cons in Hf. }
  split; [exact Hcases|].
  destruct Hcases as [(pre & mid & post & _ & _ & _ & ->) | [He _]];
    [|now rewrite !He].
  unfold extract_json. simpl.
  change (mid ++ "}") with (mid ++ String "}" ""). now rewrite upto_last_at_end.
Qed.

End ExtractJsonFacts.

Example extract_json_example :
  GeminiConnector.extract_json "Here it is: {a: {b: 1}} done" = "{a: {b: 1}}"
  /\ GeminiConnector.extract_json "no braces } here {" = "no braces } here {".
Proof. split; reflexivity. Qed.

(* ================================================================== *)
(** ** The value read from the page *)
(* ================================================================== *)

Section ExtractorFacts.
Import PyStr ObservationExtractor.
Context `{PyStr.Python}.

(** X26. The value extracted for a text answer, bare or wrapped as the
    only entry of an object, is a contiguous part of the answer: what is
    cut off on either side is, from the outside in, a text that Python's
    [strip] removes entirely (blanks), then double quotes only, then
    apostrophes only. For every answer the result neither starts nor
    ends with an apostrophe. *)
Theorem extracted_text_is_part_of_answer :
  (forall (s : string),
      exists a1 a2 a3 b3 b2 b1,
        s = (a1 ++ a2 ++ a3) ++ normalise (PStr s) ++ (b3 ++ b2 ++ b1)
        /\ strip a1 = "" /\ strip b1 = ""
        /\ all_chars (fun c => Ascii.eqb c dquote) (a2 ++ b2) = true
        /\ all_chars (fun c => Ascii.eqb c "'") (a3 ++ b3) = true)
  /\ (forall (k s : string), normalise (PDict [(k, PStr s)]) = normalise (PStr s))
  /\ (forall (data : pyval) (r : string),
         normalise data <> "'" ++ r /\ normalise data <> r ++ "'").
Proof.
  split; [|split].
  - intros s. unfold normalise. cbn [Py.str].
    set (s1 := strip s).
    set (s2 := strip_by (fun c => Ascii.eqb c dquote) s1).
    set (s3 := strip_by (fun c => Ascii.eqb c "'") s2).
    destruct (strip_cuts s) as (a1 & b1 & H1 & Ha1 & Hb1).
    destruct (strip_by_split (fun c => Ascii.eqb c dquote) s1)
      as (a2 & b2 & H2 & Ha2 & Hb2).
    destruct (strip_by_split (fun c => Ascii.eqb c "'") s2)
      as (a3 & b3 & H3 & Ha3 & Hb3).
    fold s1 in H1. fold s2 in H2. fold s3 in H3.
    exists a1, a2, a3, b3, b2, b1. repeat split; auto.
    + rewrite H1 at 1. rewrite H2 at 1. rewrite H3 at 1.
      now rewrite !append_assoc.
    + now rewrite all_chars_app, Ha2, Hb2.
    + now rewrite all_chars_app, Ha3, Hb3.
  - reflexivity.
  - intros data r. unfold normalise.
    set (t := strip_by (fun c => Ascii.eqb c dquote) _). split; intros Heq.
    + pose proof (strip_by_starts_clean (fun c => Ascii.eqb c "'") t) as Hc.
      rewrite Heq in Hc. discriminate.
    + unfold strip_by in Heq. apply rstrip_by_last in Heq. discriminate.
Qed.

End ExtractorFacts.

Example extract_result_examples :
  ObservationExtractor.extract_result
    (ConcretePlanner.api_data (PDict [("result", PStr "  INC0012345 ")]) None)
  = "INC0012345"
  /\ ObservationExtractor.extract_result (ConcretePlanner.api_error "timeout")
     = "ERROR: timeout".
Proof. split; reflexivity. Qed.

(* ================================================================== *)
(** ** The area of an element *)
(* ================================================================== *)

Section AreaFacts.
Import PyStr ObservationAnalyzer.

(** The names of a path are distinct, none is empty, and each is the
    name of a landmark record of the map. *)
Definition good_path (m : linked_map) (path : list string) : Prop :=
  NoDup path /\
  forall name, In name path ->
    name <> "" /\
    exists b node p_id,
      In (b, (node, p_id)) m /\
      mem (e_Role node) landmark_roles = true /\ node_name node = Some name.

Lemma umap_get_In :
  forall b m node p_id, umap_get b m = Some (node, p_id) -> In (b, (node, p_id)) m.
Proof.
  unfold umap_get. intros b m node p_id Hg.
  destruct (find _ m) as [[k v]|] eqn:Hf; simpl in Hg; [|discriminate].
  injection Hg as ->. apply find_some in Hf. destruct Hf as [Hin He].
  simpl in He. apply String.eqb_eq in He. now subst.
Qed.

Lemma extend_path_good :
  forall m path b node p_id,
    good_path m path -> In (b, (node, p_id)) m -> good_path m (extend_path path node).
Proof.
  intros m path b node p_id [Hnd Hnames] Hin. unfold extend_path.
  destruct (node_name node) as [name|] eqn:Hn; [|now split].
  destruct (mem (e_Role node) landmark_roles && negb (String.eqb name "")) eqn:Hr;
    [|now split].
  destruct (mem name path) eqn:Hm; [now split|].
  apply andb_true_iff in Hr. destruct Hr as [Hrole Hne].
  assert (Hnot : ~ In name path)
    by (intros Hi; apply mem_In in Hi; rewrite Hi in Hm; discriminate).
  split.
  - apply (Permutation_NoDup (Permutation_cons_append path name)).
    now constructor.
  - intros x Hx. apply in_app_or in Hx. destruct Hx as [Hx | [<- | []]]; auto.
    split.
    + intros ->. discriminate.
    + now exists b, node, p_id.
Qed.

Lemma area_loop_total :
  forall fuel m path curr visited,
    NoDup visited -> incl visited (map fst m) ->
    (List.length m < fuel + List.length visited)%nat ->
    good_path m path ->
    exists p, area_loop fuel m path curr visited = Some p /\ good_path m p.
Proof.
  induction fuel as [|fuel IH]; intros m path curr visited Hnd Hincl Hlen Hgood.
  - pose proof (NoDup_incl_length Hnd Hincl) as Hle.
    rewrite length_map in Hle. simpl in Hlen. lia.
  - simpl. destruct curr as [b|]; [|now exists path].
    destruct (String.eqb b "" || mem b visited) eqn:Hstop; [now exists path|].
    apply orb_false_iff in Hstop. destruct Hstop as [_ Hvis].
    destruct (umap_get b m) as [[node p_id]|] eqn:Hg; [|now exists path].
    apply umap_get_In in Hg.
    apply IH.
    + constructor; [|assumption].
      intros Hi. apply mem_In in Hi. rewrite Hi in Hvis. discriminate.
    + intros x [<- | Hx]; [|now apply Hincl].
      change b with (fst (b, (node, p_id))). now apply in_map.
    + simpl. lia.
    + eapply extend_path_good; eauto.
Qed.

Lemma area_loop_more_fuel :
  forall fuel m path curr visited p extra,
    area_loop fuel m path curr visited = Some p ->
    area_loop (fuel + extra) m path curr visited = Some p.
Proof.
  induction fuel as [|fuel IH]; intros m path curr visited p extra Hr;
    [discriminate|].
  simpl in *. destruct curr as [b|]; [|assumption].
  destruct (String.eqb b "" || mem b visited); [assumption|].
  destruct (umap_get b m) as [[node p_id]|]; [|assumption].
  now apply IH.
Qed.

(** X27. The walk from an element up its parent links always ends, also
    when the links form a cycle or point nowhere: one iteration for each
    record of the map and one more suffice, and more fuel does not change
    the result. The names of the resulting path are distinct and not
    empty, and each is the name of a record of the map with a landmark
    role. *)
Theorem hierarchical_area_terminates :
  forall (m : linked_map) (bid : string),
  exists path,
    (forall extra,
        area_loop (S (List.length m) + extra) m [] (Some bid) [] = Some path)
    /\ get_hierarchical_area m bid = Some (area_text path)
    /\ NoDup path
    /\ forall name, In name path ->
         name <> "" /\
         exists b node p_id,
           In (b, (node, p_id)) m /\
           mem (e_Role node) landmark_roles = true /\ node_name node = Some name.
Proof.
  intros m bid.
  destruct (area_loop_total (S (List.length m)) m [] (Some bid) [])
    as (p & Hp & Hnd & Hnames).
  - constructor.
  - intros x [].
  - simpl. lia.
  - split; [constructor | intros x []].
  - exists p. repeat split; try assumption.
    + intros extra. now apply area_loop_more_fuel.
    + unfold get_hierarchical_area. now rewrite Hp.
    + now apply Hnames.
    + now apply Hnames.
Qed.

End AreaFacts.

(** Two records that name each other as parent, under a form. *)
Definition cyclic_map : ObservationAnalyzer.linked_map :=
  let node id role name :=
    ObservationAnalyzer.mkElement id "DIV" role name "" "" None 1%Q 0 false [] [] in
  [("a", (node 1 "form" "Incident", Some "2"));
   ("b", (node 2 "region" "Details", Some "1"))].

Example hierarchical_area_of_cycle :
  ObservationAnalyzer.get_hierarchical_area cyclic_map "a" = Some "Details > Incident"
  /\ ObservationAnalyzer.get_hierarchical_area cyclic_map "zz" = Some "Main Content".
Proof. split; reflexivity. Qed.

(* ================================================================== *)
(** ** The audits at the head of the main loop *)
(* ================================================================== *)

Section FieldAuditFacts.
Import PyStr Autonomus_agent_main.
Context `{PyStr.Python} `{Pandas}.

Lemma set_add_In :
  forall x y s, In y (set_add x s) <-> y = x \/ In y s.
Proof.
  intros x y s. unfold set_add. destruct (mem x s) eqn:Hm.
  - apply mem_In in Hm. split; [auto | intros [-> | Hy]; assumption].
  - rewrite in_app_iff. simpl. intuition.
Qed.

Lemma set_remove_In :
  forall x y s, In y (set_remove x s) <-> In y s /\ y <> x.
Proof.
  intros x y s. unfold set_remove. rewrite filter_In.
  rewrite negb_true_iff, String.eqb_neq. reflexivity.
Qed.

Lemma audit_field_In :
  forall raw_df completed f t y,
    In y (audit_field raw_df completed (f, t)) <->
    (y = f /\ is_actually_filled raw_df f t = true) \/ (y <> f /\ In y completed).
Proof.
  intros raw_df completed f t y. unfold audit_field.
  destruct (is_actually_filled raw_df f t).
  - rewrite set_add_In. destruct (string_dec y f); intuition congruence.
  - rewrite set_remove_In. intuition congruence.
Qed.

Lemma audit_fold_membership :
  forall raw_df fields_spec completed,
    NoDup (Py.keys fields_spec) ->
    (forall f t, In (f, t) fields_spec ->
       (In f (fold_left (audit_field raw_df) fields_spec completed) <->
        is_actually_filled raw_df f t = true))
    /\ (forall f, ~ In f (Py.keys fields_spec) ->
          (In f (fold_left (audit_field raw_df) fields_spec completed) <->
           In f completed)).
Proof.
  intros raw_df fields_spec.
  induction fields_spec as [|[k v] rest IH]; intros completed Hnd.
  - split; [intros f t [] | reflexivity].
  - unfold Py.keys in *. simpl in Hnd. inversion Hnd as [|? ? Hk Hrest]; subst.
    destruct (IH (audit_field raw_df completed (k, v)) Hrest) as [IH1 IH2].
    split.
    + intros f t [Heq | Hin].
      * injection Heq as <- <-. cbn [fold_left].
        rewrite (IH2 k Hk), audit_field_In. intuition congruence.
      * now apply IH1.
    + intros f Hf. cbn [fold_left]. simpl in Hf.
      rewrite IH2 by tauto. rewrite audit_field_In.
      assert (f <> k) by (intros ->; tauto). intuition congruence.
Qed.

(** X28. On a table with at least one row, and for a specification that
    names each field once, the audit returns a set in which a specified
    field is present exactly when the live table confirms its target,
    whatever the set held before; the fields that the specification does
    not name keep their state. *)
Theorem field_audit_tracks_live_state :
  forall (raw_df : table) (fields_spec : pydict) (completed : list string),
    raw_df <> [] -> NoDup (Py.keys fields_spec) ->
    exists completed',
      audit_fields raw_df fields_spec completed = Some completed'
      /\ (forall f t, In (f, t) fields_spec ->
            (In f completed' <-> is_actually_filled raw_df f t = true))
      /\ (forall f, ~ In f (Py.keys fields_spec) ->
            (In f completed' <-> In f completed)).
Proof.
  intros raw_df fields_spec completed Hne Hnd.
  exists (fold_left (audit_field raw_df) fields_spec completed). split.
  - unfold audit_fields. destruct fields_spec; [reflexivity|].
    destruct raw_df; [contradiction | reflexivity].
  - now apply audit_fold_membership.
Qed.

Lemma contains_empty : forall s, contains "" s = true.
Proof. destruct s; reflexivity. Qed.

Lemma audit_rows_needs_label :
  forall raw_df f target idx rows,
    audit_rows raw_df f target idx rows = true ->
    exists r, In r rows /\ label_match f r = true.
Proof.
  intros raw_df f target idx rows. revert idx.
  induction rows as [|r rest IH]; simpl; intros idx Ha; [discriminate|].
  apply orb_true_iff in Ha. destruct Ha as [Ha | Ha].
  - apply andb_true_iff in Ha. exists r. intuition.
  - destruct (IH _ Ha) as (r' & Hin & Hl). exists r'. auto.
Qed.

Lemma audit_rows_empty_target :
  forall raw_df f idx rows r,
    In r rows -> label_match f r = true ->
    audit_rows raw_df f "" idx rows = true.
Proof.
  intros raw_df f idx rows r. revert idx.
  induction rows as [|r0 rest IH]; simpl; intros idx Hin Hl; [contradiction|].
  destruct Hin as [-> | Hin].
  - rewrite Hl. unfold row_confirms. now rewrite contains_empty.
  - rewrite (IH _ Hin Hl). apply orb_true_r.
Qed.

(** X29. A field is never confirmed without a row whose left label or
    inner text matches its name; and for a field whose target is absent
    or blank such a row is all it takes, whatever the values on the
    page. *)
Theorem blank_target_confirmed_by_label_alone :
  forall (raw_df : table) (f : string) (t : pyval),
    (is_actually_filled raw_df f t = true ->
     exists r, In r raw_df /\ label_match f r = true)
    /\ (target_val_str t = "" ->
        (is_actually_filled raw_df f t = true <->
         exists r, In r raw_df /\ label_match f r = true)).
Proof.
  intros raw_df f t. unfold is_actually_filled. split.
  - apply audit_rows_needs_label.
  - intros Ht. rewrite Ht. split.
    + apply audit_rows_needs_label.
    + intros (r & Hin & Hl). eapply audit_rows_empty_target; eauto.
Qed.

End FieldAuditFacts.

Section ExpansionFacts.
Import PyStr ObservationAnalyzer Autonomus_agent_main.
Context `{PyStr.Python}.

Lemma expanded_rows_of_analysis :
  forall focused items rows,
    expanded_rows (expanded_loop focused items) rows = [].
Proof.
  unfold expanded_rows. induction items as [|[bid data] rest IH]; intros rows.
  - reflexivity.
  - simpl. destruct (keeps focused bid data); [|apply IH].
    destruct rows as [|r rows]; [reflexivity|]. simpl.
    unfold Expanded at 1.
    destruct (contains _ (blob data)); simpl; py_ascii; simpl; apply IH.
Qed.

(** X30. The expansion audit of the main loop never records anything on
    a table of the analyzer: the analyzer writes Open or no in the
    Expanded column and the audit selects the rows that read YES, so the
    set of expanded areas is returned as it was; on the table of no row
    the audit raises. *)
Theorem expansion_audit_records_nothing :
  forall (umap : unified_map) (focused_bid : string)
         (completed_interactions : list string),
    audit_expanded (analyze_expanded umap focused_bid) (analyze umap focused_bid)
                   completed_interactions
    = match analyze umap focused_bid with
      | [] => None
      | _ => Some completed_interactions
      end.
Proof.
  intros umap focused c. unfold audit_expanded, analyze_expanded.
  destruct (analyze umap focused); [reflexivity|].
  now rewrite expanded_rows_of_analysis.
Qed.

End ExpansionFacts.

(** A label followed by the input that holds the value. *)
Definition label_then_input : table :=
  [plain_row "l1" "generic" "LABEL" "Category" "";
   plain_row "i1" "textbox" "INPUT" "" "Hardware"].

Lemma field_audit_tracks_live_state_witness :
  exists completed',
    @Autonomus_agent_main.audit_fields
      reference_python reference_pandas label_then_input
      [("Category", PStr "Hardware"); ("State", PStr "New")] ["State"]
    = Some completed'
    /\ (forall f t,
          In (f, t) [("Category", PStr "Hardware"); ("State", PStr "New")] ->
          (In f completed' <->
           @Autonomus_agent_main.is_actually_filled
             reference_python reference_pandas label_then_input f t
           = true))
    /\ (forall f,
          ~ In f (Py.keys [("Category", PStr "Hardware"); ("State", PStr "New")]) ->
          (In f completed' <-> In f ["State"])).
Proof.
  apply (@field_audit_tracks_live_state
           reference_python reference_pandas label_then_input
           [("Category", PStr "Hardware"); ("State", PStr "New")] ["State"]).
  - discriminate.
  - repeat constructor; simpl; intuition discriminate.
Defined.

Example field_audit_example :
  @Autonomus_agent_main.audit_fields
    reference_python reference_pandas label_then_input
    [("Category", PStr "Hardware"); ("State", PStr "New")] ["State"]
  = Some ["Category"]
  /\ @Autonomus_agent_main.audit_fields
       reference_python reference_pandas [] [("Category", PStr "Hardware")] [] = None.
Proof. split; vm_compute; reflexivity. Qed.
